(** * ELBE remote build control: SOAP client and pbuilder workflow

    A shallow embedding of [elbepack/soapclient.py] (class [ElbeSoapClient])
    and [elbepack/pbuilderaction.py] (the [PBuilderAction] registry and its
    three handlers), together with the properties of the transfer codec,
    the session manager, the status stream and the workflow orchestrator.

    Conventions.
    - Python [int] is [Z]; [bytes] is [list byte]; [str] is [string].
    - A Python function with effects is a state transformer over a
      [world]: the state of the remote service, the local files and the
      trace of observable actions, in program order.
    - Exceptions are values of [exn]; [sys.exit(n)] is [SystemExit n].
    - Every [while True] loop takes a [fuel] argument, the number of
      iterations the model follows; a run that needs more ends in
      [OutOfFuel] and stands for a program that is still running. *)

From Stdlib Require Import ZArith NArith List String Ascii Lia Bool.
From Stdlib Require Import Strings.Byte.
From stdpp Require Import gmap strings list pretty.

(** * Python's [binascii] base64 codec *)

Module Binascii.

Open Scope N_scope.

(** [table_b2a_base64] of CPython's [binascii.c]. *)
Definition table_b2a_base64 : list byte :=
  list_byte_of_string
    "ABCDEFGHIJKLMNOPQRSTUVWXYZabcdefghijklmnopqrstuvwxyz0123456789+/".

Definition BASE64_PAD : byte := x3d.
Definition NEWLINE : byte := x0a.

Definition b2a_char (v : N) : byte := nth (N.to_nat v) table_b2a_base64 x00.

Fixpoint index_of (ch : byte) (tbl : list byte) (i : N) : option N :=
  match tbl with
  | [] => None
  | c :: tbl' => if Byte.eqb ch c then Some i else index_of ch tbl' (N.succ i)
  end.

(** The inverse table; [None] stands for the entries that are not in the
    alphabet. *)
Definition table_a2b_base64 (ch : byte) : option N :=
  index_of ch table_b2a_base64 0.

(** Store into an [unsigned char]. *)
Definition uchar (n : N) : byte :=
  match Byte.of_N (n mod 256) with Some b => b | None => x00 end.

(** The sextets of a group of three input bytes. *)
Definition sextet1 (a : byte) : N := N.shiftr (Byte.to_N a) 2.
Definition sextet2 (a b : byte) : N :=
  N.lor (N.shiftl (N.land (Byte.to_N a) 3) 4) (N.shiftr (Byte.to_N b) 4).
Definition sextet3 (b c : byte) : N :=
  N.lor (N.shiftl (N.land (Byte.to_N b) 15) 2) (N.shiftr (Byte.to_N c) 6).
Definition sextet4 (c : byte) : N := N.land (Byte.to_N c) 63.

(** The body of [b2a_base64]: three bytes give four characters, a rest of
    one or two bytes is padded with [=]. *)
Fixpoint b2a_groups (bin_data : list byte) : list byte :=
  match bin_data with
  | [] => []
  | [a] =>
      [b2a_char (sextet1 a);
       b2a_char (N.shiftl (N.land (Byte.to_N a) 3) 4);
       BASE64_PAD; BASE64_PAD]
  | [a; b] =>
      [b2a_char (sextet1 a); b2a_char (sextet2 a b);
       b2a_char (N.shiftl (N.land (Byte.to_N b) 15) 2);
       BASE64_PAD]
  | a :: b :: c :: rest =>
      b2a_char (sextet1 a) :: b2a_char (sextet2 a b)
        :: b2a_char (sextet3 b c) :: b2a_char (sextet4 c)
        :: b2a_groups rest
  end.

(** [binascii.b2a_base64(data)]: the encoded line with its newline. *)
Definition b2a_base64 (bin_data : list byte) : list byte :=
  b2a_groups bin_data ++ [NEWLINE].

(** [binascii.a2b_base64(data)], not in strict mode: characters outside
    the alphabet are skipped, a complete run of padding ends the input, and
    the input must not end inside a group.  [None] is [binascii.Error]. *)
Fixpoint a2b_loop (ascii_data : list byte) (quad_pos leftchar pads : N)
    (bin_data : list byte) : option (list byte) :=
  match ascii_data with
  | [] => if quad_pos =? 0 then Some bin_data else None
  | this_ch :: rest =>
      if Byte.eqb this_ch BASE64_PAD then
        if 2 <=? quad_pos then
          if 4 <=? quad_pos + (pads + 1) then Some bin_data
          else a2b_loop rest quad_pos leftchar (pads + 1) bin_data
        else a2b_loop rest quad_pos leftchar pads bin_data
      else
        match table_a2b_base64 this_ch with
        | None => a2b_loop rest quad_pos leftchar pads bin_data
        | Some v =>
            if quad_pos =? 0 then a2b_loop rest 1 v 0 bin_data
            else if quad_pos =? 1 then
              a2b_loop rest 2 (N.land v 15) 0
                (bin_data ++ [uchar (N.lor (N.shiftl leftchar 2) (N.shiftr v 4))])
            else if quad_pos =? 2 then
              a2b_loop rest 3 (N.land v 3) 0
                (bin_data ++ [uchar (N.lor (N.shiftl leftchar 4) (N.shiftr v 2))])
            else
              a2b_loop rest 0 0 0
                (bin_data ++ [uchar (N.lor (N.shiftl leftchar 6) v)])
        end
  end.

Definition a2b_base64 (ascii_data : list byte) : option (list byte) :=
  a2b_loop ascii_data 0 0 0 [].

(** [bytes.decode('ascii')] and the conversion of an ASCII [str] argument:
    both fail on a code above 127. *)
Definition is_ascii (b : byte) : bool := Byte.to_N b <? 128.

Definition decode_ascii (data : list byte) : option string :=
  if forallb is_ascii data then Some (string_of_list_byte data) else None.

Definition encode_ascii (s : string) : option (list byte) :=
  let data := list_byte_of_string s in
  if forallb is_ascii data then Some data else None.

(** All the bytes, for the checks by enumeration. *)
Definition all_bytes : list byte := map (fun n => uchar (N.of_nat n)) (seq 0 256).

(** What the decoder needs of the character of a sextet: it is in the
    alphabet, at the place of the sextet, and it is ASCII. *)
Definition alpha (v : N) : bool :=
  negb (Byte.eqb (b2a_char v) BASE64_PAD)
  && match table_a2b_base64 (b2a_char v) with
     | Some w => w =? v
     | None => false
     end
  && is_ascii (b2a_char v).

End Binascii.

Open Scope string_scope.
Open Scope list_scope.
Open Scope Z_scope.

(** * Exceptions, outcomes and the world *)

(** The exception classes that occur.  [SocketError] is [socket.error],
    that is [OSError]; [URLError] is a subclass of it.  [BadStatusLine]
    carries the two texts the client prints, [str(e)] and [repr(e.line)].
    [WebFault] is any other fault of a remote call. *)
Inductive exn : Type :=
| URLError
| SocketError
| BadStatusLine (str_e repr_line : string)
| WebFault (msg : string)
| ElbeVersionMismatch (client_version server_version : string)
| CliError (code : Z) (msg : string)
| ValueError (msg : string)
| RuntimeError (msg : string)
| SystemExit (code : Z)
| UnboundLocalError (name : string)
| BinasciiError
| UnicodeDecodeError
| KeyError (key : string)
| FileNotFoundError (path : string)
| CalledProcessError
| NotImplementedError (msg : string).

Inductive outcome (A : Type) : Type :=
| Ret (a : A)
| Raise (e : exn)
| OutOfFuel.
Arguments Ret {A} a.
Arguments Raise {A} e.
Arguments OutOfFuel {A}.

(** What a remote call or an external command answers. *)
Inductive reply (A : Type) : Type :=
| Ans (a : A)
| Fault (e : exn).
Arguments Ans {A} a.
Arguments Fault {A} e.

(** The requests of the SOAP interface, with their arguments. *)
Inductive call : Type :=
| Call_Client (wsdl : string) (timeout : Z)
| Call_get_version
| Call_login (user passwd : string)
| Call_get_file (builddir filename : string) (part : Z)
| Call_upload_file (builddir fname data : string) (part : Z)
| Call_get_project_busy (project_dir : string)
| Call_get_project (project_dir : string)
| Call_start_upload_orig (builddir fname : string)
| Call_append_upload_orig (builddir data : string)
| Call_finish_upload_orig (builddir : string)
| Call_start_pdebuild (builddir : string)
| Call_append_pdebuild (builddir data : string)
| Call_finish_pdebuild (builddir profile : string) (cross : bool)
| Call_start_cdrom (builddir : string)
| Call_append_cdrom (builddir data : string)
| Call_finish_cdrom (builddir : string).

(** A reply as it is recorded in the trace. *)
Inductive value : Type :=
| VNone
| VInt (z : Z)
| VStr (s : string).

Inductive event : Type :=
| Ev_call (c : call) (r : reply value)
| Ev_sleep (milliseconds : Z)
| Ev_stderr (line : string)
| Ev_stdout (line : string)
| Ev_log (level msg : string)
| Ev_yield (msg : string)
| Ev_system (cmd : string) (ok : bool)
| Ev_command_out_stderr (cmd : string) (ret : Z) (out err : string)
| Ev_preprocess (xmlfile : string) (r : reply value).

(** The world a function runs in: the remote side (of a type [R] the client
    knows nothing about), the local files and the file objects open for
    writing. *)
Record world (R : Type) : Type := World {
  remote : R;
  files : gmap string (list byte);
  open_files : gset string
}.
Arguments World {R} remote files open_files.
Arguments remote {R} w.
Arguments files {R} w.
Arguments open_files {R} w.

(** The result of running a function: how it ended, the world it left, and
    the events it produced, in order. *)
Record run (R A : Type) : Type := Run {
  result : outcome A;
  after : world R;
  events : list event
}.
Arguments Run {R A} result after events.
Arguments result {R A} r.
Arguments after {R A} r.
Arguments events {R A} r.

Definition M (R A : Type) : Type := world R -> run R A.

Section Monad.
Context {R : Type}.

Definition ret {A} (a : A) : M R A := fun w => Run (Ret a) w [].
Definition raise {A} (e : exn) : M R A := fun w => Run (Raise e) w [].
Definition out_of_fuel {A} : M R A := fun w => Run OutOfFuel w [].

Definition bind {A B} (m : M R A) (k : A -> M R B) : M R B := fun w =>
  let r := m w in
  match result r with
  | Ret a =>
      let r' := k a (after r) in
      Run (result r') (after r') (events r ++ events r')
  | Raise e => Run (Raise e) (after r) (events r)
  | OutOfFuel => Run OutOfFuel (after r) (events r)
  end.

(** [try: m except <classes>: handler], where the handler is chosen by the
    exception; [None] lets it pass. *)
Definition try_except {A} (m : M R A) (handler : exn -> option (M R A)) : M R A :=
  fun w =>
    let r := m w in
    match result r with
    | Raise e =>
        match handler e with
        | Some h =>
            let r' := h (after r) in
            Run (result r') (after r') (events r ++ events r')
        | None => r
        end
    | _ => r
    end.

Definition emit (e : event) : M R unit := fun w => Run (Ret tt) w [e].

(** A remote call: the service moves on, the request and its reply are
    recorded, a fault is raised in the caller. *)
Definition invoke {A} (c : call) (show : A -> value)
    (method : R -> reply A * R) : M R A := fun w =>
  let (r, remote') := method (remote w) in
  let w' := World remote' (files w) (open_files w) in
  match r with
  | Ans a => Run (Ret a) w' [Ev_call c (Ans (show a))]
  | Fault e => Run (Raise e) w' [Ev_call c (Fault e)]
  end.

(** [time.sleep], [print] and the logger. *)
Definition sleep (milliseconds : Z) : M R unit := emit (Ev_sleep milliseconds).
Definition print_stderr (line : string) : M R unit := emit (Ev_stderr line).
Definition print (line : string) : M R unit := emit (Ev_stdout line).
Definition log (level msg : string) : M R unit := emit (Ev_log level msg).

(** [open(path, 'wb')], [fp.write], [fp.close]. *)
Definition open_wb (path : string) : M R unit := fun w =>
  Run (Ret tt) (World (remote w) (<[path := []]> (files w)) ({[path]} ∪ open_files w)) [].
Definition fp_write (path : string) (data : list byte) : M R unit := fun w =>
  Run (Ret tt)
    (World (remote w)
       (<[path := default [] (files w !! path) ++ data]> (files w))
       (open_files w)) [].
Definition fp_close (path : string) : M R unit := fun w =>
  Run (Ret tt) (World (remote w) (files w) (open_files w ∖ {[path]})) [].

(** [open(path, 'rb')]: the content that the reads will go through. *)
Definition open_rb (path : string) : M R (list byte) := fun w =>
  match files w !! path with
  | Some content => Run (Ret content) w []
  | None => Run (Raise (FileNotFoundError path)) w []
  end.
End Monad.

Notation "'let*' x ':=' m 'in' k" := (bind m (fun x => k))
  (at level 10, x name, m at level 100, k at level 200, only parsing).
Notation "m '>>' k" := (bind m (fun _ => k))
  (at level 100, k at level 200, right associativity, only parsing).

(** [binascii.b2a_base64(data)] followed by [.decode('ascii')], and
    [binascii.a2b_base64] of a [str]. *)
Definition b2a_base64_str {R} (bin_data : list byte) : M R string :=
  match Binascii.decode_ascii (Binascii.b2a_base64 bin_data) with
  | Some s => ret s
  | None => raise UnicodeDecodeError
  end.

Definition a2b_base64_str {R} (data : string) : M R (list byte) :=
  match Binascii.encode_ascii data with
  | None => raise (ValueError "string argument should contain only ASCII characters")
  | Some ascii_data =>
      match Binascii.a2b_base64 ascii_data with
      | Some bin_data => ret bin_data
      | None => raise BinasciiError
      end
  end.

(** * The SOAP client ([elbepack/soapclient.py]) *)

(** The remote service, as the [suds] client presents it: one method per
    operation, each a transition of the remote state with a typed answer
    or a fault.  [rpc_Client] is the construction of the client object
    from the WSDL address; [rpc_get_project] answers the [status] field of
    the project, the only one that is read.  An empty text arrives as
    [None]. *)
Record Service (R : Type) : Type := {
  rpc_Client : string -> Z -> R -> reply unit * R;
  rpc_get_version : R -> reply string * R;
  rpc_login : string -> string -> R -> reply unit * R;
  rpc_get_file : string -> string -> Z -> R -> reply string * R;
  rpc_upload_file : string -> string -> string -> Z -> R -> reply Z * R;
  rpc_get_project_busy : string -> R -> reply (option string) * R;
  rpc_get_project : string -> R -> reply string * R;
  rpc_start_upload_orig : string -> string -> R -> reply unit * R;
  rpc_append_upload_orig : string -> string -> R -> reply unit * R;
  rpc_finish_upload_orig : string -> R -> reply unit * R;
  rpc_start_pdebuild : string -> R -> reply unit * R;
  rpc_append_pdebuild : string -> string -> R -> reply unit * R;
  rpc_finish_pdebuild : string -> string -> bool -> R -> reply unit * R;
  rpc_start_cdrom : string -> R -> reply unit * R;
  rpc_append_cdrom : string -> string -> R -> reply unit * R;
  rpc_finish_cdrom : string -> R -> reply unit * R
}.
Arguments rpc_Client {R} s.
Arguments rpc_get_version {R} s.
Arguments rpc_login {R} s.
Arguments rpc_get_file {R} s.
Arguments rpc_upload_file {R} s.
Arguments rpc_get_project_busy {R} s.
Arguments rpc_get_project {R} s.
Arguments rpc_start_upload_orig {R} s.
Arguments rpc_append_upload_orig {R} s.
Arguments rpc_finish_upload_orig {R} s.
Arguments rpc_start_pdebuild {R} s.
Arguments rpc_append_pdebuild {R} s.
Arguments rpc_finish_pdebuild {R} s.
Arguments rpc_start_cdrom {R} s.
Arguments rpc_append_cdrom {R} s.
Arguments rpc_finish_cdrom {R} s.

(** The attributes set by [ElbeSoapClient.__init__]. *)
Record ElbeSoapClient : Type := {
  _wsdl : string;
  _timeout : Z;
  _retries : Z;
  _user : string;
  _passwd : string;
  host : string;
  port : Z
}.

Definition ElbeSoapClient_init (host : string) (port : Z) (user passwd : string)
    (timeout retries : Z) : ElbeSoapClient :=
  {| _wsdl := "http://" +:+ host +:+ ":" +:+ pretty port +:+ "/soap/?wsdl";
     _timeout := timeout;
     _retries := retries;
     _user := user;
     _passwd := passwd;
     host := host;
     port := port |}.

Definition show_unit (_ : unit) : value := VNone.
Definition show_opt (o : option string) : value :=
  match o with Some s => VStr s | None => VNone end.

(** [os.path.basename]: what follows the last slash. *)
Fixpoint basename (path : string) : string :=
  match path with
  | EmptyString => EmptyString
  | String c rest =>
      if Ascii.eqb c "/" then basename rest
      else if existsb (Ascii.eqb "/") (list_ascii_of_string rest) then basename rest
      else path
  end.

Section Client.
Context {R : Type} (service : Service R).

(** The version of the client, [elbepack.version.elbe_version]. *)
Variable elbe_version : string.

(** [ElbeXML(filename, ...).has(path)]: whether the document has an
    element at [path]. *)
Variable ElbeXML_has : list byte -> string -> bool.

(** ** The calls, as the client issues them *)

Definition Client (wsdl : string) (timeout : Z) : M R unit :=
  invoke (Call_Client wsdl timeout) show_unit (rpc_Client service wsdl timeout).
Definition service_get_version : M R string :=
  invoke Call_get_version VStr (rpc_get_version service).
Definition service_login (user passwd : string) : M R unit :=
  invoke (Call_login user passwd) show_unit (rpc_login service user passwd).
Definition service_get_file (builddir filename : string) (part : Z) : M R string :=
  invoke (Call_get_file builddir filename part) VStr
    (rpc_get_file service builddir filename part).
Definition service_upload_file (builddir fname data : string) (part : Z) : M R Z :=
  invoke (Call_upload_file builddir fname data part) VInt
    (rpc_upload_file service builddir fname data part).
Definition service_get_project_busy (project_dir : string) : M R (option string) :=
  invoke (Call_get_project_busy project_dir) show_opt
    (rpc_get_project_busy service project_dir).
Definition service_get_project (project_dir : string) : M R string :=
  invoke (Call_get_project project_dir) VStr (rpc_get_project service project_dir).
Definition service_start_upload_orig (builddir fname : string) : M R unit :=
  invoke (Call_start_upload_orig builddir fname) show_unit
    (rpc_start_upload_orig service builddir fname).
Definition service_append_upload_orig (builddir data : string) : M R unit :=
  invoke (Call_append_upload_orig builddir data) show_unit
    (rpc_append_upload_orig service builddir data).
Definition service_finish_upload_orig (builddir : string) : M R unit :=
  invoke (Call_finish_upload_orig builddir) show_unit
    (rpc_finish_upload_orig service builddir).
Definition service_start_pdebuild (builddir : string) : M R unit :=
  invoke (Call_start_pdebuild builddir) show_unit (rpc_start_pdebuild service builddir).
Definition service_append_pdebuild (builddir data : string) : M R unit :=
  invoke (Call_append_pdebuild builddir data) show_unit
    (rpc_append_pdebuild service builddir data).
Definition service_finish_pdebuild (builddir profile : string) (cross : bool) : M R unit :=
  invoke (Call_finish_pdebuild builddir profile cross) show_unit
    (rpc_finish_pdebuild service builddir profile cross).
Definition service_start_cdrom (builddir : string) : M R unit :=
  invoke (Call_start_cdrom builddir) show_unit (rpc_start_cdrom service builddir).
Definition service_append_cdrom (builddir data : string) : M R unit :=
  invoke (Call_append_cdrom builddir data) show_unit
    (rpc_append_cdrom service builddir data).
Definition service_finish_cdrom (builddir : string) : M R unit :=
  invoke (Call_finish_cdrom builddir) show_unit (rpc_finish_cdrom service builddir).

(** ** [ElbeVersionMismatch.check] *)
Definition ElbeVersionMismatch_check (client_version server_version : string) : M R unit :=
  if negb (String.eqb client_version server_version)
  then raise (ElbeVersionMismatch client_version server_version)
  else ret tt.

(** ** [connect] *)

(** [except (URLError, socket.error, BadStatusLine)]; [socket.error] is
    [OSError], with its subclasses. *)
Definition connect_error (e : exn) : bool :=
  match e with
  | URLError | SocketError | FileNotFoundError _ | BadStatusLine _ _ => true
  | _ => false
  end.

(** The loop [while control is None]; it ends with the client object,
    which the model does not keep: the calls that follow go to
    [service]. *)
Fixpoint connect_loop (fuel : nat) (self : ElbeSoapClient) (current_retries : Z)
    : M R unit :=
  match fuel with
  | O => out_of_fuel
  | S fuel' =>
      let current_retries := current_retries + 1 in
      let* control :=
        try_except
          (let* control := Client (_wsdl self) (_timeout self) in ret (Some control))
          (fun e =>
             if connect_error e then
               Some (if current_retries >? _retries self then raise e
                     else sleep 1000 >> ret None)
             else None) in
      match control with
      | Some _ => ret tt
      | None => connect_loop fuel' self current_retries
      end
  end.

Definition connect (fuel : nat) (self : ElbeSoapClient) : M R unit :=
  connect_loop fuel self 0 >>
  let* server_version := service_get_version in
  ElbeVersionMismatch_check elbe_version server_version >>
  service_login (_user self) (_passwd self).

(** ** [download_file] *)

(** The loop [while True] of [download_file]; [ret_] is the local
    variable [ret], [None] while it is unbound. *)
Fixpoint download_loop (fuel : nat) (builddir filename dst_fname : string)
    (part retry : Z) (ret_ : option string) : M R unit :=
  match fuel with
  | O => out_of_fuel
  | S fuel' =>
      let* locals :=
        try_except
          (let* ret_ := service_get_file builddir filename part in
           ret (retry, Some ret_))
          (fun e =>
             match e with
             | BadStatusLine str_e repr_line =>
                 Some (
                   let retry := retry - 1 in
                   print_stderr ("get_file part " +:+ pretty part +:+ " failed, retry "
                                 +:+ pretty retry +:+ " times") >>
                   print_stderr str_e >>
                   print_stderr repr_line >>
                   if retry =? 0 then
                     fp_close dst_fname >>
                     print_stderr "file transfer failed" >>
                     raise (SystemExit 170)
                   else ret (retry, ret_))
             | _ => None
             end) in
      let '(retry, ret_) := locals in
      match ret_ with
      | None => raise (UnboundLocalError "ret")
      | Some data =>
          if String.eqb data "EndOfFile" then
            fp_close dst_fname >> ret tt
          else
            let* bin_data := a2b_base64_str data in
            fp_write dst_fname bin_data >>
            download_loop fuel' builddir filename dst_fname (part + 1) retry ret_
      end
  end.

Definition download_file (fuel : nat) (builddir filename dst_fname : string) : M R unit :=
  open_wb dst_fname >>
  download_loop fuel builddir filename dst_fname 0 5 None.

(** ** [_upload_file] *)

(** The loop [while True] of [_upload_file]; [f] is what is left to read
    of the file, [size] the block size. *)
Fixpoint upload_loop (fuel : nat) (size : Z) (append : string -> string -> M R unit)
    (build_dir : string) (f : list byte) : M R unit :=
  match fuel with
  | O => out_of_fuel
  | S fuel' =>
      let bin_data := take (Z.to_nat size) f in
      let f := drop (Z.to_nat size) f in
      let* data := b2a_base64_str bin_data in
      append build_dir data >>
      if negb (Z.of_nat (length bin_data) =? size) then ret tt
      else upload_loop fuel' size append build_dir f
  end.

Definition _upload_file (fuel : nat) (append : string -> string -> M R unit)
    (build_dir filename : string) : M R unit :=
  let size := 1024 * 1024 in
  let* f := open_rb filename in
  upload_loop fuel size append build_dir f.

(** ** [wait_busy] *)

(** The generator [wait_busy], run to its end: each [yield] is an event.
    [except socket.error] catches [OSError] and its subclasses. *)
Definition socket_error (e : exn) : bool :=
  match e with
  | SocketError | URLError | FileNotFoundError _ => true
  | _ => false
  end.

(** [not msg] *)
Definition falsy (msg : option string) : bool :=
  match msg with
  | None => true
  | Some s => String.eqb s ""
  end.

Fixpoint wait_busy_loop (fuel : nat) (project_dir : string) : M R unit :=
  match fuel with
  | O => out_of_fuel
  | S fuel' =>
      let* polled :=
        try_except
          (let* msg := service_get_project_busy project_dir in ret (Some msg))
          (fun e =>
             if socket_error e then
               Some (log "warning" "socket error during wait busy occured, retry.." >>
                     ret None)
             else None) in
      match polled with
      | None => wait_busy_loop fuel' project_dir
      | Some msg =>
          if falsy msg then
            sleep 100 >> wait_busy_loop fuel' project_dir
          else
            let text := default "" msg in
            if String.eqb text "ELBE-FINISH" then ret tt
            else emit (Ev_yield text) >> wait_busy_loop fuel' project_dir
      end
  end.

Definition wait_busy (fuel : nat) (project_dir : string) : M R unit :=
  wait_busy_loop fuel project_dir >>
  let* status := service_get_project project_dir in
  if negb (String.eqb status "build_done") then
    raise (CliError 191
             ("Project build was not successful, current status: " +:+ status))
  else ret tt.

(** ** [set_xml] *)

Fixpoint set_xml_loop (fuel : nat) (size : Z) (builddir : string) (fp : list byte)
    (part : Z) : M R unit :=
  match fuel with
  | O => out_of_fuel
  | S fuel' =>
      let block := take (Z.to_nat size) fp in
      let fp := drop (Z.to_nat size) fp in
      let* xml_base64 := b2a_base64_str block in
      let* part :=
        if (String.length xml_base64 =? 1)%nat then
          service_upload_file builddir "source.xml" xml_base64 (-1)
        else
          service_upload_file builddir "source.xml" xml_base64 part in
      if part =? -1 then raise (RuntimeError "project busy, upload not allowed")
      else if part =? -2 then log "debug" "upload of xml finished" >> ret tt
      else set_xml_loop fuel' size builddir fp part
  end.

Definition set_xml (fuel : nat) (builddir filename : string) : M R unit :=
  let* x := open_rb filename in
  if negb (ElbeXML_has x "target") then
    raise (ValueError "<target> is missing, this file can't be built in an initvm")
  else
    let size := 1024 * 1024 in
    let part := 0 in
    let* fp := open_rb filename in
    set_xml_loop fuel size builddir fp part.

(** ** [set_orig], [set_pdebuild], [set_cdrom] *)

Definition set_orig (fuel : nat) (builddir orig_file : string) : M R unit :=
  service_start_upload_orig builddir (basename orig_file) >>
  _upload_file fuel service_append_upload_orig builddir orig_file >>
  service_finish_upload_orig builddir.

Definition set_pdebuild (fuel : nat) (builddir pdebuild_file profile : string)
    (cross : bool) : M R unit :=
  service_start_pdebuild builddir >>
  _upload_file fuel service_append_pdebuild builddir pdebuild_file >>
  service_finish_pdebuild builddir profile cross.

Definition set_cdrom (fuel : nat) (builddir cdrom_file : string) : M R unit :=
  service_start_cdrom builddir >>
  _upload_file fuel service_append_cdrom builddir cdrom_file >>
  service_finish_cdrom builddir.

End Client.

(** * Two services to run the client against *)

(** ** A scripted service *)

(** The service of a test: its state is the list of the replies still to
    give, whatever the request.  A reply of the wrong type, or a request
    after the last reply, is a fault. *)
Definition script : Type := list (reply value).

Definition as_unit (v : value) : option unit :=
  match v with VNone => Some tt | _ => None end.
Definition as_str (v : value) : option string :=
  match v with VStr s => Some s | _ => None end.
Definition as_int (v : value) : option Z :=
  match v with VInt z => Some z | _ => None end.
Definition as_opt (v : value) : option (option string) :=
  match v with VStr s => Some (Some s) | VNone => Some None | _ => None end.

Definition next_reply {A} (conv : value -> option A) (s : script) : reply A * script :=
  match s with
  | [] => (Fault (WebFault "no reply"), [])
  | Ans v :: s' =>
      (match conv v with Some a => Ans a | None => Fault (WebFault "type") end, s')
  | Fault e :: s' => (Fault e, s')
  end.

Definition scripted : Service script :=
  {| rpc_Client _ _ := next_reply as_unit;
     rpc_get_version := next_reply as_str;
     rpc_login _ _ := next_reply as_unit;
     rpc_get_file _ _ _ := next_reply as_str;
     rpc_upload_file _ _ _ _ := next_reply as_int;
     rpc_get_project_busy _ := next_reply as_opt;
     rpc_get_project _ := next_reply as_str;
     rpc_start_upload_orig _ _ := next_reply as_unit;
     rpc_append_upload_orig _ _ := next_reply as_unit;
     rpc_finish_upload_orig _ := next_reply as_unit;
     rpc_start_pdebuild _ := next_reply as_unit;
     rpc_append_pdebuild _ _ := next_reply as_unit;
     rpc_finish_pdebuild _ _ _ := next_reply as_unit;
     rpc_start_cdrom _ := next_reply as_unit;
     rpc_append_cdrom _ _ := next_reply as_unit;
     rpc_finish_cdrom _ := next_reply as_unit |}.

Definition world0 {R} (remote : R) (files : list (string * list byte)) : world R :=
  World remote (list_to_map files) ∅.

(** ** The remote side of the file transfers *)

(** Modelled from the spec: the state of the remote service that the
    transfers go through; the code of the service is not part of the
    sources.  [store] holds the remote files, by build directory and name,
    [uploading] the name of the file an upload goes to. *)
Record transfer_store : Type := {
  store : gmap (string * string) (list byte);
  uploading : gmap string string
}.

(** Modelled from the spec: the size of the chunks the service answers
    get-chunk requests with, 1 MiB (a file of 2.5 MiB is served in three
    chunks and an end-of-file reply). *)
Definition chunk_size : Z := 1024 * 1024.

(** Modelled from the spec: the start of an upload, which the service code
    (not in the sources) handles; the remote file starts empty. *)
Definition remote_start_upload (builddir fname : string) (s : transfer_store)
    : reply unit * transfer_store :=
  (Ans tt, {| store := <[(builddir, fname) := []]> (store s);
              uploading := <[builddir := fname]> (uploading s) |}).

(** Modelled from the spec: an append call; the block is decoded and
    appended remotely, in the order of the calls. *)
Definition remote_append_upload (builddir data : string) (s : transfer_store)
    : reply unit * transfer_store :=
  match uploading s !! builddir with
  | None => (Fault (WebFault "no upload in progress"), s)
  | Some fname =>
      match Binascii.encode_ascii data with
      | None => (Fault (WebFault "not ASCII"), s)
      | Some ascii_data =>
          match Binascii.a2b_base64 ascii_data with
          | None => (Fault (WebFault "not base64"), s)
          | Some bin_data =>
              (Ans tt,
               {| store := <[(builddir, fname) :=
                              default [] (store s !! (builddir, fname)) ++ bin_data]>
                           (store s);
                  uploading := uploading s |})
          end
      end
  end.

(** Modelled from the spec: the explicit finish call that signals
    completion. *)
Definition remote_finish_upload (builddir : string) (s : transfer_store)
    : reply unit * transfer_store :=
  (Ans tt, {| store := store s; uploading := delete builddir (uploading s) |}).

(** Modelled from the spec: a get-chunk request; the content is served
    chunk by chunk by ascending index, with the reply end-of-file for an
    index past the last chunk. *)
Definition remote_get_file (size : Z) (builddir filename : string) (part : Z)
    (s : transfer_store) : reply string * transfer_store :=
  match store s !! (builddir, filename) with
  | None => (Fault (WebFault "no such file"), s)
  | Some content =>
      let pos := size * part in
      if Z.of_nat (length content) <=? pos then (Ans "EndOfFile", s)
      else
        match Binascii.decode_ascii
                (Binascii.b2a_base64
                   (take (Z.to_nat size) (drop (Z.to_nat pos) content))) with
        | Some data => (Ans data, s)
        | None => (Fault (WebFault "not ASCII"), s)
        end
  end.

Definition on_snd {A R0 S} (f : S -> reply A * S) (r : R0 * S) : reply A * (R0 * S) :=
  let (a, s) := f (snd r) in (a, (fst r, s)).
Definition on_fst {A R0 S} (f : R0 -> reply A * R0) (r : R0 * S) : reply A * (R0 * S) :=
  let (a, s) := f (fst r) in (a, (s, snd r)).

(** A service whose transfers of orig files and of remote files go through
    the store, and whose other operations are those of [base]. *)
Definition transfer_service {R0} (chunk : Z) (base : Service R0)
    : Service (R0 * transfer_store) :=
  {| rpc_Client wsdl timeout := on_fst (rpc_Client base wsdl timeout);
     rpc_get_version := on_fst (rpc_get_version base);
     rpc_login user passwd := on_fst (rpc_login base user passwd);
     rpc_get_file builddir filename part :=
       on_snd (remote_get_file chunk builddir filename part);
     rpc_upload_file builddir fname data part :=
       on_fst (rpc_upload_file base builddir fname data part);
     rpc_get_project_busy dir := on_fst (rpc_get_project_busy base dir);
     rpc_get_project dir := on_fst (rpc_get_project base dir);
     rpc_start_upload_orig builddir fname := on_snd (remote_start_upload builddir fname);
     rpc_append_upload_orig builddir data := on_snd (remote_append_upload builddir data);
     rpc_finish_upload_orig builddir := on_snd (remote_finish_upload builddir);
     rpc_start_pdebuild builddir := on_fst (rpc_start_pdebuild base builddir);
     rpc_append_pdebuild builddir data := on_fst (rpc_append_pdebuild base builddir data);
     rpc_finish_pdebuild builddir profile cross :=
       on_fst (rpc_finish_pdebuild base builddir profile cross);
     rpc_start_cdrom builddir := on_fst (rpc_start_cdrom base builddir);
     rpc_append_cdrom builddir data := on_fst (rpc_append_cdrom base builddir data);
     rpc_finish_cdrom builddir := on_fst (rpc_finish_cdrom base builddir) |}.

Definition with_transfers {R0} (base : Service R0) : Service (R0 * transfer_store) :=
  transfer_service chunk_size base.

(** * The pbuilder workflow ([elbepack/pbuilderaction.py]) *)

(** The command runner, as the workflow uses it: [system] runs a command
    and raises [CalledProcessError] when it fails, [command_out_stderr]
    answers the exit status with what the command wrote, and
    [PreprocessWrapper] answers the name of the preprocessed document or
    raises [CalledProcessError]. *)
Record Shell (R : Type) : Type := {
  run_system : string -> R -> bool * R;
  run_command_out_stderr : string -> R -> (Z * string * string) * R;
  run_preprocess : string -> R -> option string * R
}.
Arguments run_system {R} s.
Arguments run_command_out_stderr {R} s.
Arguments run_preprocess {R} s.

(** The options that the handlers read. *)
Record options : Type := {
  cross : bool;
  noccache : bool;
  ccachesize : string;
  xmlfile : option string;
  project : option string;
  writeproject : option string;
  origfile : list string;
  cpuset : string;
  profile : string;
  skip_download : bool;
  outdir : option string
}.

(** The truth value of an option that is [None] or a text. *)
Definition given (o : option string) : bool :=
  match o with
  | None => false
  | Some s => negb (String.eqb s "")
  end.

Definition text (o : option string) : string := default "None" o.

(** The double quote. *)
Definition dq : string := String (ascii_of_nat 34) EmptyString.

(** [str.strip()] *)
Definition whitespace (c : ascii) : bool :=
  let n := nat_of_ascii c in
  ((9 <=? n) && (n <=? 13) || (n =? 32))%nat.

Fixpoint lstrip (s : string) : string :=
  match s with
  | String c rest => if whitespace c then lstrip rest else s
  | EmptyString => EmptyString
  end.

Definition strip (s : string) : string :=
  let rev s := string_of_list_ascii (List.rev (list_ascii_of_string s)) in
  rev (lstrip (rev (lstrip s))).

(** [opt.outdir = value] *)
Definition set_outdir (opt : options) (value : string) : options :=
  {| cross := cross opt; noccache := noccache opt; ccachesize := ccachesize opt;
     xmlfile := xmlfile opt; project := project opt;
     writeproject := writeproject opt; origfile := origfile opt;
     cpuset := cpuset opt; profile := profile opt;
     skip_download := skip_download opt; outdir := Some value |}.

Definition ensure_outdir {R} (opt : options) : M R options :=
  let opt :=
    match outdir opt with
    | None => set_outdir opt ".."
    | Some _ => opt
    end in
  print ("Saving generated Files to " +:+ text (outdir opt)) >> ret opt.

(** The handler classes, with their [tag]. *)
Inductive action_class : Type := CreateAction | UpdateAction | BuildAction.

Definition tag (action : action_class) : string :=
  match action with
  | CreateAction => "create"
  | UpdateAction => "update"
  | BuildAction => "build"
  end.

(** [PBuilderAction.register] *)
Definition register (action : action_class) (actiondict : gmap string action_class)
    : gmap string action_class :=
  <[tag action := action]> actiondict.

(** [PBuilderAction.actiondict] once the module is loaded: the three
    [register] statements of the module, in their order. *)
Definition actiondict : gmap string action_class :=
  register BuildAction (register CreateAction (register CreateAction ∅)).

(** An instance: its class and what [__init__] stores. *)
Record action : Type := { class_of : action_class; node : string }.

(** [PBuilderAction(node)]: [__new__] picks the class, [__init__] stores
    the node. *)
Definition PBuilderAction (node : string) : outcome action :=
  match actiondict !! node with
  | Some action => Ret {| class_of := action; node := node |}
  | None => Raise (KeyError node)
  end.

Section Workflow.
Context {R : Type} (shell : Shell R).

(** [sys.executable], [elbe_exe], and [TmpdirFilesystem().fname]. *)
Variables sys_executable elbe_exe : string.
Variable tmp_fname : string -> string.

Definition system (cmd : string) : M R unit := fun w =>
  let (ok, remote') := run_system shell cmd (remote w) in
  Run (if ok then Ret tt else Raise CalledProcessError)
      (World remote' (files w) (open_files w))
      [Ev_system cmd ok].

Definition command_out_stderr (cmd : string) : M R (Z * string * string) := fun w =>
  let '((code, out, err), remote') := run_command_out_stderr shell cmd (remote w) in
  Run (Ret (code, out, err))
      (World remote' (files w) (open_files w))
      [Ev_command_out_stderr cmd code out err].

Definition PreprocessWrapper (xmlfile : string) : M R string := fun w =>
  let (preproc, remote') := run_preprocess shell xmlfile (remote w) in
  let w' := World remote' (files w) (open_files w) in
  match preproc with
  | Some name => Run (Ret name) w' [Ev_preprocess xmlfile (Ans (VStr name))]
  | None => Run (Raise CalledProcessError) w' [Ev_preprocess xmlfile (Fault CalledProcessError)]
  end.

Definition sys_exit {A} (code : Z) : M R A := raise (SystemExit code).

(** [except subprocess.CalledProcessError: handler] *)
Definition except_CalledProcessError {A} (handler : M R A) (e : exn) : option (M R A) :=
  match e with
  | CalledProcessError => Some handler
  | _ => None
  end.

(** [elbe control ...] *)
Definition elbe_control (args : string) : string :=
  sys_executable +:+ " " +:+ elbe_exe +:+ " control " +:+ args.

Definition quoted (s : string) : string := dq +:+ s +:+ dq.

(** [open(path, 'w').write(text)] *)
Definition write_text (path content : string) : M R unit :=
  open_wb path >> fp_write path (list_byte_of_string content) >> fp_close path.

(** ** [CreateAction.execute] *)
Definition CreateAction_execute (opt : options) : M R unit :=
  let crossopt := if cross opt then "--cross" else "" in
  let '(ccacheopt, ccachesize) :=
    if noccache opt then ("--no-ccache", "") else ("--ccache-size", ccachesize opt) in
  let* prjdir :=
    if given (xmlfile opt) then
      let* prjdir :=
        try_except
          (let* preproc := PreprocessWrapper (text (xmlfile opt)) in
           let* created := command_out_stderr (elbe_control "create_project") in
           let '(code, prjdir, err) := created in
           (if negb (code =? 0) then
              print_stderr "elbe control create_project failed." >>
              print_stderr err >>
              print_stderr "Giving up" >>
              sys_exit 152
            else ret tt) >>
           let prjdir := strip prjdir in
           let* configured :=
             command_out_stderr
               (elbe_control ("set_xml " +:+ quoted prjdir +:+ " " +:+ quoted preproc)) in
           let '(code, out, err) := configured in
           (if negb (code =? 0) then
              print_stderr "elbe control set_xml failed." >>
              print_stderr err >>
              print_stderr "Giving up" >>
              sys_exit 153
            else ret tt) >>
           ret prjdir)
          (except_CalledProcessError
             (print_stderr "Giving up" >> sys_exit 154)) in
      (if given (writeproject opt) then write_text (text (writeproject opt)) prjdir
       else ret tt) >>
      ret prjdir
    else if given (project opt) then ret (text (project opt))
    else
      print_stderr "you need to specify --project option" >>
      sys_exit 155 in
  print "Creating pbuilder" >>
  try_except
    (system (elbe_control ("build_pbuilder " +:+ quoted prjdir +:+ " " +:+ crossopt
                           +:+ " " +:+ ccacheopt +:+ " " +:+ ccachesize)))
    (except_CalledProcessError
       (print_stderr "elbe control build_pbuilder Failed" >>
        print_stderr "Giving up" >>
        sys_exit 156)) >>
  try_except
    (system (elbe_control ("wait_busy " +:+ quoted prjdir)))
    (except_CalledProcessError
       (print_stderr "elbe control wait_busy Failed" >>
        print_stderr "Giving up" >>
        sys_exit 157)) >>
  print "" >>
  print "Building Pbuilder finished !" >>
  print "".

(** ** [UpdateAction.execute] *)
Definition UpdateAction_execute (opt : options) : M R unit :=
  (if negb (given (project opt)) then
     print_stderr "you need to specify --project option" >>
     sys_exit 158
   else ret tt) >>
  let prjdir := text (project opt) in
  print "Updating pbuilder" >>
  try_except
    (system (elbe_control ("update_pbuilder " +:+ quoted prjdir)))
    (except_CalledProcessError
       (print_stderr "elbe control update_pbuilder Failed" >>
        print_stderr "Giving up" >>
        sys_exit 159)) >>
  print "" >>
  print "Updating Pbuilder finished !" >>
  print "".

(** ** [BuildAction.execute] *)

(** The project to build in: created from [opt.xmlfile], or the one of
    [opt.project], whose log is removed. *)
Definition build_project (opt : options) : M R string :=
  if given (xmlfile opt) then
    let* created :=
      command_out_stderr
        (elbe_control ("create_project --retries 60 " +:+ quoted (text (xmlfile opt)))) in
    let '(code, prjdir, err) := created in
    (if negb (code =? 0) then
       print_stderr "elbe control create_project failed." >>
       print_stderr err >>
       print_stderr "Giving up" >>
       sys_exit 160
     else ret tt) >>
    let prjdir := strip prjdir in
    try_except
      (system (elbe_control ("build_pbuilder " +:+ quoted prjdir)))
      (except_CalledProcessError
         (print_stderr "elbe control build_pbuilder Failed" >>
          print_stderr "Giving up" >>
          sys_exit 161)) >>
    try_except
      (system (elbe_control ("wait_busy " +:+ quoted prjdir)))
      (except_CalledProcessError
         (print_stderr "elbe control wait_busy Failed" >>
          print_stderr "Giving up" >>
          sys_exit 162)) >>
    print "" >>
    print "Building Pbuilder finished !" >>
    print "" >>
    ret prjdir
  else if given (project opt) then
    let prjdir := text (project opt) in
    system (elbe_control ("rm_log " +:+ prjdir)) >>
    ret prjdir
  else
    print_stderr "you need to specify --project or --xmlfile option" >>
    sys_exit 163.

(** The source tree goes into an archive. *)
Definition build_pack : M R unit :=
  print "" >>
  print "Packing Source into tmp archive" >>
  print "" >>
  try_except
    (system ("tar cfz " +:+ quoted (tmp_fname "pdebuild.tar.gz") +:+ " ."))
    (except_CalledProcessError
       (print_stderr "tar Failed" >>
        print_stderr "Giving up" >>
        sys_exit 164)).

(** [for of in opt.origfile] *)
Fixpoint build_push_orig (prjdir : string) (origfiles : list string) : M R unit :=
  match origfiles with
  | [] => ret tt
  | of_ :: origfiles =>
      print "" >>
      print ("Pushing orig file '" +:+ of_ +:+ "' into pbuilder") >>
      print "" >>
      try_except
        (system (elbe_control ("set_orig " +:+ quoted prjdir +:+ " " +:+ quoted of_)))
        (except_CalledProcessError
           (print_stderr "elbe control set_orig Failed" >>
            print_stderr "Giving up" >>
            sys_exit 165)) >>
      build_push_orig prjdir origfiles
  end.

Definition build_push_source (opt : options) (crossopt prjdir : string) : M R unit :=
  print "" >>
  print "Pushing source into pbuilder" >>
  print "" >>
  try_except
    (system (elbe_control ("set_pdebuild --cpuset " +:+ quoted (cpuset opt)
                           +:+ " --profile " +:+ quoted (profile opt)
                           +:+ " " +:+ crossopt
                           +:+ " " +:+ quoted prjdir
                           +:+ " " +:+ quoted (tmp_fname "pdebuild.tar.gz"))))
    (except_CalledProcessError
       (print_stderr "elbe control set_pdebuild Failed" >>
        print_stderr "Giving up" >>
        sys_exit 166)).

Definition wait_busy_command (prjdir : string) : string :=
  elbe_control ("wait_busy " +:+ quoted prjdir).

Definition build_wait (prjdir : string) : M R unit :=
  try_except
    (system (wait_busy_command prjdir))
    (except_CalledProcessError
       (print_stderr "elbe control wait_busy Failed" >>
        print_stderr "Giving up" >>
        sys_exit 167)).

Definition dump_file_command (prjdir : string) : string :=
  elbe_control ("dump_file " +:+ quoted prjdir +:+ " log.txt").

(** What both branches of the retrieval do when [get_files] fails. *)
Definition dump_logfile (prjdir : string) (code : Z) : M R unit :=
  print_stderr "elbe control get_files Failed" >>
  print_stderr "" >>
  print_stderr "dumping logfile" >>
  try_except
    (system (dump_file_command prjdir))
    (except_CalledProcessError
       (print_stderr "elbe control dump_file Failed" >>
        print_stderr "" >>
        print_stderr "Giving up")) >>
  sys_exit code.

Definition list_files_command (prjdir : string) : string :=
  elbe_control ("--pbuilder-only get_files " +:+ quoted prjdir).

Definition get_files_command (opt : options) (prjdir : string) : string :=
  elbe_control ("--pbuilder-only get_files --output " +:+ quoted (text (outdir opt))
                +:+ " " +:+ quoted prjdir).

Definition build_fetch (opt : options) (prjdir : string) : M R unit :=
  if skip_download opt then
    print "" >>
    print "Listing available files:" >>
    print "" >>
    try_except
      (system (list_files_command prjdir))
      (except_CalledProcessError (dump_logfile prjdir 168)) >>
    print "" >>
    print ("Get Files with: 'elbe control get_file " +:+ prjdir +:+ " <filename>'")
  else
    print "" >>
    print "Getting generated Files" >>
    print "" >>
    let* opt := ensure_outdir opt in
    try_except
      (system (get_files_command opt prjdir))
      (except_CalledProcessError (dump_logfile prjdir 169)).

Definition BuildAction_execute (opt : options) : M R unit :=
  let crossopt := if cross opt then "--cross" else "" in
  let* prjdir := build_project opt in
  build_pack >>
  build_push_orig prjdir (origfile opt) >>
  build_push_source opt crossopt prjdir >>
  build_wait prjdir >>
  print "" >>
  print "Pdebuild finished !" >>
  print "" >>
  build_fetch opt prjdir.

(** [execute], by the class of the instance. *)
Definition execute (self : action) (opt : options) : M R unit :=
  match class_of self with
  | CreateAction => CreateAction_execute opt
  | UpdateAction => UpdateAction_execute opt
  | BuildAction => BuildAction_execute opt
  end.
End Workflow.

(** A scripted command runner: the results of the commands to come, in
    their order; past the script every command succeeds with nothing
    written. *)
Inductive command_result : Type :=
| Succeeds
| Fails
| Writes (code : Z) (out err : string).

Definition scripted_shell : Shell (list command_result) :=
  {| run_system _ s :=
       match s with
       | Fails :: s' => (false, s')
       | _ :: s' => (true, s')
       | [] => (true, [])
       end;
     run_command_out_stderr _ s :=
       match s with
       | Writes code out err :: s' => ((code, out, err), s')
       | Fails :: s' => ((1, "", ""), s')
       | Succeeds :: s' => ((0, "", ""), s')
       | [] => ((0, "", ""), [])
       end;
     run_preprocess xmlfile s :=
       match s with
       | Fails :: s' => (None, s')
       | _ :: s' => (Some (xmlfile +:+ ".pre"), s')
       | [] => (Some (xmlfile +:+ ".pre"), [])
       end |}.

(** * The vocabulary of the properties *)

(** ** The transfer codec *)

(** The text of a block on the wire. *)
Definition b64 (bin_data : list byte) : string :=
  string_of_list_byte (Binascii.b2a_base64 bin_data).

(** The [i]-th block of [size] bytes of a content. *)
Definition block (size : Z) (content : list byte) (i : nat) : list byte :=
  take (Z.to_nat size) (drop (i * Z.to_nat size) content).

(** The number of chunks of [size] bytes of a content of [len] bytes. *)
Definition chunks (size : Z) (len : nat) : nat :=
  ((len + Z.to_nat size - 1) / Z.to_nat size)%nat.

Definition start_event (builddir fname : string) : event :=
  Ev_call (Call_start_upload_orig builddir fname) (Ans VNone).

Definition append_event (builddir : string) (bin_data : list byte) : event :=
  Ev_call (Call_append_upload_orig builddir (b64 bin_data)) (Ans VNone).

Definition finish_event (builddir : string) : event :=
  Ev_call (Call_finish_upload_orig builddir) (Ans VNone).

Definition get_event (builddir filename : string) (part : nat) (data : string) : event :=
  Ev_call (Call_get_file builddir filename (Z.of_nat part)) (Ans (VStr data)).

(** What an upload leaves of the world: only the content of the file that
    is uploaded to changes, by [bin_data] at its end. *)
Definition appended {R0} (builddir fname : string) (bin_data : list byte)
    (w w' : world (R0 * transfer_store)) : Prop :=
  files w' = files w
  /\ open_files w' = open_files w
  /\ fst (remote w') = fst (remote w)
  /\ uploading (snd (remote w')) = uploading (snd (remote w))
  /\ store (snd (remote w')) !! (builddir, fname) =
       Some (default [] (store (snd (remote w)) !! (builddir, fname)) ++ bin_data).

(** What a download leaves of the world: the destination holds [content]
    and is closed. *)
Definition written {R0} (dst_fname : string) (content : list byte)
    (w w' : world (R0 * transfer_store)) : Prop :=
  fst (remote w') = fst (remote w)
  /\ snd (remote w') = snd (remote w)
  /\ files w' !! dst_fname = Some content
  /\ open_files w' = open_files w ∖ {[dst_fname]}.

(** ** The retry budget of a download *)

(** A get-chunk request that failed with [BadStatusLine]. *)
Definition bad_status (ev : event) : bool :=
  match ev with
  | Ev_call (Call_get_file _ _ _) (Fault (BadStatusLine _ _)) => true
  | _ => false
  end.

Fixpoint failures (evs : list event) : nat :=
  match evs with
  | [] => 0
  | ev :: rest => (if bad_status ev then 1 else 0) + failures rest
  end%nat.



(** The body of the loop of [download_file] after its [try] statement. *)
Definition download_rest {R} (service : Service R) (fuel : nat)
    (builddir filename dst_fname : string) (part : Z)
    (locals : Z * option string) : M R unit :=
  let '(retry, ret_) := locals in
  match ret_ with
  | None => raise (UnboundLocalError "ret")
  | Some data =>
      if String.eqb data "EndOfFile" then
        fp_close dst_fname >> ret tt
      else
        let* bin_data := a2b_base64_str data in
        fp_write dst_fname bin_data >>
        download_loop service fuel builddir filename dst_fname (part + 1) retry ret_
  end.









(** ** The session *)

(** The events of the loop of [connect]. *)
Definition connect_event (ev : event) : Prop :=
  match ev with
  | Ev_call (Call_Client _ _) _ | Ev_sleep _ => True
  | _ => False
  end.

(** ** The status stream *)

Definition poll_event (project_dir : string) (r : reply value) : event :=
  Ev_call (Call_get_project_busy project_dir) r.

Definition retry_warning : event :=
  Ev_log "warning" "socket error during wait busy occured, retry..".

(** The traces of the busy-progress stream, with how the stream ends:
    what follows each poll.  A trace stops short only where the model's
    fuel has run out. *)
Inductive busy_stream (project_dir : string) : list event -> outcome unit -> Prop :=
| stream_pending : busy_stream project_dir [] OutOfFuel
| stream_empty v rest out :
    v = VNone \/ v = VStr "" ->
    busy_stream project_dir rest out ->
    busy_stream project_dir (poll_event project_dir (Ans v) :: Ev_sleep 100 :: rest) out
| stream_retry e rest out :
    socket_error e = true ->
    busy_stream project_dir rest out ->
    busy_stream project_dir (poll_event project_dir (Fault e) :: retry_warning :: rest) out
| stream_yield msg rest out :
    msg <> "" -> msg <> "ELBE-FINISH" ->
    busy_stream project_dir rest out ->
    busy_stream project_dir
      (poll_event project_dir (Ans (VStr msg)) :: Ev_yield msg :: rest) out
| stream_finish :
    busy_stream project_dir [poll_event project_dir (Ans (VStr "ELBE-FINISH"))] (Ret tt)
| stream_fault e :
    socket_error e = false ->
    busy_stream project_dir [poll_event project_dir (Fault e)] (Raise e).

(** The number of polls of a trace. *)
Fixpoint polls (evs : list event) : nat :=
  match evs with
  | [] => 0
  | Ev_call (Call_get_project_busy _) _ :: rest => S (polls rest)
  | _ :: rest => polls rest
  end.

(** The stream polls again: the next event is a poll, unless the model's
    fuel has run out just there. *)
Definition polls_again (project_dir : string) (out : outcome unit) (rest : list event)
    : Prop :=
  (exists rep rest', rest = poll_event project_dir rep :: rest')
  \/ (rest = [] /\ out = OutOfFuel).

(** What follows a poll that was answered [rep], in a stream that ends with
    [out]. *)
Definition after_poll (project_dir : string) (out : outcome unit) (rep : reply value)
    (post : list event) : Prop :=
  let sleeps :=
    exists rest, post = Ev_sleep 100 :: rest /\ polls_again project_dir out rest in
  match rep with
  | Ans VNone => sleeps
  | Ans (VStr msg) =>
      if String.eqb msg "" then sleeps
      else if String.eqb msg "ELBE-FINISH" then post = [] /\ out = Ret tt
      else exists rest, post = Ev_yield msg :: rest /\ polls_again project_dir out rest
  | Ans (VInt _) => False
  | Fault e =>
      if socket_error e
      then exists rest, post = retry_warning :: rest /\ polls_again project_dir out rest
      else post = [] /\ out = Raise e
  end.

Definition status_failure (status : string) : exn :=
  CliError 191 ("Project build was not successful, current status: " +:+ status).

(** ** The acknowledged upload *)

Definition upload_event (builddir data : string) (part : Z) (r : reply value) : event :=
  Ev_call (Call_upload_file builddir "source.xml" data part) r.

(** The index that goes with a block: the reserved final marker with an
    empty block, else the index that was granted. *)
Definition index_for (blk : list byte) (granted : Z) : Z :=
  match blk with
  | [] => -1
  | _ => granted
  end.

Definition upload_finished : event := Ev_log "debug" "upload of xml finished".
Definition upload_rejected : exn := RuntimeError "project busy, upload not allowed".

(** The dialogues of the acknowledged upload, from an index granted, with
    how they end. *)
Inductive dialogue (builddir : string) : Z -> list event -> outcome unit -> Prop :=
| dialogue_pending granted : dialogue builddir granted [] OutOfFuel
| dialogue_granted granted blk next rest out :
    next <> -1 -> next <> -2 ->
    dialogue builddir next rest out ->
    dialogue builddir granted
      (upload_event builddir (b64 blk) (index_for blk granted) (Ans (VInt next)) :: rest)
      out
| dialogue_reject granted blk :
    dialogue builddir granted
      [upload_event builddir (b64 blk) (index_for blk granted) (Ans (VInt (-1)))]
      (Raise upload_rejected)
| dialogue_complete granted blk :
    dialogue builddir granted
      [upload_event builddir (b64 blk) (index_for blk granted) (Ans (VInt (-2)));
       upload_finished]
      (Ret tt)
| dialogue_fault granted blk e :
    dialogue builddir granted
      [upload_event builddir (b64 blk) (index_for blk granted) (Fault e)]
      (Raise e).

(** ** The build pipeline *)

Definition ends_with (suffix evs : list event) : Prop :=
  exists pre, evs = pre ++ suffix.

(** The commands of a trace, each with its success. *)
Fixpoint commands (evs : list event) : list (string * bool) :=
  match evs with
  | [] => []
  | Ev_system cmd ok :: rest => (cmd, ok) :: commands rest
  | _ :: rest => commands rest
  end.

(** What a failed wait leaves at the end of the trace. *)
Definition wait_busy_failed (sys_executable elbe_exe prjdir : string) : list event :=
  [Ev_system (wait_busy_command sys_executable elbe_exe prjdir) false;
   Ev_stderr "elbe control wait_busy Failed";
   Ev_stderr "Giving up"].

(** What a failed retrieval leaves at the end of the trace; [dumped] tells
    whether the dump of the log file succeeded. *)
Definition get_files_failed (sys_executable elbe_exe command prjdir : string)
    (dumped : bool) : list event :=
  [Ev_system command false;
   Ev_stderr "elbe control get_files Failed";
   Ev_stderr "";
   Ev_stderr "dumping logfile";
   Ev_system (dump_file_command sys_executable elbe_exe prjdir) dumped]
  ++ (if dumped then []
      else [Ev_stderr "elbe control dump_file Failed"; Ev_stderr ""; Ev_stderr "Giving up"]).

(** The command of the retrieval step. *)
Definition fetch_command (sys_executable elbe_exe : string) (opt : options)
    (prjdir : string) : string :=
  if skip_download opt then list_files_command sys_executable elbe_exe prjdir
  else
    get_files_command sys_executable elbe_exe
      (match outdir opt with None => set_outdir opt ".." | Some _ => opt end) prjdir.

(** * Concrete runs *)

Definition bytes_of (s : string) : list byte := list_byte_of_string s.

Definition no_transfers : transfer_store := {| store := ∅; uploading := ∅ |}.

(** A client, and a server of another version. *)
Definition a_client : ElbeSoapClient :=
  ElbeSoapClient_init "localhost" 7587 "root" "foo" 30 10.

Definition other_version : world script :=
  world0 [Fault URLError; Ans VNone; Ans (VStr "15.0")] [].

(** A build that ends, and fails. *)
Definition failed_build : world script :=
  world0 [Ans (VStr "building"); Ans VNone; Fault SocketError;
          Ans (VStr "ELBE-FINISH"); Ans (VStr "build_failed")] [].

(** A document of one block, acknowledged and completed. *)
Definition one_block_upload : world script :=
  world0 [Ans (VInt 1); Ans (VInt (-2))]
    [("source.xml", bytes_of "<ns0:RootFileSystem/>")].

(** A download in which every second request fails. *)
Definition chunk_ABC : reply value := Ans (VStr (b64 (bytes_of "ABC"))).


(** An orig file to push and to fetch back. *)
Definition hello : list byte := bytes_of "hello world".

Definition with_hello : world (script * transfer_store) :=
  world0 ([], no_transfers) [("src/hello_1.0.orig.tar.gz", hello)].

(** A build in an existing project; the wait fails, or the retrieval and
    the dump of the log do. *)
Definition options_for_project (prjdir : string) : options :=
  {| cross := false; noccache := false; ccachesize := "10G";
     xmlfile := None; project := Some prjdir; writeproject := None;
     origfile := []; cpuset := "-1"; profile := "";
     skip_download := false; outdir := None |}.

Definition a_tmp_fname (name : string) : string := "/tmp/elbe-pdebuild/" +:+ name.

Definition wait_fails : world (list command_result) :=
  World [Succeeds; Succeeds; Succeeds; Fails] ∅ ∅.

Definition retrieval_fails : world (list command_result) :=
  World [Succeeds; Succeeds; Succeeds; Succeeds; Fails; Fails] ∅ ∅.

(** The runs of the properties' examples. *)
Definition project_dir0 : string := "/var/cache/elbe/prj".

Definition mismatch_run : run script unit :=
  connect scripted "14.9" 3 a_client other_version.

Definition failed_build_run : run script unit :=
  wait_busy scripted 5 project_dir0 failed_build.

Definition failed_build_stream : run script unit :=
  wait_busy_loop scripted 5 project_dir0 failed_build.

Definition one_block_run : run script unit :=
  set_xml scripted (fun _ _ => true) 3 project_dir0 "source.xml" one_block_upload.

Definition no_target_run : run script unit :=
  set_xml scripted (fun _ _ => false) 3 project_dir0 "source.xml" one_block_upload.


Definition push_run : run (script * transfer_store) unit :=
  set_orig (with_transfers scripted) 1 project_dir0 "src/hello_1.0.orig.tar.gz" with_hello.

Definition fetch_run : run (script * transfer_store) unit :=
  download_file (with_transfers scripted) 2 project_dir0 "hello_1.0.orig.tar.gz"
    "out/hello_1.0.orig.tar.gz" (after push_run).

Definition wait_fails_run : run (list command_result) unit :=
  BuildAction_execute scripted_shell "python3" "elbe" a_tmp_fname
    (options_for_project project_dir0) wait_fails.

Definition retrieval_fails_run : run (list command_result) unit :=
  BuildAction_execute scripted_shell "python3" "elbe" a_tmp_fname
    (options_for_project project_dir0) retrieval_fails.

Definition update_run : run (list command_result) unit :=
  UpdateAction_execute scripted_shell "python3" "elbe"
    (options_for_project project_dir0) (World [] ∅ ∅).

(** * More of the vocabulary *)

(** ** The commands of the workflow *)

Definition update_command (sys_executable elbe_exe prjdir : string) : string :=
  elbe_control sys_executable elbe_exe ("update_pbuilder " +:+ quoted prjdir).


Definition rm_log_command (sys_executable elbe_exe prjdir : string) : string :=
  elbe_control sys_executable elbe_exe ("rm_log " +:+ prjdir).

Definition set_orig_command (sys_executable elbe_exe prjdir of_ : string) : string :=
  elbe_control sys_executable elbe_exe ("set_orig " +:+ quoted prjdir +:+ " " +:+ quoted of_).

Definition tar_command (tmp_fname : string -> string) : string :=
  "tar cfz " +:+ quoted (tmp_fname "pdebuild.tar.gz") +:+ " .".

Definition set_pdebuild_command (sys_executable elbe_exe : string)
    (tmp_fname : string -> string) (opt : options) (prjdir : string) : string :=
  elbe_control sys_executable elbe_exe
    ("set_pdebuild --cpuset " +:+ quoted (cpuset opt)
     +:+ " --profile " +:+ quoted (profile opt)
     +:+ " " +:+ (if cross opt then "--cross" else "")
     +:+ " " +:+ quoted prjdir
     +:+ " " +:+ quoted (tmp_fname "pdebuild.tar.gz")).

(** The commands of the first step of a build: those that make the
    pbuilder of a new project, or the removal of the log of the project
    that is given. *)
Definition project_commands (sys_executable elbe_exe : string) (opt : options)
    (prjdir : string) : list string :=
  if given (xmlfile opt) then
    [elbe_control sys_executable elbe_exe ("build_pbuilder " +:+ quoted prjdir);
     wait_busy_command sys_executable elbe_exe prjdir]
  else [rm_log_command sys_executable elbe_exe prjdir].

(** The commands of a build, in their order. *)
Definition build_commands (sys_executable elbe_exe : string)
    (tmp_fname : string -> string) (opt : options) (prjdir : string) : list string :=
  project_commands sys_executable elbe_exe opt prjdir
  ++ [tar_command tmp_fname]
  ++ map (set_orig_command sys_executable elbe_exe prjdir) (origfile opt)
  ++ [set_pdebuild_command sys_executable elbe_exe tmp_fname opt prjdir;
      wait_busy_command sys_executable elbe_exe prjdir;
      fetch_command sys_executable elbe_exe opt prjdir].

Definition succeeded (cmd : string) : string * bool := (cmd, true).

(** The result is a return or an exit with one of [codes]. *)
Definition ends_in {R A} (codes : list Z) (r : run R A) : Prop :=
  match result r with
  | Ret _ => True
  | Raise (SystemExit c) => In c codes
  | _ => False
  end.

Definition build_codes : list Z := [160; 161; 162; 163; 164; 165; 166; 167; 168; 169].

(** The commands of a build before the wait, in their order. *)
Definition push_commands (sys_executable elbe_exe : string)
    (tmp_fname : string -> string) (opt : options) (prjdir : string) : list string :=
  project_commands sys_executable elbe_exe opt prjdir
  ++ [tar_command tmp_fname]
  ++ map (set_orig_command sys_executable elbe_exe prjdir) (origfile opt)
  ++ [set_pdebuild_command sys_executable elbe_exe tmp_fname opt prjdir].

(** A run that stops at one of the [steps]: no command was run, or the
    commands are the steps up to the one that failed; the run exits with a
    status from [low] to [high], or lets [CalledProcessError] escape. *)
Definition stops_within {R A} (low high : Z) (steps : list string) (r : run R A) : Prop :=
  (result r = Raise CalledProcessError
   \/ exists c, low <= c <= high /\ result r = Raise (SystemExit c))
  /\ (commands (events r) = []
      \/ exists done cmd rest,
           steps = done ++ cmd :: rest
           /\ commands (events r) = map succeeded done ++ [(cmd, false)]).

(** The wait has failed, after the [steps]: the run exits with 167 and the
    failed wait, with its two lines, is the last thing it does. *)
Definition wait_fails_after {R A} (sys_executable elbe_exe prjdir : string)
    (steps : list string) (r : run R A) : Prop :=
  result r = Raise (SystemExit 167)
  /\ commands (events r) =
       map succeeded steps ++ [(wait_busy_command sys_executable elbe_exe prjdir, false)]
  /\ ends_with (wait_busy_failed sys_executable elbe_exe prjdir) (events r).

(** The retrieval has failed, after the [steps] and the wait: the log file
    is dumped, with success or not, and the run exits with the status of
    the retrieval. *)
Definition retrieval_fails_after {R A} (sys_executable elbe_exe : string) (opt : options)
    (prjdir : string) (steps : list string) (r : run R A) : Prop :=
  exists dumped,
    result r = Raise (SystemExit (if skip_download opt then 168 else 169))
    /\ commands (events r) =
         map succeeded (steps ++ [wait_busy_command sys_executable elbe_exe prjdir])
         ++ [(fetch_command sys_executable elbe_exe opt prjdir, false);
             (dump_file_command sys_executable elbe_exe prjdir, dumped)]
    /\ ends_with
         (get_files_failed sys_executable elbe_exe
            (fetch_command sys_executable elbe_exe opt prjdir) prjdir dumped)
         (events r).

(** The build has gone through the [steps], the wait and the retrieval. *)
Definition retrieved_after {R} (sys_executable elbe_exe : string) (opt : options)
    (prjdir : string) (steps : list string) (r : run R unit) : Prop :=
  result r = Ret tt
  /\ commands (events r) =
       map succeeded (steps ++ [wait_busy_command sys_executable elbe_exe prjdir;
                                fetch_command sys_executable elbe_exe opt prjdir]).

(** ** The session *)

(** A failed attempt to make the client object. *)
Definition failed_attempt (self : ElbeSoapClient) (e : exn) : event :=
  Ev_call (Call_Client (_wsdl self) (_timeout self)) (Fault e).

Definition login_event (self : ElbeSoapClient) (r : reply value) : event :=
  Ev_call (Call_login (_user self) (_passwd self)) r.

(** ** The transfers *)

Definition MiB : Z := 1024 * 1024.

(** The blocks of a file as the appends of an upload carry them, all
    answered. *)
Definition append_events (mk : string -> string -> call) (size : Z) (builddir : string)
    (data : list byte) : list event :=
  map (fun i => Ev_call (mk builddir (b64 (block size data i))) (Ans VNone))
      (seq 0 (length data / Z.to_nat size + 1)).

(** A chunk of a download and the bytes it stands for. *)
Definition decodes (data : string) (bin_data : list byte) : Prop :=
  exists ascii_data,
    Binascii.encode_ascii data = Some ascii_data
    /\ Binascii.a2b_base64 ascii_data = Some bin_data.

(** The requests of a download from chunk [first] on, with the chunks that
    answer them and the final answer. *)
Definition chunk_events (builddir filename : string) (first : nat) (chunks : list string)
    : list event :=
  imap (fun i data => get_event builddir filename (first + i) data) chunks
  ++ [get_event builddir filename (first + length chunks) "EndOfFile"].

(** What a download that returns without a failed request has done, from
    chunk [first] on. *)
Definition fetched {R} (builddir filename dst_fname : string) (first : nat)
    (old : list byte) (w : world R) (r : run R unit) : Prop :=
  exists chunks bins,
    events r = chunk_events builddir filename first chunks
    /\ Forall2 decodes chunks bins
    /\ files (after r) !! dst_fname = Some (old ++ concat bins)
    /\ open_files (after r) = open_files w ∖ {[dst_fname]}.

(** No file is lost from [w] to [w']. *)
Definition grows {R} (w w' : world R) : Prop :=
  forall path, is_Some (files w !! path) -> is_Some (files w' !! path).

(** * The files of a project ([ElbeSoapClient.get_files]) *)

(** [os.path.join(a, b)] *)
Definition ends_with_sep (path : string) : bool :=
  match List.rev (list_ascii_of_string path) with
  | c :: _ => Ascii.eqb c "/"
  | [] => false
  end.

Definition path_join (a b : string) : string :=
  if String.prefix "/" b then b
  else if String.eqb a "" || ends_with_sep a then a +:+ b
  else a +:+ "/" +:+ b.

(** The file names of the downloads that a trace starts: those of its
    requests for a chunk 0. *)
Fixpoint started (evs : list event) : list string :=
  match evs with
  | [] => []
  | Ev_call (Call_get_file _ filename part) _ :: rest =>
      if part =? 0 then filename :: started rest else started rest
  | _ :: rest => started rest
  end.

Section GetFiles.
Context {R : Type} (service : Service R).

(** [self.service.get_files(builddir)]: the request for the list of the
    files of a project, which answers their names ([f.name] for [f] in
    [files[0]]); [fnmatch.fnmatch] and [os.path.abspath]. *)
Variable service_get_files : string -> M R (list string).
Variable fnmatch : string -> string -> bool.
Variable abspath : string -> string.

(** The body of [for f in files[0]], with [result] so far.  [os.makedirs]
    has no effect on the files themselves. *)
Fixpoint get_files_loop (fuel : nat) (builddir : string) (outdir : option string)
    (pbuilder_only : bool) (wildcard : option string) (names result : list string)
    : M R (list string) :=
  match names with
  | [] => ret result
  | name :: names' =>
      if pbuilder_only && negb (String.prefix "pbuilder_cross" name)
         && negb (String.prefix "pbuilder" name)
      then get_files_loop fuel builddir outdir pbuilder_only wildcard names' result
      else if given wildcard && negb (fnmatch name (text wildcard))
      then get_files_loop fuel builddir outdir pbuilder_only wildcard names' result
      else
        let result := result ++ [name] in
        (if given outdir then
           let dst := abspath (text outdir) in
           let dst_fname := path_join dst (basename name) in
           download_file service fuel builddir name dst_fname
         else ret tt) >>
        get_files_loop fuel builddir outdir pbuilder_only wildcard names' result
  end.

Definition get_files (fuel : nat) (builddir : string) (outdir : option string)
    (pbuilder_only : bool) (wildcard : option string) : M R (list string) :=
  let* files := service_get_files builddir in
  get_files_loop fuel builddir outdir pbuilder_only wildcard files [].

(** Where a file of the project goes. *)
Definition destination (outdir name : string) : string :=
  path_join (abspath outdir) (basename name).

(** The files that [get_files] keeps. *)
Definition kept (pbuilder_only : bool) (wildcard : option string) (name : string) : bool :=
  (negb pbuilder_only || String.prefix "pbuilder" name)
  && (negb (given wildcard) || fnmatch name (text wildcard)).
End GetFiles.

(** * The checks of a configuration document ([elbepack/validate.py]) *)

Module Validate.

(** An element of the document, as [lxml] presents it: tag, attributes,
    the text before the first child ([None] when there is none) and the
    child elements in document order. *)
#[warnings="-register-all"]
Inductive element : Type :=
| Element (tag : string) (attrib : list (string * string)) (text : option string)
    (children : list element).

Definition tag (e : element) : string := let 'Element t _ _ _ := e in t.
Definition attrib (e : element) : list (string * string) := let 'Element _ a _ _ := e in a.
Definition text (e : element) : option string := let 'Element _ _ t _ := e in t.
Definition children (e : element) : list element := let 'Element _ _ _ c := e in c.

(** [elem.findall(path)] for a path of tags [a/b/c]: one child step per
    tag, the matches in document order. *)
Fixpoint findall (path : list string) (elem : element) : list element :=
  match path with
  | [] => [elem]
  | step :: path' =>
      flat_map (findall path') (List.filter (fun child => String.eqb (tag child) step)
                                  (children elem))
  end.

(** [elem.find(path)]: the first match. *)
Definition find (path : list string) (elem : element) : option element :=
  head (findall path elem).

(** [elem.findtext(path, default)]: [default] without a match, else the
    text of the first one, empty when it has none. *)
Definition findtext (path : list string) (default_ : string) (elem : element) : string :=
  match find path elem with
  | None => default_
  | Some el => default "" (text el)
  end.

(** [elem.get(key, default)] *)
Fixpoint get (key : string) (default_ : string) (attrs : list (string * string)) : string :=
  match attrs with
  | [] => default_
  | (k, v) :: attrs' => if String.eqb k key then v else get key default_ attrs'
  end.

(** [needle in hay] *)
Fixpoint contains (needle hay : string) : bool :=
  String.prefix needle hay
  || match hay with
     | EmptyString => false
     | String _ rest => contains needle rest
     end.

(** [str.lower()] on the letters A to Z; a text equals ["https"] after
    [lower()] exactly when it does after this. *)
Definition lower_char (c : ascii) : ascii :=
  let n := nat_of_ascii c in
  if ((65 <=? n) && (n <=? 90))%nat then ascii_of_nat (n + 32) else c.

Fixpoint lower (s : string) : string :=
  match s with
  | EmptyString => EmptyString
  | String c rest => String (lower_char c) (lower rest)
  end.

Definition nl : string := String (ascii_of_nat 10) EmptyString.

Definition custom_key_error : string :=
  nl +:+ "The XML contains a custom mirror key. "
     +:+ "Use debootstrapvariant's attribute includepkgs "
     +:+ "to make gnupg available in debootstrap." +:+ nl.

Definition https_mirror_error : string :=
  nl +:+ "The XML contains an HTTPS mirror. "
     +:+ "Use debootstrapvariant's attribute includepkgs "
     +:+ "to make apt-transport-https available in "
     +:+ "debootstrap." +:+ nl.

(** What [validate_xml_content] ends with: the list of errors, or the
    [TypeError] of [in] applied to a text that is [None]. *)
Inductive checked : Type :=
| Errors (errors : list string)
| TypeError.

(** The loop over the mirror urls, up to its [break]. *)
Fixpoint https_url (urls : list element) : bool :=
  match urls with
  | [] => false
  | url :: urls' =>
      let b := findtext ["binary"] "" url in
      let s := findtext ["source"] "" url in
      if String.prefix "https" b || String.prefix "https" s then true
      else https_url urls'
  end.

(** [validate_xml_content(xml)]; [xml] is the tree, given by its root. *)
Definition validate_xml_content (xml : element) : checked :=
  let dbsv := find ["target"; "debootstrapvariant"] xml in
  let key_check :=
    match dbsv with
    | None => Some false
    | Some d =>
        match text d with
        | None => None
        | Some t =>
            Some (contains "minbase" t
                  && negb (contains "gnupg" (get "includepkgs" "" (attrib d)))
                  && match find ["project"; "mirror"; "url-list"; "url"; "key"] xml with
                     | Some _ => true
                     | None => false
                     end)
        end
    end in
  match key_check with
  | None => TypeError
  | Some custom_key =>
      let errors := if custom_key then [custom_key_error] else [] in
      let https :=
        String.eqb (lower (findtext ["project"; "mirror"; "primary_proto"] "" xml)) "https" in
      let errors :=
        if negb https
           && match dbsv with
              | None => true
              | Some d =>
                  negb (contains "apt-transport-https" (get "includepkgs" "" (attrib d)))
              end
        then
          if https_url (findall ["project"; "mirror"; "url-list"; "url"] xml)
          then errors ++ [https_mirror_error]
          else errors
        else errors in
      Errors errors
  end.

End Validate.

(** * Running commands ([elbepack/shellhelper.py]) *)

Module Shellhelper.

(** A command: a text for the shell, or the list of its arguments. *)
Inductive command : Type :=
| Text (cmd : string)
| Args (cmd : list string).

Definition _is_shell_cmd (cmd : command) : bool :=
  match cmd with
  | Text _ => true
  | Args _ => false
  end.

(** [shlex.quote] and [shlex.join] of the standard library: a text of
    letters, digits and [_@%+=:,./-] is left as it is, every other one goes
    between single quotes, with each single quote in it written ['"'"']. *)
Definition safe_char (c : ascii) : bool :=
  let n := nat_of_ascii c in
  ((48 <=? n) && (n <=? 57) || (65 <=? n) && (n <=? 90) || (97 <=? n) && (n <=? 122))%nat
  || existsb (Ascii.eqb c) (list_ascii_of_string "_@%+=:,./-").

Definition sq : string := String (ascii_of_nat 39) EmptyString.

Fixpoint escape_quotes (s : string) : string :=
  match s with
  | EmptyString => EmptyString
  | String c rest =>
      (if Ascii.eqb c (ascii_of_nat 39) then sq +:+ dq +:+ sq +:+ dq +:+ sq
       else String c EmptyString) +:+ escape_quotes rest
  end.

Definition quote (s : string) : string :=
  if String.eqb s "" then sq +:+ sq
  else if forallb safe_char (list_ascii_of_string s) then s
  else sq +:+ escape_quotes s +:+ sq.

Fixpoint join (sep : string) (parts : list string) : string :=
  match parts with
  | [] => ""
  | [part] => part
  | part :: parts' => part +:+ sep +:+ join sep parts'
  end.

Definition shlex_join (split_command : list string) : string :=
  join " " (map quote split_command).

Definition _log_cmd (cmd : command) : string :=
  match cmd with
  | Text cmd => cmd
  | Args cmd => shlex_join cmd
  end.

(** An environment; [dict.update] lets the new entries win. *)
Abbreviation environment := (gmap string string).

Definition update (env new : environment) : environment := new ∪ env.

(** The truth value of an optional dictionary or text. *)
Definition some_entries (env_add : option environment) : environment :=
  default ∅ env_add.

(** What [subprocess.run] is called with, and the line that is logged
    before, with the context [[CMD]]. *)
Record invocation : Type := {
  logged : string;
  run_cmd : command;
  run_shell : bool;
  run_env : environment;
  run_check : bool
}.

(** [do(cmd, check=..., env_add=..., log_cmd=...)] up to the call of
    [subprocess.run]; [environ] is [os.environ]. *)
Definition do (environ : environment) (cmd : command) (check : bool)
    (env_add : option environment) (log_cmd : option string) : invocation :=
  let new_env := update environ (some_entries env_add) in
  {| logged :=
       match log_cmd with
       | Some line => if String.eqb line "" then _log_cmd cmd else line
       | None => _log_cmd cmd
       end;
     run_cmd := cmd;
     run_shell := _is_shell_cmd cmd;
     run_env := new_env;
     run_check := check |}.

(** [chroot(directory, cmd, env_add=..., check=...)] *)
Definition chroot (environ : environment) (directory : string) (cmd : command)
    (check : bool) (env_add : option environment) : invocation :=
  let new_env : environment :=
    <["LANG" := "C"]> (<["LANGUAGE" := "C"]> (<["LC_ALL" := "C"]> ∅)) in
  let new_env := update new_env (some_entries env_add) in
  match cmd with
  | Text cmd =>
      do environ (Args ["/usr/sbin/chroot"; directory; "/bin/sh"; "-c"; cmd]) check
        (Some new_env) None
  | Args cmd =>
      do environ (Args (["/usr/sbin/chroot"; directory] ++ cmd)) check (Some new_env) None
  end.

(** [get_command_out]: as [do], but for where the output goes. *)
Definition get_command_out (environ : environment) (cmd : command) (check : bool)
    (env_add : option environment) : invocation :=
  let new_env := update environ (some_entries env_add) in
  {| logged := _log_cmd cmd;
     run_cmd := cmd;
     run_shell := _is_shell_cmd cmd;
     run_env := new_env;
     run_check := check |}.

(** [env_add(d)] *)
Definition env_add (environ d : environment) : environment := update environ d.

Definition locale_keys : list string := ["LANG"; "LANGUAGE"; "LC_ALL"].

End Shellhelper.

(** * More concrete runs *)

(** A server that cannot be reached, and a client with two retries. *)
Definition unreachable : Service unit :=
  {| rpc_Client _ _ s := (Fault URLError, s);
     rpc_get_version s := (Fault URLError, s);
     rpc_login _ _ s := (Fault URLError, s);
     rpc_get_file _ _ _ s := (Fault URLError, s);
     rpc_upload_file _ _ _ _ s := (Fault URLError, s);
     rpc_get_project_busy _ s := (Fault URLError, s);
     rpc_get_project _ s := (Fault URLError, s);
     rpc_start_upload_orig _ _ s := (Fault URLError, s);
     rpc_append_upload_orig _ _ s := (Fault URLError, s);
     rpc_finish_upload_orig _ s := (Fault URLError, s);
     rpc_start_pdebuild _ s := (Fault URLError, s);
     rpc_append_pdebuild _ _ s := (Fault URLError, s);
     rpc_finish_pdebuild _ _ _ s := (Fault URLError, s);
     rpc_start_cdrom _ s := (Fault URLError, s);
     rpc_append_cdrom _ _ s := (Fault URLError, s);
     rpc_finish_cdrom _ s := (Fault URLError, s) |}.

Definition impatient_client : ElbeSoapClient :=
  ElbeSoapClient_init "localhost" 7587 "root" "foo" 30 2.

Definition unreachable_run : run unit unit :=
  connect unreachable "14.9" 3 impatient_client (world0 tt []).

(** A server of the version of the client. *)
Definition login_run : run script unit :=
  connect scripted "14.9" 3 a_client
    (world0 [Ans VNone; Ans (VStr "14.9"); Ans VNone] []).

(** An archive to push, to a server that accepts every call. *)
Definition archive_name : string := "/tmp/elbe-pdebuild/pdebuild.tar.gz".

Definition archive_world : world script :=
  world0 [Ans VNone; Ans VNone; Ans VNone] [(archive_name, hello)].

Definition pdebuild_run : run script unit :=
  set_pdebuild scripted 1 project_dir0 archive_name "" false archive_world.

Definition cdrom_run : run script unit :=
  set_cdrom scripted 1 project_dir0 archive_name archive_world.

(** An orig file that is not there. *)
Definition no_file : world script := world0 [Ans VNone] [].

Definition missing_run : run script unit :=
  set_orig scripted 1 project_dir0 "src/hello_1.0.orig.tar.gz" no_file.

(** A download of two chunks, and a retrieval of two of three files. *)
Definition end_of_file : reply value := Ans (VStr "EndOfFile").

Definition clean_run : run script unit :=
  download_file scripted 5 project_dir0 "pbuilder/result.deb" "out/result.deb"
    (world0 [chunk_ABC; chunk_ABC; end_of_file] []).

Definition listing (builddir : string) : M script (list string) :=
  ret ["pbuilder/hello_1.0_amd64.deb"; "log.txt"; "pbuilder_cross/hello_1.0_armhf.deb"].

Definition any_name (name pattern : string) : bool := true.

Definition in_work (path : string) : string := "/work/" +:+ path.

Definition two_downloads : world script :=
  world0 [chunk_ABC; end_of_file; chunk_ABC; end_of_file] [].

Definition get_files_run : run script (list string) :=
  get_files scripted listing any_name in_work 3 project_dir0 (Some "out") true None
    two_downloads.

(** A build with an orig file, every command of which succeeds. *)
Definition options_with_orig : options :=
  {| cross := false; noccache := false; ccachesize := "10G";
     xmlfile := None; project := Some project_dir0; writeproject := None;
     origfile := ["../hello_1.0.orig.tar.gz"]; cpuset := "-1"; profile := "";
     skip_download := false; outdir := None |}.

Definition build_run : run (list command_result) unit :=
  BuildAction_execute scripted_shell "python3" "elbe" a_tmp_fname options_with_orig
    (World [] ∅ ∅).

(** A document with a custom key and an HTTPS mirror, for a minimal
    debootstrap with the packages [includepkgs]. *)
Definition mirror_doc (includepkgs : list (string * string)) : Validate.element :=
  Validate.Element "ns0:RootFileSystem" [] None
    [Validate.Element "project" [] None
       [Validate.Element "mirror" [] None
          [Validate.Element "primary_proto" [] (Some "http") [];
           Validate.Element "url-list" [] None
             [Validate.Element "url" [] None
                [Validate.Element "binary" []
                   (Some "https://deb.example.org/debian stable main") [];
                 Validate.Element "key" [] (Some "https://deb.example.org/key.asc") []]]]];
     Validate.Element "target" [] None
       [Validate.Element "debootstrapvariant" includepkgs (Some "minbase") []]].

Definition minbase_variant (includepkgs : list (string * string)) : Validate.element :=
  Validate.Element "debootstrapvariant" includepkgs (Some "minbase") [].

(** * Facts: the base64 codec *)

Module BinasciiFacts.
Import Binascii.
Open Scope N_scope.

Lemma all_bytes_complete (b : byte) : In b all_bytes.
Proof.
  assert (H : existsb (Byte.eqb b) all_bytes = true)
    by (destruct b; vm_compute; reflexivity).
  apply existsb_exists in H as (x & Hx & E).
  apply Byte.byte_dec_bl in E. subst; auto.
Qed.

Lemma forall_byte (P : byte -> bool) :
  forallb P all_bytes = true -> forall a, P a = true.
Proof.
  intros H a. rewrite forallb_forall in H. apply H, all_bytes_complete.
Qed.

Lemma forall_byte2 (P : byte -> byte -> bool) :
  forallb (fun a => forallb (P a) all_bytes) all_bytes = true ->
  forall a b, P a b = true.
Proof.
  intros H a b. apply (forall_byte (P a)). apply (forall_byte _ H).
Qed.

Lemma alpha_spec v :
  alpha v = true ->
  Byte.eqb (b2a_char v) BASE64_PAD = false
  /\ table_a2b_base64 (b2a_char v) = Some v
  /\ is_ascii (b2a_char v) = true.
Proof.
  unfold alpha. intros H.
  apply andb_prop in H as [H H3]. apply andb_prop in H as [H1 H2].
  apply negb_true_iff in H1.
  destruct (table_a2b_base64 (b2a_char v)) as [w|]; [|discriminate].
  apply N.eqb_eq in H2. subst. auto.
Qed.

Lemma alpha_sextet1 a : alpha (sextet1 a) = true.
Proof. revert a. apply forall_byte. vm_compute. reflexivity. Qed.

Lemma alpha_sextet2 a b : alpha (sextet2 a b) = true.
Proof. revert a b. apply forall_byte2. vm_compute. reflexivity. Qed.

Lemma alpha_sextet3 a b : alpha (sextet3 a b) = true.
Proof. revert a b. apply forall_byte2. vm_compute. reflexivity. Qed.

Lemma alpha_sextet4 a : alpha (sextet4 a) = true.
Proof. revert a. apply forall_byte. vm_compute. reflexivity. Qed.

Lemma alpha_tail1 a : alpha (N.shiftl (N.land (Byte.to_N a) 3) 4) = true.
Proof. revert a. apply forall_byte. vm_compute. reflexivity. Qed.

Lemma alpha_tail2 a : alpha (N.shiftl (N.land (Byte.to_N a) 15) 2) = true.
Proof. revert a. apply forall_byte. vm_compute. reflexivity. Qed.

(** The three output bytes of a group, as the decoder rebuilds them. *)
Lemma rebuild1 a b :
  uchar (N.lor (N.shiftl (sextet1 a) 2) (N.shiftr (sextet2 a b) 4)) = a.
Proof.
  apply Byte.byte_dec_bl. revert a b. apply forall_byte2.
  vm_compute. reflexivity.
Qed.

Lemma rebuild2 a b c :
  uchar (N.lor (N.shiftl (N.land (sextet2 a b) 15) 4)
               (N.shiftr (sextet3 b c) 2)) = b.
Proof.
  assert (E : N.land (sextet2 a b) 15 = N.shiftr (Byte.to_N b) 4).
  { apply N.eqb_eq. revert a b. apply forall_byte2. vm_compute. reflexivity. }
  rewrite E. clear E a. apply Byte.byte_dec_bl. revert b c. apply forall_byte2.
  vm_compute. reflexivity.
Qed.

Lemma rebuild3 b c :
  uchar (N.lor (N.shiftl (N.land (sextet3 b c) 3) 6) (sextet4 c)) = c.
Proof.
  apply Byte.byte_dec_bl. revert b c.
  apply (forall_byte2 (fun b c =>
    Byte.eqb (uchar (N.lor (N.shiftl (N.land (sextet3 b c) 3) 6) (sextet4 c))) c)).
  vm_compute. reflexivity.
Qed.

Lemma rebuild1_tail a :
  uchar (N.lor (N.shiftl (sextet1 a) 2)
               (N.shiftr (N.shiftl (N.land (Byte.to_N a) 3) 4) 4)) = a.
Proof.
  apply Byte.byte_dec_bl. revert a. apply forall_byte. vm_compute. reflexivity.
Qed.

Lemma rebuild2_tail a b :
  uchar (N.lor (N.shiftl (N.land (sextet2 a b) 15) 4)
               (N.shiftr (N.shiftl (N.land (Byte.to_N b) 15) 2) 2)) = b.
Proof.
  apply Byte.byte_dec_bl. revert a b. apply forall_byte2.
  vm_compute. reflexivity.
Qed.

(** One decoder step on a character of the alphabet. *)
Lemma a2b_loop_alpha v rest quad_pos leftchar pads bin_data :
  alpha v = true ->
  a2b_loop (b2a_char v :: rest) quad_pos leftchar pads bin_data =
    if quad_pos =? 0 then a2b_loop rest 1 v 0 bin_data
    else if quad_pos =? 1 then
      a2b_loop rest 2 (N.land v 15) 0
        (bin_data ++ [uchar (N.lor (N.shiftl leftchar 2) (N.shiftr v 4))])
    else if quad_pos =? 2 then
      a2b_loop rest 3 (N.land v 3) 0
        (bin_data ++ [uchar (N.lor (N.shiftl leftchar 4) (N.shiftr v 2))])
    else
      a2b_loop rest 0 0 0
        (bin_data ++ [uchar (N.lor (N.shiftl leftchar 6) v)]).
Proof.
  intros H. apply alpha_spec in H as (H1 & H2 & _).
  cbn [a2b_loop]. rewrite H1, H2. reflexivity.
Qed.

Lemma list_ind3 {A} (P : list A -> Prop) :
  P [] -> (forall a, P [a]) -> (forall a b, P [a; b]) ->
  (forall a b c l, P l -> P (a :: b :: c :: l)) ->
  forall l, P l.
Proof.
  intros H0 H1 H2 H3.
  fix IH 1. intros [|a [|b [|c l]]].
  - exact H0.
  - apply H1.
  - apply H2.
  - apply H3, IH.
Qed.

Lemma a2b_loop_b2a_groups bin_data acc tail :
  table_a2b_base64 tail = None -> tail <> BASE64_PAD ->
  a2b_loop (b2a_groups bin_data ++ [tail]) 0 0 0 acc = Some (acc ++ bin_data).
Proof.
  intros Ht Hp.
  assert (Hp' : Byte.eqb tail BASE64_PAD = false).
  { destruct (Byte.eqb tail BASE64_PAD) eqn:E; [|reflexivity].
    apply Byte.byte_dec_bl in E. contradiction. }
  revert acc. induction bin_data as [|a|a b|a b c l IH] using list_ind3; intros acc.
  - cbn [b2a_groups app a2b_loop]. rewrite Hp', Ht. cbn. now rewrite app_nil_r.
  - cbn [b2a_groups app].
    rewrite a2b_loop_alpha by apply alpha_sextet1. cbn [N.eqb].
    rewrite a2b_loop_alpha by apply alpha_tail1. cbn [N.eqb Pos.eqb].
    rewrite rebuild1_tail. reflexivity.
  - cbn [b2a_groups app].
    rewrite a2b_loop_alpha by apply alpha_sextet1. cbn [N.eqb].
    rewrite a2b_loop_alpha by apply alpha_sextet2. cbn [N.eqb Pos.eqb].
    rewrite a2b_loop_alpha by apply alpha_tail2. cbn [N.eqb Pos.eqb].
    rewrite rebuild1, rebuild2_tail. cbn. now rewrite <- app_assoc.
  - cbn [b2a_groups app].
    rewrite a2b_loop_alpha by apply alpha_sextet1. cbn [N.eqb].
    rewrite a2b_loop_alpha by apply alpha_sextet2. cbn [N.eqb Pos.eqb].
    rewrite a2b_loop_alpha by apply alpha_sextet3. cbn [N.eqb Pos.eqb].
    rewrite a2b_loop_alpha by apply alpha_sextet4. cbn [N.eqb Pos.eqb].
    rewrite rebuild1, rebuild2, rebuild3.
    rewrite IH. now rewrite <- !app_assoc.
Qed.

(** Decoding inverts encoding. *)
Lemma a2b_b2a_base64 bin_data : a2b_base64 (b2a_base64 bin_data) = Some bin_data.
Proof.
  unfold a2b_base64, b2a_base64.
  rewrite a2b_loop_b2a_groups; [reflexivity | reflexivity | discriminate].
Qed.

Lemma b2a_groups_ascii bin_data : forallb is_ascii (b2a_groups bin_data) = true.
Proof.
  induction bin_data as [|a|a b|a b c l IH] using list_ind3; cbn [b2a_groups forallb].
  - reflexivity.
  - destruct (alpha_spec _ (alpha_sextet1 a)) as (_ & _ & ->).
    destruct (alpha_spec _ (alpha_tail1 a)) as (_ & _ & ->). reflexivity.
  - destruct (alpha_spec _ (alpha_sextet1 a)) as (_ & _ & ->).
    destruct (alpha_spec _ (alpha_sextet2 a b)) as (_ & _ & ->).
    destruct (alpha_spec _ (alpha_tail2 b)) as (_ & _ & ->). reflexivity.
  - destruct (alpha_spec _ (alpha_sextet1 a)) as (_ & _ & ->).
    destruct (alpha_spec _ (alpha_sextet2 a b)) as (_ & _ & ->).
    destruct (alpha_spec _ (alpha_sextet3 b c)) as (_ & _ & ->).
    destruct (alpha_spec _ (alpha_sextet4 c)) as (_ & _ & ->). exact IH.
Qed.

Lemma b2a_base64_ascii bin_data : forallb is_ascii (b2a_base64 bin_data) = true.
Proof.
  unfold b2a_base64. rewrite forallb_app, b2a_groups_ascii. reflexivity.
Qed.

Lemma b2a_groups_length bin_data :
  b2a_groups bin_data = [] <-> bin_data = [].
Proof.
  split; [|intros ->; reflexivity].
  destruct bin_data as [|a [|b [|c l]]]; cbn; congruence.
Qed.

End BinasciiFacts.

Close Scope N_scope.

(** * Facts: the transfer codec *)

Lemma b2a_base64_str_b64 {R} (bin_data : list byte) :
  @b2a_base64_str R bin_data = ret (b64 bin_data).
Proof.
  unfold b2a_base64_str, Binascii.decode_ascii.
  now rewrite BinasciiFacts.b2a_base64_ascii.
Qed.

Lemma encode_ascii_b64 bin_data :
  Binascii.encode_ascii (b64 bin_data) = Some (Binascii.b2a_base64 bin_data).
Proof.
  unfold Binascii.encode_ascii, b64.
  rewrite list_byte_of_string_of_list_byte.
  now rewrite BinasciiFacts.b2a_base64_ascii.
Qed.

Lemma a2b_base64_str_b64 {R} (bin_data : list byte) :
  @a2b_base64_str R (b64 bin_data) = ret bin_data.
Proof.
  unfold a2b_base64_str. rewrite encode_ascii_b64.
  now rewrite BinasciiFacts.a2b_b2a_base64.
Qed.

Lemma b64_not_EndOfFile bin_data : String.eqb (b64 bin_data) "EndOfFile" = false.
Proof.
  apply String.eqb_neq. intros E.
  apply (f_equal list_byte_of_string) in E.
  unfold b64 in E. rewrite list_byte_of_string_of_list_byte in E.
  unfold Binascii.b2a_base64 in E.
  change (list_byte_of_string "EndOfFile")
    with (list_byte_of_string "EndOfFil" ++ [x65]) in E.
  apply app_inj_tail in E as [_ E]. discriminate E.
Qed.

Lemma b64_length_1 bin_data :
  String.length (b64 bin_data) = 1%nat <-> bin_data = [].
Proof.
  unfold b64, Binascii.b2a_base64.
  assert (L : forall l, String.length (string_of_list_byte l) = length l).
  { intros l. unfold string_of_list_byte.
    induction l as [|x l IH]; cbn; [reflexivity | now rewrite IH]. }
  rewrite L, length_app. cbn.
  rewrite <- BinasciiFacts.b2a_groups_length.
  destruct (Binascii.b2a_groups bin_data); cbn; split; intros; try reflexivity; try lia; discriminate.
Qed.

(** ** Blocks *)

Section Blocks.
Variable size : Z.
Hypothesis size_pos : 0 < size.

Local Abbreviation n := (Z.to_nat size).

Lemma n_pos : (0 < n)%nat.
Proof. lia. Qed.

Lemma block_0 (content : list byte) : block size content 0 = take n content.
Proof. reflexivity. Qed.

Lemma block_S content i : block size content (S i) = block size (drop n content) i.
Proof.
  unfold block. rewrite drop_drop. reflexivity.
Qed.

Lemma full_block (content : list byte) :
  Z.of_nat (length (take n content)) = size <-> (n <= length content)%nat.
Proof. rewrite length_take. lia. Qed.

Lemma div_step (len : nat) : (n <= len)%nat -> (len / n = S ((len - n) / n))%nat.
Proof.
  intros H. pose proof n_pos.
  replace len with (1 * n + (len - n))%nat at 1 by lia.
  rewrite Nat.div_add_l by lia. lia.
Qed.
End Blocks.

Lemma map_seq_S {A} (g : nat -> A) k :
  map g (seq 0 (S k)) = g 0%nat :: map (fun i => g (S i)) (seq 0 k).
Proof. rewrite <- cons_seq, <- seq_shift. simpl. now rewrite map_map. Qed.

Section MonadLaws.
Context {R : Type}.

Lemma bind_run {A B} (m : M R A) (k : A -> M R B) w a w1 evs1 res w2 evs2 evs :
  m w = Run (Ret a) w1 evs1 ->
  k a w1 = Run res w2 evs2 ->
  evs = evs1 ++ evs2 ->
  bind m k w = Run res w2 evs.
Proof. intros E1 E2 ->. unfold bind. rewrite E1. cbn. now rewrite E2. Qed.

Lemma bind_run_silent {A B} (m : M R A) (k : A -> M R B) w a w1 res w2 evs :
  m w = Run (Ret a) w1 [] ->
  k a w1 = Run res w2 evs ->
  bind m k w = Run res w2 evs.
Proof. intros E1 E2. now apply (bind_run m k w a w1 [] res w2 evs). Qed.

Lemma try_except_Ret {A} (m : M R A) handler w a w1 evs1 :
  m w = Run (Ret a) w1 evs1 ->
  try_except m handler w = Run (Ret a) w1 evs1.
Proof. intros E1. unfold try_except. now rewrite E1. Qed.

Lemma bind_raise {A B} (m : M R A) (k : A -> M R B) w e w1 evs1 :
  m w = Run (Raise e) w1 evs1 ->
  bind m k w = Run (Raise e) w1 evs1.
Proof. intros E1. unfold bind. now rewrite E1. Qed.

Lemma bind_out_of_fuel {A B} (m : M R A) (k : A -> M R B) w w1 evs1 :
  m w = Run OutOfFuel w1 evs1 ->
  bind m k w = Run OutOfFuel w1 evs1.
Proof. intros E1. unfold bind. now rewrite E1. Qed.

Lemma run_eta {A} (r : run R A) : r = Run (result r) (after r) (events r).
Proof. now destruct r. Qed.
End MonadLaws.

Arguments b64 : simpl never.

Section ExceptionLaws.
Context {R : Type}.

Lemma bind_Ret_eta {A B} (m : M R A) (k : A -> M R B) w a w1 evs1 :
  m w = Run (Ret a) w1 evs1 ->
  bind m k w = Run (result (k a w1)) (after (k a w1)) (evs1 ++ events (k a w1)).
Proof. intros E1. unfold bind. now rewrite E1. Qed.

Lemma try_except_handled {A} (m : M R A) handler w e w1 evs1 h res w2 evs2 evs :
  m w = Run (Raise e) w1 evs1 ->
  handler e = Some h ->
  h w1 = Run res w2 evs2 ->
  evs = evs1 ++ evs2 ->
  try_except m handler w = Run res w2 evs.
Proof. intros E1 Eh E2 ->. unfold try_except. rewrite E1. cbn. rewrite Eh, E2. reflexivity. Qed.

Lemma try_except_pass {A} (m : M R A) handler w e w1 evs1 :
  m w = Run (Raise e) w1 evs1 ->
  handler e = None ->
  try_except m handler w = Run (Raise e) w1 evs1.
Proof. intros E1 Eh. unfold try_except. rewrite E1. cbn. now rewrite Eh. Qed.

Lemma invoke_Ans {A} c (show : A -> value) method (w : world R) a rem' :
  method (remote w) = (Ans a, rem') ->
  invoke c show method w =
    Run (Ret a) (World rem' (files w) (open_files w)) [Ev_call c (Ans (show a))].
Proof. intros E. unfold invoke. now rewrite E. Qed.

Lemma invoke_Fault {A} c (show : A -> value) method (w : world R) e rem' :
  method (remote w) = (Fault e, rem') ->
  invoke c show method w =
    Run (Raise e) (World rem' (files w) (open_files w)) [Ev_call c (Fault e)].
Proof. intros E. unfold invoke. now rewrite E. Qed.
End ExceptionLaws.

Section UploadToStore.
Context {R0 : Type} (base : Service R0).
Variable size : Z.
Hypothesis size_pos : 0 < size.

Local Abbreviation n := (Z.to_nat size).
Variable chunk : Z.
Local Abbreviation svc := (transfer_service chunk base).

Lemma append_to_store builddir fname bin_data (w : world (R0 * transfer_store)) :
  uploading (snd (remote w)) !! builddir = Some fname ->
  exists w',
    service_append_upload_orig svc builddir (b64 bin_data) w =
      Run (Ret tt) w' [append_event builddir bin_data]
    /\ appended builddir fname bin_data w w'.
Proof.
  intros Hup. unfold service_append_upload_orig, invoke. cbn.
  unfold on_snd, remote_append_upload. rewrite Hup, encode_ascii_b64.
  rewrite BinasciiFacts.a2b_b2a_base64. cbn.
  eexists. split; [reflexivity|]. unfold appended; cbn.
  rewrite lookup_insert_eq. auto 10.
Qed.

Lemma upload_loop_store fuel builddir fname f (w : world (R0 * transfer_store)) :
  uploading (snd (remote w)) !! builddir = Some fname ->
  (length f < fuel * n)%nat ->
  exists w',
    upload_loop fuel size (service_append_upload_orig svc) builddir f w =
      Run (Ret tt) w'
        (map (fun i => append_event builddir (block size f i))
             (seq 0 (length f / n + 1)))
    /\ appended builddir fname f w w'.
Proof.
  revert f w. induction fuel as [|fuel IH]; intros f w Hup Hlen; [lia|].
  cbn [upload_loop]. rewrite b2a_base64_str_b64.
  destruct (append_to_store builddir fname (take n f) w Hup)
    as (w1 & E1 & A1 & A2 & A3 & A4 & A5).
  destruct (Z.of_nat (length (take n f)) =? size) eqn:Efull; cbn [negb].
  - apply Z.eqb_eq in Efull. apply full_block in Efull; [|exact size_pos].
    assert (Hup' : uploading (snd (remote w1)) !! builddir = Some fname)
      by (rewrite A4; exact Hup).
    assert (Hlen' : (length (drop n f) < fuel * n)%nat)
      by (rewrite length_drop; lia).
    destruct (IH (drop n f) w1 Hup' Hlen') as (w2 & E2 & B1 & B2 & B3 & B4 & B5).
    assert (Hev : map (fun i => append_event builddir (block size f i))
                      (seq 0 (length f / n + 1)) =
                  [append_event builddir (take n f)] ++
                  map (fun i => append_event builddir (block size (drop n f) i))
                      (seq 0 (length (drop n f) / n + 1))).
    { rewrite length_drop.
      rewrite (div_step size size_pos (length f)) by exact Efull.
      replace (S ((length f - n) / n) + 1)%nat with (S ((length f - n) / n + 1)) by lia.
      rewrite map_seq_S. cbn [app]. f_equal.
      apply map_ext. intros i. now rewrite block_S. }
    rewrite Hev.
    exists w2. split.
    + eapply bind_run; [reflexivity | | reflexivity].
      eapply bind_run; [exact E1 | exact E2 | reflexivity].
    + unfold appended. rewrite B1, B2, B3, B4, B5, A1, A2, A3, A4, A5.
      repeat split; try reflexivity.
      simpl default. rewrite <- app_assoc, take_drop. reflexivity.
  - apply Z.eqb_neq in Efull.
    assert (Hshort : (length f < n)%nat).
    { destruct (Nat.lt_ge_cases (length f) n) as [H|H]; [exact H|].
      apply full_block in H; [|exact size_pos].  contradiction. }
    exists w1. split.
    + eapply bind_run; [reflexivity | | reflexivity].
      eapply bind_run; [exact E1 | reflexivity |].
      rewrite Nat.div_small by exact Hshort. reflexivity.
    + unfold appended. rewrite A1, A2, A3, A4, A5.
      repeat split; try reflexivity.
      rewrite take_ge by lia. reflexivity.
Qed.
End UploadToStore.

Section DownloadFromStore.
Context {R0 : Type} (base : Service R0).
Variable size : Z.
Hypothesis size_pos : 0 < size.

Local Abbreviation n := (Z.to_nat size).
Local Abbreviation svc := (transfer_service size base).

Lemma lt_chunks p len : (p < chunks size len)%nat <-> (p * n < len)%nat.
Proof.
  unfold chunks. split; intros H.
  - destruct (Nat.lt_ge_cases (p * n) len) as [L|L]; [exact L|exfalso].
    assert ((len + n - 1) / n < S p)%nat; [|lia].
    apply Nat.Div0.div_lt_upper_bound; lia.
  - assert (S p <= (len + n - 1) / n)%nat; [|lia].
    apply Nat.div_le_lower_bound; lia.
Qed.

Lemma chunks_Z len :
  Z.of_nat (chunks size len) = (Z.of_nat len + (size - 1)) / size.
Proof.
  unfold chunks. rewrite Nat2Z.inj_div. f_equal; lia.
Qed.

Lemma get_chunk builddir filename content p (w : world (R0 * transfer_store)) :
  store (snd (remote w)) !! (builddir, filename) = Some content ->
  (p < chunks size (length content))%nat ->
  service_get_file svc builddir filename (Z.of_nat p) w =
    Run (Ret (b64 (block size content p)))
        (World (fst (remote w), snd (remote w)) (files w) (open_files w))
        [get_event builddir filename p (b64 (block size content p))].
Proof.
  intros Hst Hp. apply lt_chunks in Hp.
  unfold service_get_file, invoke. cbn.
  unfold on_snd, remote_get_file. rewrite Hst.
  destruct (Z.of_nat (length content) <=? size * Z.of_nat p) eqn:E.
  { apply Z.leb_le in E. nia. }
  replace (Z.to_nat (size * Z.of_nat p)) with (p * n)%nat by nia.
  fold (block size content p).
  unfold Binascii.decode_ascii. rewrite BinasciiFacts.b2a_base64_ascii.
  reflexivity.
Qed.

Lemma get_end builddir filename content p (w : world (R0 * transfer_store)) :
  store (snd (remote w)) !! (builddir, filename) = Some content ->
  (chunks size (length content) <= p)%nat ->
  service_get_file svc builddir filename (Z.of_nat p) w =
    Run (Ret "EndOfFile")
        (World (fst (remote w), snd (remote w)) (files w) (open_files w))
        [get_event builddir filename p "EndOfFile"].
Proof.
  intros Hst Hp.
  assert (~ (p * n < length content)%nat) by (rewrite <- lt_chunks; lia).
  unfold service_get_file, invoke. cbn.
  unfold on_snd, remote_get_file. rewrite Hst.
  destruct (Z.of_nat (length content) <=? size * Z.of_nat p) eqn:E.
  { reflexivity. }
  apply Z.leb_gt in E. nia.
Qed.

Lemma download_loop_store fuel builddir filename dst_fname content old p retry ret_
    (w : world (R0 * transfer_store)) :
  store (snd (remote w)) !! (builddir, filename) = Some content ->
  files w !! dst_fname = Some old ->
  (p <= chunks size (length content))%nat ->
  (chunks size (length content) - p < fuel)%nat ->
  exists w',
    download_loop svc fuel builddir filename dst_fname (Z.of_nat p) retry ret_ w =
      Run (Ret tt) w'
        (map (fun i => get_event builddir filename i (b64 (block size content i)))
             (seq p (chunks size (length content) - p))
         ++ [get_event builddir filename (chunks size (length content)) "EndOfFile"])
    /\ written dst_fname (old ++ drop (p * n) content) w w'.
Proof.
  revert old p retry ret_ w.
  induction fuel as [|fuel IH]; intros old p retry ret_ w Hst Hdst Hp Hfuel; [lia|].
  cbn [download_loop].
  destruct (Nat.eq_dec p (chunks size (length content))) as [->|Hne].
  - (* past the last chunk *)
    rewrite Nat.sub_diag. cbn [seq map app].
    eexists. split.
    + eapply bind_run.
      * apply try_except_Ret. eapply bind_run;
          [apply (get_end _ _ content); [exact Hst|lia] | reflexivity | reflexivity].
      * cbn. reflexivity.
      * now rewrite app_nil_r.
    + unfold written; cbn. repeat split.
      assert (~ (chunks size (length content) * n < length content)%nat)
        by (rewrite <- lt_chunks; lia).
      rewrite drop_ge by lia. rewrite app_nil_r. exact Hdst.
  - assert (Hlt : (p < chunks size (length content))%nat) by lia.
    pose proof (get_chunk builddir filename content p w Hst Hlt) as Eget.
    set (w1 := World (fst (remote w), snd (remote w)) (files w) (open_files w)) in *.
    set (w2 := World (remote w1)
                 (<[dst_fname := old ++ block size content p]> (files w1))
                 (open_files w1)).
    assert (Hst2 : store (snd (remote w2)) !! (builddir, filename) = Some content)
      by exact Hst.
    assert (Hdst2 : files w2 !! dst_fname = Some (old ++ block size content p))
      by (cbn; apply lookup_insert_eq).
    destruct (IH (old ++ block size content p) (S p) retry
                (Some (b64 (block size content p))) w2 Hst2 Hdst2)
      as (w3 & E3 & C1 & C2 & C3 & C4); [lia | lia |].
    exists w3. split.
    + replace (chunks size (length content) - p)%nat
        with (S (chunks size (length content) - S p)) by lia.
      cbn [seq]. rewrite map_cons. cbn [app].
      eapply bind_run.
      * apply try_except_Ret. eapply bind_run; [exact Eget | reflexivity | reflexivity].
      * cbn beta iota. rewrite b64_not_EndOfFile, a2b_base64_str_b64.
        eapply bind_run; [reflexivity | | reflexivity].
        eapply bind_run; [ | | reflexivity].
        -- unfold fp_write. cbn [files remote open_files w1]. rewrite Hdst.
           simpl default. reflexivity.
        -- replace (Z.of_nat p + 1) with (Z.of_nat (S p)) by lia. exact E3.
      * now rewrite app_nil_r.
    + unfold written. rewrite C1, C2, C3, C4. cbn. repeat split.
      rewrite <- app_assoc. do 2 f_equal.
      unfold block.
      replace (n + p * n)%nat with (p * n + n)%nat by lia.
      rewrite <- drop_drop. apply take_drop.
Qed.
End DownloadFromStore.

Section Transfers.
Context {R0 : Type} (base : Service R0).

Local Abbreviation svc := (with_transfers base).

Lemma MiB_pos : 0 < 1024 * 1024.
Proof. reflexivity. Qed.

Lemma set_orig_store fuel builddir orig_file data (w : world (R0 * transfer_store)) :
  files w !! orig_file = Some data ->
  Z.of_nat (length data) / (1024 * 1024) < Z.of_nat fuel ->
  exists w',
    set_orig svc fuel builddir orig_file w =
      Run (Ret tt) w'
        (start_event builddir (basename orig_file)
           :: map (fun i => append_event builddir (block (1024 * 1024) data i))
                  (seq 0 (Z.to_nat (Z.of_nat (length data) / (1024 * 1024)) + 1))
           ++ [finish_event builddir])
    /\ files w' = files w
    /\ open_files w' = open_files w
    /\ store (snd (remote w')) !! (builddir, basename orig_file) = Some data.
Proof.
  intros Hfile Hfuel.
  unfold set_orig, _upload_file.
  set (size := 1024 * 1024) in *.
  assert (Hsize : 0 < size) by reflexivity.
  set (w0 := World (fst (remote w),
                    {| store := <[(builddir, basename orig_file) := []]> (store (snd (remote w)));
                       uploading := <[builddir := basename orig_file]> (uploading (snd (remote w))) |})
               (files w) (open_files w)).
  assert (Hup : uploading (snd (remote w0)) !! builddir = Some (basename orig_file))
    by (cbn; apply lookup_insert_eq).
  assert (Hlen : (length data < fuel * Z.to_nat size)%nat).
  { pose proof (Z.mul_succ_div_gt (Z.of_nat (length data)) size Hsize). nia. }
  destruct (upload_loop_store base size Hsize chunk_size fuel builddir
              (basename orig_file) data w0 Hup Hlen)
    as (w1 & E1 & A1 & A2 & A3 & A4 & A5).
  eexists. split.
  - eapply bind_run; [reflexivity | | reflexivity].
    eapply bind_run; [ | reflexivity | ].
    + eapply bind_run; [ | exact E1 | reflexivity].
      unfold open_rb. cbn [files w0]. rewrite Hfile. reflexivity.
    + cbn [app]. do 2 f_equal.
      rewrite <- (Nat2Z.id (length data / Z.to_nat size)).
      rewrite Nat2Z.inj_div, Z2Nat.id by lia. reflexivity.
  - cbn. rewrite A1, A2. repeat split.
    rewrite A5. cbn. rewrite lookup_insert_eq. reflexivity.
Qed.

Lemma download_file_store fuel builddir filename dst_fname content
    (w : world (R0 * transfer_store)) :
  store (snd (remote w)) !! (builddir, filename) = Some content ->
  (chunks (1024 * 1024) (length content) < fuel)%nat ->
  exists w',
    download_file svc fuel builddir filename dst_fname w =
      Run (Ret tt) w'
        (map (fun i => get_event builddir filename i
                         (b64 (block (1024 * 1024) content i)))
             (seq 0 (chunks (1024 * 1024) (length content)))
         ++ [get_event builddir filename (chunks (1024 * 1024) (length content))
               "EndOfFile"])
    /\ files w' !! dst_fname = Some content
    /\ dst_fname ∉ open_files w'.
Proof.
  intros Hst Hfuel. unfold download_file.
  set (w0 := World (remote w) (<[dst_fname := []]> (files w))
               ({[dst_fname]} ∪ open_files w)).
  destruct (download_loop_store base (1024 * 1024) MiB_pos fuel builddir filename
              dst_fname content [] 0 5 None w0)
    as (w1 & E1 & A1 & A2 & A3 & A4).
  { exact Hst. }
  { cbn. apply lookup_insert_eq. }
  { lia. }
  { lia. }
  exists w1. split; [|split].
  - eapply bind_run_silent; [reflexivity | ].
    rewrite Nat.sub_0_r in E1. exact E1.
  - rewrite A3. reflexivity.
  - rewrite A4. intros Hin. apply elem_of_difference in Hin as [_ Hn].
    apply Hn, elem_of_singleton. reflexivity.
Qed.

End Transfers.

Section TransferTheorems.
Context {R0 : Type} (base : Service R0).

(** C9: pushing a file with [set_orig], the block upload in
    base64-encoded blocks of 1 MiB, and fetching it back with
    [download_file] both return, and the destination then holds exactly the
    bytes of the file, whatever they are, none included, and is closed. *)
Theorem upload_download_roundtrip fuel1 fuel2 builddir orig_file dst_fname data
    (w : world (R0 * transfer_store)) :
  files w !! orig_file = Some data ->
  Z.of_nat (length data) / (1024 * 1024) < Z.of_nat fuel1 ->
  (Z.of_nat (length data) + (1024 * 1024 - 1)) / (1024 * 1024) < Z.of_nat fuel2 ->
  let r1 := set_orig (with_transfers base) fuel1 builddir orig_file w in
  let r2 := download_file (with_transfers base) fuel2 builddir (basename orig_file)
              dst_fname (after r1) in
  result r1 = Ret tt
  /\ result r2 = Ret tt
  /\ files (after r2) !! dst_fname = Some data
  /\ dst_fname ∉ open_files (after r2).
Proof.
  intros Hfile Hfuel1 Hfuel2.
  destruct (set_orig_store base fuel1 builddir orig_file data w Hfile Hfuel1)
    as (w1 & E1 & _ & _ & Hst).
  rewrite <- (chunks_Z (1024 * 1024) MiB_pos) in Hfuel2.
  apply Nat2Z.inj_lt in Hfuel2.
  destruct (download_file_store base fuel2 builddir (basename orig_file) dst_fname
              data w1 Hst Hfuel2) as (w2 & E2 & Hdst & Hclosed).
  cbv zeta. rewrite E1. cbn [result after]. rewrite E2. cbn [result after].
  split; [reflexivity | split; [reflexivity | split; assumption]].
Qed.

(** C8: the upload of a file of [len] bytes is the start call, then
    [len / 2^20 + 1] append calls with the blocks of the file in their
    order, the last one of [len mod 2^20] bytes, possibly none, then one
    finish call; the download back asks for the chunks 0, 1, ... in
    ascending order, one request for each chunk of 1 MiB and a last one
    that is answered EndOfFile.  For 2.5 MiB these are 3 appends and 4
    requests. *)
Theorem transfer_calls fuel1 fuel2 builddir orig_file dst_fname data
    (w : world (R0 * transfer_store)) :
  files w !! orig_file = Some data ->
  let len := Z.of_nat (length data) in
  let appends := Z.to_nat (len / (1024 * 1024) + 1) in
  let gets := Z.to_nat ((len + (1024 * 1024 - 1)) / (1024 * 1024)) in
  (appends <= fuel1)%nat ->
  (gets < fuel2)%nat ->
  let r1 := set_orig (with_transfers base) fuel1 builddir orig_file w in
  let r2 := download_file (with_transfers base) fuel2 builddir (basename orig_file)
              dst_fname (after r1) in
  events r1 =
    start_event builddir (basename orig_file)
      :: map (fun i => append_event builddir (block (1024 * 1024) data i))
             (seq 0 appends)
      ++ [finish_event builddir]
  /\ Z.of_nat (length (block (1024 * 1024) data (appends - 1))) = len mod (1024 * 1024)
  /\ events r2 =
       map (fun i => get_event builddir (basename orig_file) i
                       (b64 (block (1024 * 1024) data i)))
           (seq 0 gets)
       ++ [get_event builddir (basename orig_file) gets "EndOfFile"]
  /\ (len = 2621440 -> appends = 3%nat /\ S gets = 4%nat).
Proof.
  intros Hfile len appends gets Hfuel1 Hfuel2.
  assert (Hlen : 0 <= len) by (unfold len; lia).
  assert (Hq : 0 <= len / (1024 * 1024)) by (apply Z.div_pos; [exact Hlen | reflexivity]).
  assert (Hf1 : len / (1024 * 1024) < Z.of_nat fuel1) by (unfold appends in Hfuel1; lia).
  destruct (set_orig_store base fuel1 builddir orig_file data w Hfile Hf1)
    as (w1 & E1 & _ & _ & Hst).
  assert (Hgets : gets = chunks (1024 * 1024) (length data)).
  { unfold gets, len. rewrite <- (chunks_Z (1024 * 1024) MiB_pos). apply Nat2Z.id. }
  assert (Hf2 : (chunks (1024 * 1024) (length data) < fuel2)%nat) by (rewrite <- Hgets; exact Hfuel2).
  destruct (download_file_store base fuel2 builddir (basename orig_file) dst_fname
              data w1 Hst Hf2) as (w2 & E2 & _ & _).
  cbv zeta. rewrite E1. cbn [events after]. rewrite E2. cbn [events].
  split; [|split; [|split]].
  - do 3 f_equal. unfold appends. rewrite Z2Nat.inj_add by lia. reflexivity.
  - unfold block. rewrite length_take, length_drop.
    unfold appends. rewrite Z2Nat.inj_add by lia.
    replace (Z.to_nat (len / (1024 * 1024)) + Z.to_nat 1 - 1)%nat
      with (Z.to_nat (len / (1024 * 1024))) by lia.
    pose proof (Z.mod_pos_bound len (1024 * 1024) MiB_pos).
    pose proof (Z.div_mod len (1024 * 1024)).
    unfold len in *. nia.
  - rewrite Hgets. reflexivity.
  - intros E. unfold appends, gets. rewrite E. split; reflexivity.
Qed.
End TransferTheorems.

(** * The session *)

Section ConnectProofs.
Context {R : Type} (service : Service R) (elbe_version : string).

Lemma connect_loop_events fuel self current_retries (w : world R) :
  Forall connect_event (events (connect_loop service fuel self current_retries w)).
Proof.
  revert current_retries w. induction fuel as [|fuel IH]; intros cr w; cbn.
  - constructor.
  - unfold bind, try_except, Client, invoke; cbn.
    destruct (rpc_Client service (_wsdl self) (_timeout self) (remote w)) as [[[]|e] rem'] eqn:E; cbn.
    + repeat constructor.
    + destruct (connect_error e) eqn:Ee; cbn.
      * destruct (cr + 1 >? _retries self) eqn:Eb; cbn.
        -- repeat constructor.
        -- do 2 (constructor; [exact I|]). apply IH.
      * repeat constructor.
Qed.

(** C5: when [connect] has got the version of the server and it differs
    from the client's, the run raises [ElbeVersionMismatch], no login is
    ever issued, and the version request is the last event of the run:
    nothing is tried again, whatever the number of retries left. *)
Theorem connect_version_mismatch fuel self (w : world R) server_version :
  let r := connect service elbe_version fuel self w in
  In (Ev_call Call_get_version (Ans (VStr server_version))) (events r) ->
  server_version <> elbe_version ->
  result r = Raise (ElbeVersionMismatch elbe_version server_version)
  /\ (forall user passwd rep, ~ In (Ev_call (Call_login user passwd) rep) (events r))
  /\ last (events r) = Some (Ev_call Call_get_version (Ans (VStr server_version))).
Proof.
  intros r. assert (Hr : r = connect service elbe_version fuel self w) by reflexivity.
  clearbody r. unfold connect, bind in Hr.
  pose proof (connect_loop_events fuel self 0 w) as Hloop.
  destruct (connect_loop service fuel self 0 w) as [res w1 evs] eqn:El. cbn in Hloop, Hr.
  assert (Hno : forall ev, In ev evs -> connect_event ev).
  { intros ev Hin. rewrite Forall_forall in Hloop. apply Hloop. apply list_elem_of_In, Hin. }
  destruct res as [[]|e|]; cbn in Hr.
  2,3: subst r; cbn; intros Hin; apply Hno in Hin; destruct Hin.
  unfold service_get_version, invoke in Hr.
  destruct (rpc_get_version service (remote w1)) as [[v|e] rem'] eqn:Ev; cbn in Hr.
  - unfold ElbeVersionMismatch_check in Hr.
    destruct (String.eqb elbe_version v) eqn:Eq; cbn in Hr.
    + apply String.eqb_eq in Eq. subst v.
      unfold service_login, invoke in Hr; cbn in Hr.
      destruct (rpc_login service (_user self) (_passwd self) rem') as [[[]|e] rem''] eqn:Elog;
        cbn in Hr; subst r; cbn;
        rewrite !in_app_iff; cbn; intros [Hin|[Hin|[Hin|[]]]] Hne;
        try (apply Hno in Hin; destruct Hin); congruence.
    + subst r; cbn. intros Hin Hne.
      rewrite in_app_iff in Hin. destruct Hin as [Hin|[Hin|[]]].
      { apply Hno in Hin; destruct Hin. }
      injection Hin as ->. split; [reflexivity|]. split.
      * intros user passwd rep Hin. rewrite in_app_iff in Hin.
        destruct Hin as [Hin|[Hin|[]]]; [apply Hno in Hin; destruct Hin | discriminate].
      * apply last_snoc.
  - subst r; cbn. intros Hin. rewrite in_app_iff in Hin. destruct Hin as [Hin|[Hin|[]]].
    + apply Hno in Hin; destruct Hin.
    + discriminate.
Qed.
End ConnectProofs.

(** * The status stream *)

Section WaitBusyProofs.
Context {R : Type} (service : Service R).

Lemma busy_stream_yields project_dir evs out :
  busy_stream project_dir evs out ->
  forall msg, In (Ev_yield msg) evs -> msg <> "" /\ msg <> "ELBE-FINISH".
Proof.
  induction 1 as [|v rest out Hv _ IH|e rest out He _ IH|m rest out H1 H2 _ IH| |e He];
    intros msg Hin; cbn in Hin.
  - destruct Hin.
  - destruct Hin as [Hin|[Hin|Hin]]; try discriminate. now apply IH.
  - destruct Hin as [Hin|[Hin|Hin]]; try discriminate. now apply IH.
  - destruct Hin as [Hin|[Hin|Hin]]; try discriminate.
    + injection Hin as <-. now split.
    + now apply IH.
  - destruct Hin as [Hin|[]]. discriminate.
  - destruct Hin as [Hin|[]]. discriminate.
Qed.

Lemma busy_stream_returns project_dir evs out :
  busy_stream project_dir evs out ->
  out = Ret tt ->
  last evs = Some (poll_event project_dir (Ans (VStr "ELBE-FINISH"))).
Proof.
  induction 1 as [|v rest out Hv _ IH|e rest out He _ IH|m rest out H1 H2 _ IH| |e He];
    intros E; try discriminate E.
  - rewrite !last_cons, (IH E). reflexivity.
  - rewrite !last_cons, (IH E). reflexivity.
  - rewrite !last_cons, (IH E). reflexivity.
  - reflexivity.
Qed.

(** A stream starts with a poll, unless the fuel has run out. *)
Lemma busy_stream_head project_dir evs out :
  busy_stream project_dir evs out -> polls_again project_dir out evs.
Proof.
  destruct 1; [right; split; reflexivity | left; eauto ..].
Qed.

Lemma busy_stream_after_poll project_dir evs out :
  busy_stream project_dir evs out ->
  forall pre rep post,
    evs = pre ++ poll_event project_dir rep :: post ->
    after_poll project_dir out rep post.
Proof.
  induction 1 as [|v rest out Hv Hs IH|e rest out He Hs IH|m rest out H1 H2 Hs IH| |e He];
    intros pre rep post E.
  - destruct pre; discriminate E.
  - destruct pre as [|x [|y pre]]; cbn in E.
    + injection E as <- <-. unfold after_poll.
      destruct Hv as [->| ->]; cbn; eexists; (split; [reflexivity|]);
        apply busy_stream_head, Hs.
    + discriminate E.
    + injection E as _ _ E. eapply IH, E.
  - destruct pre as [|x [|y pre]]; cbn in E.
    + injection E as <- <-. unfold after_poll. rewrite He.
      eexists. split; [reflexivity|]. apply busy_stream_head, Hs.
    + discriminate E.
    + injection E as _ _ E. eapply IH, E.
  - destruct pre as [|x [|y pre]]; cbn in E.
    + injection E as <- <-. unfold after_poll.
      apply String.eqb_neq in H1, H2. rewrite H1, H2.
      eexists. split; [reflexivity|]. apply busy_stream_head, Hs.
    + discriminate E.
    + injection E as _ _ E. eapply IH, E.
  - destruct pre as [|x pre]; cbn in E.
    + injection E as <- <-. cbn. split; reflexivity.
    + destruct pre; discriminate E.
  - destruct pre as [|x pre]; cbn in E.
    + injection E as <- <-. unfold after_poll. rewrite He. split; reflexivity.
    + destruct pre; discriminate E.
Qed.

Lemma last_cons_cons {A} (a b : A) l x :
  last l = Some x -> last (a :: b :: l) = Some x.
Proof. intros H. rewrite !last_cons, H. reflexivity. Qed.

Lemma wait_busy_loop_stream fuel project_dir (w : world R) :
  busy_stream project_dir (events (wait_busy_loop service fuel project_dir w))
    (result (wait_busy_loop service fuel project_dir w))
  /\ (result (wait_busy_loop service fuel project_dir w) = OutOfFuel ->
      polls (events (wait_busy_loop service fuel project_dir w)) = fuel).
Proof.
  revert w. induction fuel as [|fuel IH]; intros w.
  - cbn. split; [constructor | reflexivity].
  - cbn [wait_busy_loop].
    unfold bind, try_except, service_get_project_busy, invoke; cbn.
    destruct (rpc_get_project_busy service project_dir (remote w)) as [[msg|e] rem'] eqn:E; cbn.
    + destruct (falsy msg) eqn:Ef; cbn.
      * destruct (IH (World rem' (files w) (open_files w))) as [IH1 IH2].
        split.
        -- apply stream_empty; [|exact IH1].
           destruct msg as [s|]; cbn in Ef |- *; [|now left].
           apply String.eqb_eq in Ef. subst. now right.
        -- intros Hr. rewrite (IH2 Hr). reflexivity.
      * destruct msg as [s|]; [|discriminate]. cbn in Ef |- *.
        apply String.eqb_neq in Ef.
        destruct (String.eqb s "ELBE-FINISH") eqn:Es; cbn.
        -- apply String.eqb_eq in Es. subst s.
           split; [apply stream_finish | discriminate].
        -- apply String.eqb_neq in Es.
           destruct (IH (World rem' (files w) (open_files w))) as [IH1 IH2].
           split.
           ++ apply stream_yield; assumption.
           ++ intros Hr. rewrite (IH2 Hr). reflexivity.
    + destruct (socket_error e) eqn:Ee; cbn.
      * destruct (IH (World rem' (files w) (open_files w))) as [IH1 IH2].
        split.
        -- apply stream_retry; assumption.
        -- intros Hr. rewrite (IH2 Hr). reflexivity.
      * split; [now apply stream_fault | discriminate].
Qed.

(** C6: when the status stream has ended on the sentinel, [wait_busy]
    asks once for the project, as its last request, and it returns exactly
    when the answer is the status build_done; for every other status it
    raises the error of code 191 with that status.  The end of the stream
    alone decides nothing. *)
Theorem wait_busy_final_status fuel project_dir (w : world R) :
  let stream := wait_busy_loop service fuel project_dir w in
  let r := wait_busy service fuel project_dir w in
  result stream = Ret tt ->
  last (events stream) = Some (poll_event project_dir (Ans (VStr "ELBE-FINISH")))
  /\ exists rep,
       events r = events stream ++ [Ev_call (Call_get_project project_dir) rep]
       /\ (result r = Ret tt <-> rep = Ans (VStr "build_done"))
       /\ (forall status, rep = Ans (VStr status) ->
            (result r = Raise (status_failure status) <-> status <> "build_done")).
Proof.
  intros stream r Hclean.
  split.
  { apply (busy_stream_returns project_dir _ _
             (proj1 (wait_busy_loop_stream fuel project_dir w)) Hclean). }
  assert (Hr : r = wait_busy service fuel project_dir w) by reflexivity.
  clearbody r. unfold wait_busy, bind in Hr. fold stream in Hr.
  rewrite Hclean in Hr. unfold service_get_project, invoke in Hr.
  destruct (rpc_get_project service project_dir (remote (after stream)))
    as [[status|e] rem'] eqn:E; cbn in Hr.
  - destruct (String.eqb status "build_done") eqn:Es; cbn in Hr; subst r; cbn.
    + apply String.eqb_eq in Es. subst status.
      eexists. split; [reflexivity|]. split.
      * split; reflexivity.
      * intros status' [= <-]. split; [discriminate | congruence].
    + apply String.eqb_neq in Es.
      eexists. split; [reflexivity|]. split.
      * split; [discriminate | congruence].
      * intros status' [= <-]. split; [intros _; exact Es | reflexivity].
  - subst r; cbn. eexists. split; [reflexivity|]. split.
    + split; discriminate.
    + intros status' [=].
Qed.

(** C7: every message that [wait_busy] yields is neither empty nor
    the sentinel.  The stream begins with a poll, and after each poll: an
    empty answer is followed by a sleep of 100 ms and the next poll,
    without a yield; a socket error by the warning and the next poll; a
    message by its yield and the next poll; the sentinel by nothing, the
    stream has returned; and any other fault by nothing, the stream has
    raised it.  The stream stops polling nowhere else: a run that the
    model follows for [fuel] iterations without an end has polled [fuel]
    times.  After the stream only the project is asked for. *)
Theorem wait_busy_yields fuel project_dir (w : world R) :
  let stream := wait_busy_loop service fuel project_dir w in
  let r := wait_busy service fuel project_dir w in
  (forall msg, In (Ev_yield msg) (events r) -> msg <> "" /\ msg <> "ELBE-FINISH")
  /\ polls_again project_dir (result stream) (events stream)
  /\ (forall pre rep post,
        events stream = pre ++ poll_event project_dir rep :: post ->
        after_poll project_dir (result stream) rep post)
  /\ (result stream = OutOfFuel -> polls (events stream) = fuel)
  /\ exists rest,
       events r = events stream ++ rest
       /\ (rest = [] \/ exists rep, rest = [Ev_call (Call_get_project project_dir) rep]).
Proof.
  intros stream r.
  assert (Hr : r = wait_busy service fuel project_dir w) by reflexivity.
  clearbody r. unfold wait_busy, bind in Hr. fold stream in Hr.
  destruct (wait_busy_loop_stream fuel project_dir w) as [Hs Hf].
  fold stream in Hs, Hf.
  assert (Hex : exists rest,
             events r = events stream ++ rest
             /\ (rest = [] \/ exists rep, rest = [Ev_call (Call_get_project project_dir) rep])).
  { destruct (result stream) as [[]|e|]; subst r; cbn.
    - unfold service_get_project, invoke.
      destruct (rpc_get_project service project_dir _) as [[status|e] rem']; cbn.
      + destruct (String.eqb status "build_done"); cbn; eexists; split; eauto.
      + eexists; split; eauto.
    - exists []. rewrite app_nil_r. auto.
    - exists []. rewrite app_nil_r. auto. }
  split; [|split; [|split; [|split]]].
  - destruct Hex as (rest & Hev & Hrest).
    intros msg Hin. rewrite Hev in Hin. apply in_app_or in Hin as [Hin|Hin].
    + exact (busy_stream_yields project_dir _ _ Hs msg Hin).
    + destruct Hrest as [->|[rep ->]]; [destruct Hin|].
      destruct Hin as [Hin|[]]. discriminate.
  - exact (busy_stream_head project_dir _ _ Hs).
  - exact (busy_stream_after_poll project_dir _ _ Hs).
  - exact Hf.
  - exact Hex.
Qed.
End WaitBusyProofs.

(** * The acknowledged upload *)

Section SetXmlProofs.
Context {R : Type} (service : Service R).
Variable ElbeXML_has : list byte -> string -> bool.

Lemma index_for_length blk granted :
  (if (String.length (b64 blk) =? 1)%nat then -1 else granted) = index_for blk granted.
Proof.
  destruct (String.length (b64 blk) =? 1)%nat eqn:E.
  - apply Nat.eqb_eq, b64_length_1 in E. now subst.
  - apply Nat.eqb_neq in E. rewrite b64_length_1 in E.
    destruct blk; [contradiction | reflexivity].
Qed.

Lemma set_xml_loop_dialogue fuel size builddir fp part (w : world R) :
  dialogue builddir part
    (events (set_xml_loop service fuel size builddir fp part w))
    (result (set_xml_loop service fuel size builddir fp part w)).
Proof.
  revert fp part w. induction fuel as [|fuel IH]; intros fp part w.
  - cbn. constructor.
  - cbn [set_xml_loop]. rewrite b2a_base64_str_b64.
    set (blk := take (Z.to_nat size) fp).
    unfold bind. cbn [ret result after events app].
    assert (Hcall :
      (if (String.length (b64 blk) =? 1)%nat
       then service_upload_file service builddir "source.xml" (b64 blk) (-1)
       else service_upload_file service builddir "source.xml" (b64 blk) part)
      = service_upload_file service builddir "source.xml" (b64 blk) (index_for blk part)).
    { rewrite <- (index_for_length blk part).
      destruct (String.length (b64 blk) =? 1)%nat; reflexivity. }
    rewrite Hcall. clear Hcall.
    unfold service_upload_file, invoke.
    destruct (rpc_upload_file service builddir "source.xml" (b64 blk)
                (index_for blk part) (remote w)) as [[next|e] rem'] eqn:E; cbn.
    + destruct (next =? -1) eqn:E1; cbn.
      { apply Z.eqb_eq in E1. subst. apply dialogue_reject. }
      destruct (next =? -2) eqn:E2; cbn.
      { apply Z.eqb_eq in E2. subst. apply dialogue_complete. }
      apply Z.eqb_neq in E1, E2.
      apply dialogue_granted; [exact E1 | exact E2 | apply IH].
    + apply dialogue_fault.
Qed.

Lemma dialogue_first builddir granted d p rep rest out :
  dialogue builddir granted (upload_event builddir d p rep :: rest) out ->
  exists blk, d = b64 blk /\ p = index_for blk granted.
Proof. intros H. inversion H; subst; eauto. Qed.

Lemma dialogue_echo builddir granted evs out :
  dialogue builddir granted evs out ->
  forall pre d1 p1 r1 d2 p2 r2 post,
    evs = pre ++ upload_event builddir d1 p1 r1 :: upload_event builddir d2 p2 r2 :: post ->
    exists next blk, r1 = Ans (VInt next) /\ d2 = b64 blk /\ p2 = index_for blk next.
Proof.
  induction 1 as [g|g blk next rest out N1 N2 H IH|g blk|g blk|g blk e];
    intros pre d1 p1 r1 d2 p2 r2 post E.
  - destruct pre; discriminate.
  - destruct pre as [|x pre]; cbn in E.
    + injection E as _ _ Er Erest. subst rest.
      apply dialogue_first in H as (blk' & -> & ->). eauto.
    + injection E as _ E. eapply IH, E.
  - destruct pre as [|x [|y pre]]; discriminate.
  - destruct pre as [|x [|y [|z pre]]]; discriminate.
  - destruct pre as [|x [|y pre]]; discriminate.
Qed.

Lemma dialogue_signal builddir granted evs out :
  dialogue builddir granted evs out ->
  forall pre d p signal post,
    evs = pre ++ upload_event builddir d p (Ans (VInt signal)) :: post ->
    (signal = -1 -> post = [] /\ out = Raise upload_rejected)
    /\ (signal = -2 -> post = [upload_finished] /\ out = Ret tt).
Proof.
  induction 1 as [g|g blk next rest out N1 N2 H IH|g blk|g blk|g blk e];
    intros pre d p signal post E.
  - destruct pre; discriminate.
  - destruct pre as [|x pre]; cbn in E.
    + injection E as _ _ Es _. subst signal. split; intros; contradiction.
    + injection E as _ E. eapply IH, E.
  - destruct pre as [|x [|y pre]]; try discriminate.
    injection E as _ _ Es Ep. subst. split; [auto | discriminate].
  - destruct pre as [|x [|y [|z pre]]]; try discriminate.
    injection E as _ _ Es Ep. subst. split; [discriminate | auto].
  - destruct pre as [|x [|y pre]]; discriminate.
Qed.

Lemma set_xml_dialogue fuel builddir filename (w : world R) :
  let r := set_xml service ElbeXML_has fuel builddir filename w in
  events r = [] \/ dialogue builddir 0 (events r) (result r).
Proof.
  intros r. assert (Hr : r = set_xml service ElbeXML_has fuel builddir filename w)
    by reflexivity.
  clearbody r. unfold set_xml, bind, open_rb in Hr.
  destruct (files w !! filename) as [doc|] eqn:Ef; cbn in Hr; [|subst r; now left].
  destruct (ElbeXML_has doc "target"); cbn in Hr; [|subst r; now left].
  rewrite Ef in Hr. cbn in Hr. subst r. cbn [events result]. right.
  apply set_xml_loop_dialogue.
Qed.

(** C1: in [set_xml] the first request carries index 0, and each
    later request the index that the answer to the request before it
    granted, but for an empty encoded block, which carries the final marker
    -1; after a reject answer (-1) nothing follows and the run raises the
    error; after a complete answer (-2) only the log line follows and the
    run returns. *)
Theorem set_xml_echoes_granted_index fuel builddir filename (w : world R) :
  let r := set_xml service ElbeXML_has fuel builddir filename w in
  (forall d p rep rest,
      events r = upload_event builddir d p rep :: rest ->
      exists blk, d = b64 blk /\ p = index_for blk 0)
  /\ (forall pre d1 p1 r1 d2 p2 r2 post,
      events r = pre ++ upload_event builddir d1 p1 r1
                     :: upload_event builddir d2 p2 r2 :: post ->
      exists granted blk,
        r1 = Ans (VInt granted) /\ d2 = b64 blk /\ p2 = index_for blk granted)
  /\ (forall pre d p post,
      events r = pre ++ upload_event builddir d p (Ans (VInt (-1))) :: post ->
      post = [] /\ result r = Raise upload_rejected)
  /\ (forall pre d p post,
      events r = pre ++ upload_event builddir d p (Ans (VInt (-2))) :: post ->
      post = [upload_finished] /\ result r = Ret tt).
Proof.
  intros r.
  destruct (set_xml_dialogue fuel builddir filename w
            : events r = [] \/ dialogue builddir 0 (events r) (result r)) as [E|D].
  - rewrite E. repeat split; intros; try discriminate;
      match goal with H : [] = ?pre ++ _ |- _ => destruct pre; discriminate H end.
  - split; [|split; [|split]].
    + intros d p rep rest E. rewrite E in D. exact (dialogue_first _ _ _ _ _ _ _ D).
    + intros pre d1 p1 r1 d2 p2 r2 post E.
      exact (dialogue_echo _ _ _ _ D _ _ _ _ _ _ _ _ E).
    + intros pre d p post E.
      exact (proj1 (dialogue_signal _ _ _ _ D _ _ _ _ _ E) eq_refl).
    + intros pre d p post E.
      exact (proj2 (dialogue_signal _ _ _ _ D _ _ _ _ _ E) eq_refl).
Qed.

(** C10: when the document has no target element, [set_xml] raises
    [ValueError] with no event at all, no request among them, and leaves
    the world, the remote state included, as it was. *)
Theorem set_xml_without_target fuel builddir filename doc (w : world R) :
  files w !! filename = Some doc ->
  ElbeXML_has doc "target" = false ->
  let r := set_xml service ElbeXML_has fuel builddir filename w in
  result r = Raise (ValueError "<target> is missing, this file can't be built in an initvm")
  /\ events r = []
  /\ after r = w.
Proof.
  intros Hf Ht. unfold set_xml, bind, open_rb. rewrite Hf. cbn. rewrite Ht. cbn. auto.
Qed.
End SetXmlProofs.

(** * The retry budget of a download *)

Section DownloadProofs.
Context {R : Type} (service : Service R).


Lemma a2b_base64_str_cases data (w : world R) :
  (exists bin_data, a2b_base64_str data w = Run (Ret bin_data) w [])
  \/ (exists e, a2b_base64_str data w = Run (Raise e) w []).
Proof.
  unfold a2b_base64_str.
  destruct (Binascii.encode_ascii data) as [a|]; [|right; eexists; reflexivity].
  destruct (Binascii.a2b_base64 a) as [b|]; [left|right]; eexists; reflexivity.
Qed.









End DownloadProofs.

(** * The build pipeline *)

Section WorkflowProofs.
Context {R : Type} (shell : Shell R).
Variables sys_executable elbe_exe : string.
Variable tmp_fname : string -> string.

Lemma ends_with_app suffix pre evs :
  ends_with suffix evs -> ends_with suffix (pre ++ evs).
Proof. intros [p ->]. exists (pre ++ p). now rewrite app_assoc. Qed.

Lemma ends_with_refl suffix : ends_with suffix suffix.
Proof. now exists []. Qed.

Lemma system_run cmd (w : world R) :
  exists (ok : bool) w',
    system shell cmd w = Run (if ok then Ret tt else Raise CalledProcessError) w' [Ev_system cmd ok].
Proof.
  unfold system. destruct (run_system shell cmd (remote w)) as [ok rem']. eauto.
Qed.

(** A command whose failure prints two lines and exits. *)
Lemma guarded_run cmd line1 line2 code (w : world R) :
  exists w',
    try_except (system shell cmd)
      (except_CalledProcessError
         (print_stderr line1 >> print_stderr line2 >> sys_exit code)) w =
      Run (Ret tt) w' [Ev_system cmd true]
    \/ try_except (system shell cmd)
         (except_CalledProcessError
            (print_stderr line1 >> print_stderr line2 >> sys_exit code)) w =
         Run (Raise (SystemExit code)) w'
           [Ev_system cmd false; Ev_stderr line1; Ev_stderr line2].
Proof.
  destruct (system_run cmd w) as ([|] & w' & E); exists w'.
  - left. now apply try_except_Ret.
  - right. eapply try_except_handled; [exact E | reflexivity | reflexivity | reflexivity].
Qed.

Lemma dump_logfile_run prjdir code (w : world R) :
  exists dumped w',
    dump_logfile shell sys_executable elbe_exe prjdir code w =
      Run (Raise (SystemExit code)) w'
        ([Ev_stderr "elbe control get_files Failed"; Ev_stderr "";
          Ev_stderr "dumping logfile";
          Ev_system (dump_file_command sys_executable elbe_exe prjdir) dumped]
         ++ (if dumped then []
             else [Ev_stderr "elbe control dump_file Failed"; Ev_stderr "";
                   Ev_stderr "Giving up"])).
Proof.
  unfold dump_logfile.
  destruct (system_run (dump_file_command sys_executable elbe_exe prjdir) w)
    as (dumped & w' & E).
  exists dumped, w'.
  do 3 (eapply bind_run; [reflexivity | | reflexivity]).
  destruct dumped.
  - eapply bind_run; [apply try_except_Ret; exact E | reflexivity | reflexivity].
  - eapply bind_run;
      [eapply try_except_handled; [exact E | reflexivity | reflexivity | reflexivity]
      | reflexivity | reflexivity].
Qed.

(** The retrieval command with its handler. *)
Lemma retrieval_run command prjdir code (w : world R) :
  exists w',
    try_except (system shell command)
      (except_CalledProcessError
         (dump_logfile shell sys_executable elbe_exe prjdir code)) w =
      Run (Ret tt) w' [Ev_system command true]
    \/ exists dumped,
        try_except (system shell command)
          (except_CalledProcessError
             (dump_logfile shell sys_executable elbe_exe prjdir code)) w =
          Run (Raise (SystemExit code)) w'
            (get_files_failed sys_executable elbe_exe command prjdir dumped).
Proof.
  destruct (system_run command w) as ([|] & w1 & E).
  - exists w1. left. now apply try_except_Ret.
  - destruct (dump_logfile_run prjdir code w1) as (dumped & w2 & E2).
    exists w2. right. exists dumped.
    eapply try_except_handled; [exact E | reflexivity | exact E2 | reflexivity].
Qed.

End WorkflowProofs.

(** The handler of the update pipeline does request the update and
    returns without a wait. *)
Lemma UpdateAction_execute_requests_update :
  result update_run = Ret tt
  /\ commands (events update_run) =
       [(elbe_control "python3" "elbe" ("update_pbuilder " +:+ quoted project_dir0), true)].
Proof. vm_compute. split; reflexivity. Qed.

(** C3: as the module leaves the registry, the names of the create and of
    the build pipeline dispatch to their handlers, and the name of the
    update pipeline, the tag of [UpdateAction], is not registered:
    constructing the action by that name raises [KeyError]. *)
Theorem update_action_is_not_registered :
  PBuilderAction "create" = Ret {| class_of := CreateAction; node := "create" |}
  /\ PBuilderAction "build" = Ret {| class_of := BuildAction; node := "build" |}
  /\ tag UpdateAction = "update"
  /\ actiondict !! "update" = None
  /\ PBuilderAction "update" = Raise (KeyError "update").
Proof. vm_compute. repeat split. Qed.

(** * The properties at concrete runs *)

Lemma set_xml_echoes_granted_index_witness :
  events one_block_run =
    [upload_event project_dir0 (b64 (bytes_of "<ns0:RootFileSystem/>")) 0 (Ans (VInt 1));
     upload_event project_dir0 (b64 []) (-1) (Ans (VInt (-2)));
     upload_finished]
  /\ result one_block_run = Ret tt.
Proof.
  assert (E : events one_block_run =
    [upload_event project_dir0 (b64 (bytes_of "<ns0:RootFileSystem/>")) 0 (Ans (VInt 1));
     upload_event project_dir0 (b64 []) (-1) (Ans (VInt (-2)));
     upload_finished]) by (vm_compute; reflexivity).
  split; [exact E|].
  destruct (set_xml_echoes_granted_index scripted (fun _ _ => true) 3 project_dir0
              "source.xml" one_block_upload) as (_ & _ & _ & H).
  exact (proj2 (H [upload_event project_dir0 (b64 (bytes_of "<ns0:RootFileSystem/>")) 0
                     (Ans (VInt 1))]
                  (b64 []) (-1) [upload_finished] E)).
Defined.

Lemma set_xml_without_target_witness :
  files one_block_upload !! "source.xml" = Some (bytes_of "<ns0:RootFileSystem/>")
  /\ result no_target_run =
       Raise (ValueError "<target> is missing, this file can't be built in an initvm")
  /\ events no_target_run = []
  /\ after no_target_run = one_block_upload.
Proof.
  split; [vm_compute; reflexivity|].
  apply (set_xml_without_target scripted (fun _ _ => false) 3 project_dir0 "source.xml"
           (bytes_of "<ns0:RootFileSystem/>") one_block_upload);
    [vm_compute; reflexivity | reflexivity].
Defined.



(** C4 fails as it is stated: in this build the wait fails; the pipeline
    exits with 167, the wait is its last command, and the log file is
    never asked for. *)
Lemma wait_failure_fetches_no_log :
  result wait_fails_run = Raise (SystemExit 167)
  /\ last (commands (events wait_fails_run)) =
       Some (wait_busy_command "python3" "elbe" project_dir0, false)
  /\ ~ In (dump_file_command "python3" "elbe" project_dir0)
         (map fst (commands (events wait_fails_run))).
Proof.
  split; [vm_compute; reflexivity|]. split; [vm_compute; reflexivity|].
  vm_compute. intros H.
  repeat (destruct H as [H|H]; [discriminate H|]). exact H.
Qed.

Lemma connect_version_mismatch_witness :
  In (Ev_call Call_get_version (Ans (VStr "15.0"))) (events mismatch_run)
  /\ "15.0" <> "14.9"
  /\ result mismatch_run = Raise (ElbeVersionMismatch "14.9" "15.0")
  /\ last (events mismatch_run) = Some (Ev_call Call_get_version (Ans (VStr "15.0"))).
Proof.
  assert (E : In (Ev_call Call_get_version (Ans (VStr "15.0"))) (events mismatch_run))
    by (vm_compute; do 3 right; left; reflexivity).
  assert (N : "15.0" <> "14.9") by discriminate.
  split; [exact E|]. split; [exact N|].
  destruct (connect_version_mismatch scripted "14.9" 3 a_client other_version "15.0" E N)
    as (H1 & _ & H2).
  split; [exact H1 | exact H2].
Defined.

Lemma wait_busy_final_status_witness :
  result (wait_busy_loop scripted 5 project_dir0 failed_build) = Ret tt
  /\ result failed_build_run = Raise (status_failure "build_failed").
Proof.
  assert (E : result (wait_busy_loop scripted 5 project_dir0 failed_build) = Ret tt)
    by (vm_compute; reflexivity).
  split; [exact E|].
  destruct (wait_busy_final_status scripted 5 project_dir0 failed_build E)
    as (_ & rep & Hev & _ & H).
  assert (Hev' : events (wait_busy scripted 5 project_dir0 failed_build) =
                 events (wait_busy_loop scripted 5 project_dir0 failed_build)
                 ++ [Ev_call (Call_get_project project_dir0) (Ans (VStr "build_failed"))])
    by (vm_compute; reflexivity).
  rewrite Hev in Hev'. apply app_inj_tail in Hev' as [_ Hrep].
  injection Hrep as Hrep.
  apply (H "build_failed" Hrep). discriminate.
Defined.

Lemma wait_busy_yields_witness :
  (In (Ev_yield "building") (events failed_build_run)
   /\ "building" <> "" /\ "building" <> "ELBE-FINISH")
  /\ after_poll project_dir0 (result failed_build_stream) (Ans VNone)
       [Ev_sleep 100;
        poll_event project_dir0 (Fault SocketError); retry_warning;
        poll_event project_dir0 (Ans (VStr "ELBE-FINISH"))]
  /\ after_poll project_dir0 (result failed_build_stream) (Fault SocketError)
       [retry_warning; poll_event project_dir0 (Ans (VStr "ELBE-FINISH"))].
Proof.
  pose proof (wait_busy_yields scripted 5 project_dir0 failed_build) as H.
  cbv zeta in H. destruct H as (H1 & _ & H2 & _).
  split; [|split].
  - assert (E : In (Ev_yield "building") (events failed_build_run))
      by (vm_compute; right; left; reflexivity).
    split; [exact E | exact (H1 "building" E)].
  - apply (H2 [poll_event project_dir0 (Ans (VStr "building")); Ev_yield "building"]).
    vm_compute. reflexivity.
  - apply (H2 [poll_event project_dir0 (Ans (VStr "building")); Ev_yield "building";
               poll_event project_dir0 (Ans VNone); Ev_sleep 100]).
    vm_compute. reflexivity.
Defined.

Lemma transfer_calls_witness :
  files with_hello !! "src/hello_1.0.orig.tar.gz" = Some hello
  /\ events push_run =
       start_event project_dir0 "hello_1.0.orig.tar.gz"
       :: map (fun i => append_event project_dir0 (block (1024 * 1024) hello i)) (seq 0 1)
       ++ [finish_event project_dir0]
  /\ events fetch_run =
       map (fun i => get_event project_dir0 "hello_1.0.orig.tar.gz" i
                       (b64 (block (1024 * 1024) hello i))) (seq 0 1)
       ++ [get_event project_dir0 "hello_1.0.orig.tar.gz" 1 "EndOfFile"].
Proof.
  assert (H : files with_hello !! "src/hello_1.0.orig.tar.gz" = Some hello)
    by (vm_compute; reflexivity).
  split; [exact H|].
  destruct (transfer_calls scripted 1 2 project_dir0 "src/hello_1.0.orig.tar.gz"
              "out/hello_1.0.orig.tar.gz" hello with_hello H)
    as (H1 & _ & H2 & _); [vm_compute; lia | vm_compute; lia |].
  split; [exact H1 | exact H2].
Defined.

Lemma upload_download_roundtrip_witness :
  files with_hello !! "src/hello_1.0.orig.tar.gz" = Some hello
  /\ result push_run = Ret tt
  /\ result fetch_run = Ret tt
  /\ files (after fetch_run) !! "out/hello_1.0.orig.tar.gz" = Some hello.
Proof.
  assert (H : files with_hello !! "src/hello_1.0.orig.tar.gz" = Some hello)
    by (vm_compute; reflexivity).
  split; [exact H|].
  destruct (upload_download_roundtrip scripted 1 2 project_dir0
              "src/hello_1.0.orig.tar.gz" "out/hello_1.0.orig.tar.gz" hello with_hello H)
    as (H1 & H2 & H3 & _); [reflexivity | reflexivity |].
  split; [exact H1 | split; [exact H2 | exact H3]].
Defined.

(** * More of the workflow *)

Section UpdateProofs.
Context {R : Type} (shell : Shell R).
Variables sys_executable elbe_exe : string.

Lemma UpdateAction_execute_run opt (w : world R) :
  given (project opt) = true ->
  exists (ok : bool) w',
    UpdateAction_execute shell sys_executable elbe_exe opt w =
      Run (if ok then Ret tt else Raise (SystemExit 159)) w'
        (Ev_stdout "Updating pbuilder"
         :: Ev_system (update_command sys_executable elbe_exe (text (project opt))) ok
         :: (if ok then [Ev_stdout ""; Ev_stdout "Updating Pbuilder finished !"; Ev_stdout ""]
             else [Ev_stderr "elbe control update_pbuilder Failed"; Ev_stderr "Giving up"])).
Proof.
  intros Hp. unfold UpdateAction_execute. rewrite Hp. cbn [negb].
  destruct (guarded_run shell (update_command sys_executable elbe_exe (text (project opt)))
              "elbe control update_pbuilder Failed" "Giving up" 159 w) as (w' & [E|E]).
  - exists true, w'.
    eapply bind_run; [reflexivity | | reflexivity].
    eapply bind_run; [reflexivity | | reflexivity].
    eapply bind_run; [exact E | reflexivity | reflexivity].
  - exists false, w'.
    eapply bind_run; [reflexivity | | reflexivity].
    eapply bind_run; [reflexivity | | reflexivity].
    rewrite (bind_raise _ _ _ _ _ _ E). reflexivity.
Qed.

(** X1: without a project the update handler prints its message and
    exits with 158, no command run and the world as it was; with a project
    it runs exactly one command, the update of the pbuilder of that project,
    and returns when it succeeds and exits with 159 when it fails: it never
    waits for the build. *)
Theorem UpdateAction_execute_commands opt (w : world R) :
  let r := UpdateAction_execute shell sys_executable elbe_exe opt w in
  if given (project opt) then
    exists ok,
      commands (events r) = [(update_command sys_executable elbe_exe (text (project opt)), ok)]
      /\ result r = (if ok then Ret tt else Raise (SystemExit 159))
  else
    result r = Raise (SystemExit 158) /\ events r = [Ev_stderr "you need to specify --project option"] /\ after r = w.
Proof.
  intros r. subst r.
  destruct (given (project opt)) eqn:Hp.
  - destruct (UpdateAction_execute_run opt w Hp) as (ok & w' & E).
    exists ok. rewrite E. destruct ok; split; reflexivity.
  - unfold UpdateAction_execute. rewrite Hp. cbn. destruct w; auto.
Qed.
End UpdateProofs.

Lemma commands_app evs1 evs2 : commands (evs1 ++ evs2) = commands evs1 ++ commands evs2.
Proof.
  induction evs1 as [|ev evs1 IH]; [reflexivity|].
  destruct ev; cbn; rewrite ?IH; reflexivity.
Qed.

Section CreateProofs.
Context {R : Type} (shell : Shell R).
Variables sys_executable elbe_exe : string.

Lemma command_out_stderr_run cmd (w : world R) :
  exists code out err w',
    command_out_stderr shell cmd w =
      Run (Ret (code, out, err)) w' [Ev_command_out_stderr cmd code out err].
Proof.
  unfold command_out_stderr.
  destruct (run_command_out_stderr shell cmd (remote w)) as [[[code out] err] rem'].
  eauto 6.
Qed.


(** A check of an exit status after a command. *)
Lemma status_check_run (code : Z) line1 err status (w : world R) :
  (code = 0 /\
   (if negb (code =? 0) then
      print_stderr line1 >> print_stderr err >> print_stderr "Giving up" >> sys_exit status
    else ret tt) w = Run (Ret tt) w [])
  \/ (code <> 0 /\
      (if negb (code =? 0) then
         print_stderr line1 >> print_stderr err >> print_stderr "Giving up" >> sys_exit status
       else ret tt) w =
        Run (Raise (SystemExit status)) w
          [Ev_stderr line1; Ev_stderr err; Ev_stderr "Giving up"]).
Proof.
  destruct (code =? 0) eqn:E; [left | right].
  - apply Z.eqb_eq in E. split; [exact E | reflexivity].
  - apply Z.eqb_neq in E. split; [exact E | reflexivity].
Qed.

End CreateProofs.

Section CreateMain.
Context {R : Type} (shell : Shell R).
Variables sys_executable elbe_exe : string.


End CreateMain.

Section BuildOutcome.
Context {R : Type} (shell : Shell R).
Variables sys_executable elbe_exe : string.
Variable tmp_fname : string -> string.

Lemma bind_ends_in {A B} codes (m : M R A) (k : A -> M R B) (w : world R) :
  ends_in codes (m w) ->
  (forall a w', ends_in codes (k a w')) ->
  ends_in codes (bind m k w).
Proof.
  intros Hm Hk. unfold ends_in, bind in *.
  destruct (result (m w)) as [a|e|]; cbn; [apply Hk | exact Hm | exact Hm].
Qed.

Lemma emit_ends_in codes ev (w : world R) : ends_in codes (emit ev w).
Proof. exact I. Qed.

Lemma ret_ends_in {A} codes (a : A) (w : world R) : ends_in codes (ret a w).
Proof. exact I. Qed.

Lemma exit_ends_in {A} codes code (w : world R) :
  In code codes -> ends_in codes (@sys_exit R A code w).
Proof. intros H. exact H. Qed.

Lemma guarded_ends_in codes cmd line1 line2 code (w : world R) :
  In code codes ->
  ends_in codes
    (try_except (system shell cmd)
       (except_CalledProcessError
          (print_stderr line1 >> print_stderr line2 >> sys_exit code)) w).
Proof.
  intros H. destruct (guarded_run shell cmd line1 line2 code w) as (w' & [E|E]);
    rewrite E; [exact I | exact H].
Qed.

Ltac ends :=
  repeat first
    [ apply emit_ends_in
    | apply ret_ends_in
    | apply guarded_ends_in; cbn; tauto
    | apply exit_ends_in; cbn; tauto
    | apply bind_ends_in; [|intros ? ?] ].

Lemma build_pack_ends_in (w : world R) :
  ends_in build_codes (build_pack shell tmp_fname w).
Proof. unfold build_pack, print. ends. Qed.

Lemma build_push_orig_ends_in prjdir origfiles (w : world R) :
  ends_in build_codes (build_push_orig shell sys_executable elbe_exe prjdir origfiles w).
Proof.
  revert w. induction origfiles as [|of_ origfiles IH]; intros w; cbn [build_push_orig].
  - apply ret_ends_in.
  - unfold print. ends. apply IH.
Qed.

Lemma build_push_source_ends_in opt crossopt prjdir (w : world R) :
  ends_in build_codes
    (build_push_source shell sys_executable elbe_exe tmp_fname opt crossopt prjdir w).
Proof. unfold build_push_source, print. ends. Qed.

Lemma build_wait_ends_in prjdir (w : world R) :
  ends_in build_codes (build_wait shell sys_executable elbe_exe prjdir w).
Proof. unfold build_wait. ends. Qed.

Lemma build_fetch_ends_in opt prjdir (w : world R) :
  ends_in build_codes (build_fetch shell sys_executable elbe_exe opt prjdir w).
Proof.
  unfold build_fetch. destruct (skip_download opt).
  - unfold print. apply bind_ends_in; [apply emit_ends_in|intros ? ?].
    apply bind_ends_in; [apply emit_ends_in|intros ? ?].
    apply bind_ends_in; [apply emit_ends_in|intros ? w1].
    apply bind_ends_in;
      [|intros ? ?; apply bind_ends_in; [apply emit_ends_in | intros ? ?; apply emit_ends_in]].
    destruct (retrieval_run shell sys_executable elbe_exe
                (list_files_command sys_executable elbe_exe prjdir) prjdir 168 w1)
      as (wf & [E | [dumped E]]); rewrite E; unfold ends_in, build_codes; cbn; tauto.
  - unfold print. apply bind_ends_in; [apply emit_ends_in|intros ? ?].
    apply bind_ends_in; [apply emit_ends_in|intros ? ?].
    apply bind_ends_in; [apply emit_ends_in|intros ? w1].
    apply bind_ends_in;
      [unfold ensure_outdir, print;
       apply bind_ends_in; [apply emit_ends_in | intros ? ?; apply ret_ends_in]
      |intros opt' w2].
    destruct (retrieval_run shell sys_executable elbe_exe
                (get_files_command sys_executable elbe_exe opt' prjdir) prjdir 169 w2)
      as (wf & [E | [dumped E]]); rewrite E; unfold ends_in, build_codes; cbn; tauto.
Qed.

(** The steps after the project is known. *)
Lemma build_steps_ends_in opt prjdir (w : world R) :
  ends_in build_codes
    ((build_pack shell tmp_fname >>
      build_push_orig shell sys_executable elbe_exe prjdir (origfile opt) >>
      build_push_source shell sys_executable elbe_exe tmp_fname opt
        (if cross opt then "--cross" else "") prjdir >>
      build_wait shell sys_executable elbe_exe prjdir >>
      print "" >> print "Pdebuild finished !" >> print "" >>
      build_fetch shell sys_executable elbe_exe opt prjdir) w).
Proof.
  apply bind_ends_in; [apply build_pack_ends_in|intros ? ?].
  apply bind_ends_in; [apply build_push_orig_ends_in|intros ? ?].
  apply bind_ends_in; [apply build_push_source_ends_in|intros ? ?].
  apply bind_ends_in; [apply build_wait_ends_in|intros ? ?].
  unfold print.
  apply bind_ends_in; [apply emit_ends_in|intros ? ?].
  apply bind_ends_in; [apply emit_ends_in|intros ? ?].
  apply bind_ends_in; [apply emit_ends_in|intros ? ?].
  apply build_fetch_ends_in.
Qed.

(** How the first step ends. *)
Lemma build_project_cases opt (w : world R) :
  (exists prjdir w1 evs1,
      build_project shell sys_executable elbe_exe opt w = Run (Ret prjdir) w1 evs1)
  \/ (exists c w1 evs1,
         160 <= c <= 163
         /\ build_project shell sys_executable elbe_exe opt w =
              Run (Raise (SystemExit c)) w1 evs1)
  \/ (exists w1,
         given (xmlfile opt) = false /\ given (project opt) = true
         /\ build_project shell sys_executable elbe_exe opt w =
              Run (Raise CalledProcessError) w1
                [Ev_system (rm_log_command sys_executable elbe_exe (text (project opt)))
                   false]).
Proof.
  unfold build_project.
  destruct (given (xmlfile opt)) eqn:Hx.
  - destruct (command_out_stderr_run shell
                (elbe_control sys_executable elbe_exe
                   ("create_project --retries 60 " +:+ quoted (text (xmlfile opt)))) w)
      as (code & out & err & w1 & E1).
    destruct (status_check_run code "elbe control create_project failed." err 160 w1)
      as [[Hc Es]|[Hc Es]].
    + destruct (guarded_run shell
                  (elbe_control sys_executable elbe_exe ("build_pbuilder " +:+ quoted (strip out)))
                  "elbe control build_pbuilder Failed" "Giving up" 161 w1) as (w2 & [E2|E2]).
      * destruct (guarded_run shell
                    (elbe_control sys_executable elbe_exe ("wait_busy " +:+ quoted (strip out)))
                    "elbe control wait_busy Failed" "Giving up" 162 w2) as (w3 & [E3|E3]).
        -- left. eexists _, _, _.
           eapply bind_run; [exact E1 | | reflexivity]. cbv beta iota.
           eapply bind_run; [exact Es | | reflexivity].
           eapply bind_run; [exact E2 | | reflexivity].
           eapply bind_run; [exact E3 | reflexivity | reflexivity].
        -- right. left. exists 162. eexists _, _. split; [lia|].
           eapply bind_run; [exact E1 | | reflexivity]. cbv beta iota.
           eapply bind_run; [exact Es | | reflexivity].
           eapply bind_run; [exact E2 | | reflexivity].
           apply (bind_raise _ _ _ _ _ _ E3).
      * right. left. exists 161. eexists _, _. split; [lia|].
        eapply bind_run; [exact E1 | | reflexivity]. cbv beta iota.
        eapply bind_run; [exact Es | | reflexivity].
        apply (bind_raise _ _ _ _ _ _ E2).
    + right. left. exists 160. eexists _, _. split; [lia|].
      eapply bind_run; [exact E1 | | reflexivity]. cbv beta iota.
      apply (bind_raise _ _ _ _ _ _ Es).
  - destruct (given (project opt)) eqn:Hp.
    + destruct (system_run shell (rm_log_command sys_executable elbe_exe (text (project opt))) w)
        as ([|] & w1 & E).
      * left. eexists _, _, _. eapply bind_run; [exact E | reflexivity | reflexivity].
      * right. right. exists w1. split; [reflexivity|]. split; [reflexivity|].
        apply (bind_raise _ _ _ _ _ _ E).
    + right. left. exists 163. eexists _, _. split; [lia|]. reflexivity.
Qed.

(** X3: the build handler returns, or exits with a status from 160 to
    169, or, when the project is given and the removal of its log fails,
    lets [CalledProcessError] escape with that command as the only event;
    nothing else. *)
Theorem BuildAction_execute_ends opt (w : world R) :
  let r := BuildAction_execute shell sys_executable elbe_exe tmp_fname opt w in
  match result r with
  | Ret _ => True
  | Raise (SystemExit c) => 160 <= c <= 169
  | Raise e =>
      e = CalledProcessError
      /\ given (xmlfile opt) = false
      /\ events r =
           [Ev_system (rm_log_command sys_executable elbe_exe (text (project opt))) false]
  | OutOfFuel => False
  end.
Proof.
  intros r. subst r. unfold BuildAction_execute. cbv zeta.
  destruct (build_project_cases opt w)
    as [(prjdir & w1 & evs1 & E) | [(c & w1 & evs1 & Hc & E) | (w1 & Hx & Hp & E)]].
  - rewrite (bind_Ret_eta _ _ _ _ _ _ E). cbn [result].
    pose proof (build_steps_ends_in opt prjdir w1) as H. unfold ends_in in H.
    match goal with |- match ?x with _ => _ end =>
      match type of H with match ?y with _ => _ end => change x with y end end.
    destruct (result _) as [a|e|]; [exact I | | exact H].
    destruct e; try contradiction.
    unfold build_codes in H. cbn in H. lia.
  - rewrite (bind_raise _ _ _ _ _ _ E). cbn. lia.
  - rewrite (bind_raise _ _ _ _ _ _ E). cbn. auto.
Qed.
End BuildOutcome.

Section BuildSteps.
Context {R : Type} (shell : Shell R).
Variables sys_executable elbe_exe : string.
Variable tmp_fname : string -> string.

Lemma bind_Ret_inv {A B} (m : M R A) (k : A -> M R B) (w : world R) b :
  result (bind m k w) = Ret b ->
  exists a,
    result (m w) = Ret a
    /\ result (k a (after (m w))) = Ret b
    /\ events (bind m k w) = events (m w) ++ events (k a (after (m w))).
Proof.
  unfold bind. destruct (result (m w)) as [a|e|]; cbn; [|discriminate|discriminate].
  intros H. exists a. auto.
Qed.

Lemma guarded_Ret cmd line1 line2 code (w : world R) :
  result (try_except (system shell cmd)
            (except_CalledProcessError
               (print_stderr line1 >> print_stderr line2 >> sys_exit code)) w) = Ret tt ->
  commands (events (try_except (system shell cmd)
                      (except_CalledProcessError
                         (print_stderr line1 >> print_stderr line2 >> sys_exit code)) w))
  = [succeeded cmd].
Proof.
  destruct (guarded_run shell cmd line1 line2 code w) as (w' & [E|E]); rewrite E; cbn;
    [reflexivity | discriminate].
Qed.

Lemma build_push_orig_cases prjdir origfiles (w : world R) :
  let r := build_push_orig shell sys_executable elbe_exe prjdir origfiles w in
  let cmd := set_orig_command sys_executable elbe_exe prjdir in
  (result r = Ret tt
   /\ commands (events r) = map (fun of_ => (cmd of_, true)) origfiles)
  \/ (exists pushed of_ rest,
         origfiles = pushed ++ of_ :: rest
         /\ result r = Raise (SystemExit 165)
         /\ commands (events r) =
              map (fun of_ => (cmd of_, true)) pushed ++ [(cmd of_, false)]).
Proof.
  cbv zeta. revert w.
  induction origfiles as [|of_ origfiles IH]; intros w; cbn [build_push_orig].
  - left. split; reflexivity.
  - destruct (guarded_run shell (set_orig_command sys_executable elbe_exe prjdir of_)
                "elbe control set_orig Failed" "Giving up" 165 w) as (w1 & [E|E]).
    + assert (Eq : (print "" >>
                    print ("Pushing orig file '" +:+ of_ +:+ "' into pbuilder") >>
                    print "" >>
                    try_except
                      (system shell (set_orig_command sys_executable elbe_exe prjdir of_))
                      (except_CalledProcessError
                         (print_stderr "elbe control set_orig Failed" >>
                          print_stderr "Giving up" >> sys_exit 165)) >>
                    build_push_orig shell sys_executable elbe_exe prjdir origfiles) w
                   = Run (result (build_push_orig shell sys_executable elbe_exe prjdir origfiles w1))
                       (after (build_push_orig shell sys_executable elbe_exe prjdir origfiles w1))
                       ([Ev_stdout "";
                         Ev_stdout ("Pushing orig file '" +:+ of_ +:+ "' into pbuilder");
                         Ev_stdout "";
                         Ev_system (set_orig_command sys_executable elbe_exe prjdir of_) true]
                        ++ events (build_push_orig shell sys_executable elbe_exe prjdir
                                     origfiles w1))).
      { eapply bind_run; [reflexivity | | reflexivity].
        eapply bind_run; [reflexivity | | reflexivity].
        eapply bind_run; [reflexivity | | reflexivity].
        eapply bind_run; [exact E | apply run_eta | reflexivity]. }
      unfold set_orig_command in Eq at 1. rewrite Eq. cbn [result events].
      rewrite commands_app.
      destruct (IH w1) as [[Hr Hc] | (pushed & f & rest & -> & Hr & Hc)].
      * left. rewrite Hr, Hc. split; reflexivity.
      * right. exists (of_ :: pushed), f, rest. rewrite Hr, Hc.
        split; [reflexivity|]. split; reflexivity.
    + right. exists [], of_, origfiles. split; [reflexivity|].
      assert (Eq : (print "" >>
                    print ("Pushing orig file '" +:+ of_ +:+ "' into pbuilder") >>
                    print "" >>
                    try_except
                      (system shell (set_orig_command sys_executable elbe_exe prjdir of_))
                      (except_CalledProcessError
                         (print_stderr "elbe control set_orig Failed" >>
                          print_stderr "Giving up" >> sys_exit 165)) >>
                    build_push_orig shell sys_executable elbe_exe prjdir origfiles) w
                   = Run (Raise (SystemExit 165)) w1
                       ([Ev_stdout "";
                         Ev_stdout ("Pushing orig file '" +:+ of_ +:+ "' into pbuilder");
                         Ev_stdout ""]
                        ++ [Ev_system (set_orig_command sys_executable elbe_exe prjdir of_) false;
                            Ev_stderr "elbe control set_orig Failed"; Ev_stderr "Giving up"])).
      { eapply bind_run; [reflexivity | | reflexivity].
        eapply bind_run; [reflexivity | | reflexivity].
        eapply bind_run; [reflexivity | | reflexivity].
        apply (bind_raise _ _ _ _ _ _ E). }
      unfold set_orig_command in Eq at 1. rewrite Eq. split; reflexivity.
Qed.
(** X4: the orig files are pushed one command each in the order of
    the option: either all of them succeed, or the commands stop at the first
    one that fails, with exit status 165, and the files after it are not
    pushed. *)
Theorem build_push_orig_commands prjdir origfiles (w : world R) :
  let r := build_push_orig shell sys_executable elbe_exe prjdir origfiles w in
  let cmd := set_orig_command sys_executable elbe_exe prjdir in
  (result r = Ret tt
   /\ commands (events r) = map (fun of_ => (cmd of_, true)) origfiles)
  \/ (exists pushed of_ rest,
         origfiles = pushed ++ of_ :: rest
         /\ result r = Raise (SystemExit 165)
         /\ commands (events r) =
              map (fun of_ => (cmd of_, true)) pushed ++ [(cmd of_, false)]).
Proof. exact (build_push_orig_cases prjdir origfiles w). Qed.
End BuildSteps.

Section BuildSuccess.
Context {R : Type} (shell : Shell R).
Variables sys_executable elbe_exe : string.
Variable tmp_fname : string -> string.

Lemma build_project_Ret opt prjdir (w : world R) :
  result (build_project shell sys_executable elbe_exe opt w) = Ret prjdir ->
  commands (events (build_project shell sys_executable elbe_exe opt w)) =
    map succeeded (project_commands sys_executable elbe_exe opt prjdir)
  /\ (given (xmlfile opt) = false -> prjdir = text (project opt)).
Proof.
  unfold build_project, project_commands.
  destruct (given (xmlfile opt)) eqn:Hx.
  - destruct (command_out_stderr_run shell
                (elbe_control sys_executable elbe_exe
                   ("create_project --retries 60 " +:+ quoted (text (xmlfile opt)))) w)
      as (code & out & err & w1 & E1).
    destruct (status_check_run code "elbe control create_project failed." err 160 w1)
      as [[Hc Es]|[Hc Es]].
    + destruct (guarded_run shell
                  (elbe_control sys_executable elbe_exe ("build_pbuilder " +:+ quoted (strip out)))
                  "elbe control build_pbuilder Failed" "Giving up" 161 w1) as (w2 & [E2|E2]).
      * destruct (guarded_run shell
                    (elbe_control sys_executable elbe_exe ("wait_busy " +:+ quoted (strip out)))
                    "elbe control wait_busy Failed" "Giving up" 162 w2) as (w3 & [E3|E3]).
        -- match goal with |- result (?m w) = _ -> _ =>
             assert (E : m w = Run (Ret (strip out)) w3
                           ([Ev_command_out_stderr
                               (elbe_control sys_executable elbe_exe
                                  ("create_project --retries 60 "
                                   +:+ quoted (text (xmlfile opt)))) code out err]
                            ++ [] ++
                            [Ev_system
                               (elbe_control sys_executable elbe_exe
                                  ("build_pbuilder " +:+ quoted (strip out))) true]
                            ++ [Ev_system
                                  (elbe_control sys_executable elbe_exe
                                     ("wait_busy " +:+ quoted (strip out))) true]
                            ++ [Ev_stdout ""; Ev_stdout "Building Pbuilder finished !";
                                Ev_stdout ""]))
           end.
           { eapply bind_run; [exact E1 | | reflexivity]. cbv beta iota.
             eapply bind_run; [exact Es | | reflexivity].
             eapply bind_run; [exact E2 | | reflexivity].
             eapply bind_run; [exact E3 | reflexivity | reflexivity]. }
           rewrite E. cbn [result events]. intros [= <-].
           split; [reflexivity | discriminate].
        -- match goal with |- result (?m w) = _ -> _ =>
             assert (E : result (m w) = Raise (SystemExit 162))
           end.
           { erewrite bind_run; [reflexivity | exact E1 | | reflexivity]. cbv beta iota.
             eapply bind_run; [exact Es | | reflexivity].
             eapply bind_run; [exact E2 | | reflexivity].
             apply (bind_raise _ _ _ _ _ _ E3). }
           rewrite E. discriminate.
      * match goal with |- result (?m w) = _ -> _ =>
          assert (E : result (m w) = Raise (SystemExit 161))
        end.
        { erewrite bind_run; [reflexivity | exact E1 | | reflexivity]. cbv beta iota.
          eapply bind_run; [exact Es | | reflexivity].
          apply (bind_raise _ _ _ _ _ _ E2). }
        rewrite E. discriminate.
    + match goal with |- result (?m w) = _ -> _ =>
        assert (E : result (m w) = Raise (SystemExit 160))
      end.
      { erewrite bind_run; [reflexivity | exact E1 | | reflexivity]. cbv beta iota.
        apply (bind_raise _ _ _ _ _ _ Es). }
      rewrite E. discriminate.
  - destruct (given (project opt)) eqn:Hp.
    + destruct (system_run shell (rm_log_command sys_executable elbe_exe (text (project opt))) w)
        as ([|] & w1 & E).
      * unfold rm_log_command in E.
        rewrite (bind_Ret_eta _ _ _ _ _ _ E). cbn. intros [= <-]. split; reflexivity.
      * unfold rm_log_command in E.
        rewrite (bind_raise _ _ _ _ _ _ E). discriminate.
    + cbn. discriminate.
Qed.

Lemma build_fetch_Ret opt prjdir (w : world R) :
  result (build_fetch shell sys_executable elbe_exe opt prjdir w) = Ret tt ->
  commands (events (build_fetch shell sys_executable elbe_exe opt prjdir w)) =
    [succeeded (fetch_command sys_executable elbe_exe opt prjdir)].
Proof.
  unfold build_fetch, fetch_command.
  destruct (skip_download opt) eqn:Eskip.
  - destruct (retrieval_run shell sys_executable elbe_exe
                (list_files_command sys_executable elbe_exe prjdir) prjdir 168 w)
      as (w' & [E | [dumped E]]).
    + match goal with |- result (?m w) = _ -> _ =>
        assert (Eq : m w = Run (Ret tt) w'
                       ([Ev_stdout ""] ++ [Ev_stdout "Listing available files:"]
                        ++ [Ev_stdout ""]
                        ++ [Ev_system (list_files_command sys_executable elbe_exe prjdir) true]
                        ++ [Ev_stdout ""]
                        ++ [Ev_stdout ("Get Files with: 'elbe control get_file "
                                       +:+ prjdir +:+ " <filename>'")]))
      end.
      { do 3 (eapply bind_run; [reflexivity | | reflexivity]).
        eapply bind_run; [exact E | | reflexivity].
        eapply bind_run; [reflexivity | reflexivity | reflexivity]. }
      rewrite Eq. intros _. reflexivity.
    + match goal with |- result (?m w) = _ -> _ =>
        assert (Eq : result (m w) = Raise (SystemExit 168))
      end.
      { erewrite bind_run; [reflexivity | reflexivity | | reflexivity].
        do 2 (eapply bind_run; [reflexivity | | reflexivity]).
        apply (bind_raise _ _ _ _ _ _ E). }
      rewrite Eq. discriminate.
  - set (opt' := match outdir opt with None => set_outdir opt ".." | Some _ => opt end).
    destruct (retrieval_run shell sys_executable elbe_exe
                (get_files_command sys_executable elbe_exe opt' prjdir) prjdir 169 w)
      as (w' & [E | [dumped E]]).
    + match goal with |- result (?m w) = _ -> _ =>
        assert (Eq : m w = Run (Ret tt) w'
                       ([Ev_stdout ""] ++ [Ev_stdout "Getting generated Files"]
                        ++ [Ev_stdout ""]
                        ++ [Ev_stdout ("Saving generated Files to " +:+ text (outdir opt'))]
                        ++ [Ev_system (get_files_command sys_executable elbe_exe opt' prjdir)
                              true]))
      end.
      { do 3 (eapply bind_run; [reflexivity | | reflexivity]).
        eapply bind_run; [unfold ensure_outdir; eapply bind_run; reflexivity | | reflexivity].
        exact E. }
      rewrite Eq. intros _. reflexivity.
    + match goal with |- result (?m w) = _ -> _ =>
        assert (Eq : result (m w) = Raise (SystemExit 169))
      end.
      { erewrite bind_run; [reflexivity | reflexivity | | reflexivity].
        do 2 (eapply bind_run; [reflexivity | | reflexivity]).
        eapply bind_run; [unfold ensure_outdir; eapply bind_run; reflexivity | | reflexivity].
        exact E. }
      rewrite Eq. discriminate.
Qed.

Lemma build_push_orig_Ret prjdir origfiles (w : world R) :
  result (build_push_orig shell sys_executable elbe_exe prjdir origfiles w) = Ret tt ->
  commands (events (build_push_orig shell sys_executable elbe_exe prjdir origfiles w)) =
    map succeeded (map (set_orig_command sys_executable elbe_exe prjdir) origfiles).
Proof.
  intros H.
  destruct (build_push_orig_cases shell sys_executable elbe_exe prjdir origfiles w)
    as [[_ Hc] | (pushed & f & rest & _ & Hr & _)].
  - rewrite Hc, map_map. reflexivity.
  - rewrite Hr in H. discriminate.
Qed.

Lemma announced_Ret l1 l2 l3 cmd line1 line2 code (w : world R) :
  result ((print l1 >> print l2 >> print l3 >>
           try_except (system shell cmd)
             (except_CalledProcessError
                (print_stderr line1 >> print_stderr line2 >> sys_exit code))) w) = Ret tt ->
  commands (events ((print l1 >> print l2 >> print l3 >>
                     try_except (system shell cmd)
                       (except_CalledProcessError
                          (print_stderr line1 >> print_stderr line2 >> sys_exit code))) w))
  = [succeeded cmd].
Proof.
  destruct (guarded_run shell cmd line1 line2 code w) as (w' & [E|E]).
  - assert (Eq : (print l1 >> print l2 >> print l3 >>
                  try_except (system shell cmd)
                    (except_CalledProcessError
                       (print_stderr line1 >> print_stderr line2 >> sys_exit code))) w
                 = Run (Ret tt) w'
                     ([Ev_stdout l1] ++ [Ev_stdout l2] ++ [Ev_stdout l3]
                      ++ [Ev_system cmd true])).
    { do 3 (eapply bind_run; [reflexivity | | reflexivity]). exact E. }
    rewrite Eq. intros _. reflexivity.
  - assert (Eq : result ((print l1 >> print l2 >> print l3 >>
                          try_except (system shell cmd)
                            (except_CalledProcessError
                               (print_stderr line1 >> print_stderr line2 >> sys_exit code))) w)
                 = Raise (SystemExit code)).
    { erewrite bind_run; [reflexivity | reflexivity | | reflexivity].
      do 2 (eapply bind_run; [reflexivity | | reflexivity]). exact E. }
    rewrite Eq. discriminate.
Qed.

(** X5: a build that returns has run, all with success and in this
    order: the commands of its first step, the archive of the source, one
    push for each orig file, the push of the source, the wait and the
    retrieval; no other command. *)
Theorem BuildAction_execute_success opt (w : world R) :
  let r := BuildAction_execute shell sys_executable elbe_exe tmp_fname opt w in
  result r = Ret tt ->
  exists prjdir,
    (given (xmlfile opt) = false -> prjdir = text (project opt))
    /\ commands (events r) =
         map succeeded (build_commands sys_executable elbe_exe tmp_fname opt prjdir).
Proof.
  intros r H. subst r. unfold BuildAction_execute in *. cbv zeta in *.
  apply bind_Ret_inv in H as (prjdir & H1 & H & ->).
  apply build_project_Ret in H1 as [C1 Hprj].
  exists prjdir. split; [exact Hprj|].
  set (w1 := after (build_project shell sys_executable elbe_exe opt w)) in *. clearbody w1.
  apply bind_Ret_inv in H as ([] & H2 & H & ->).
  apply announced_Ret in H2.
  set (w2 := after (build_pack shell tmp_fname w1)) in *. clearbody w2.
  apply bind_Ret_inv in H as ([] & H3 & H & ->).
  apply build_push_orig_Ret in H3.
  set (w3 := after (build_push_orig shell sys_executable elbe_exe prjdir (origfile opt) w2))
    in *. clearbody w3.
  apply bind_Ret_inv in H as ([] & H4 & H & ->).
  apply announced_Ret in H4.
  set (w4 := after (build_push_source shell sys_executable elbe_exe tmp_fname opt
                      (if cross opt then "--cross" else "") prjdir w3)) in *. clearbody w4.
  apply bind_Ret_inv in H as ([] & H5 & H & ->).
  apply guarded_Ret in H5.
  set (w5 := after (build_wait shell sys_executable elbe_exe prjdir w4)) in *. clearbody w5.
  apply bind_Ret_inv in H as ([] & _ & H & ->).
  apply bind_Ret_inv in H as ([] & _ & H & ->).
  apply bind_Ret_inv in H as ([] & _ & H & ->).
  apply build_fetch_Ret in H.
  unfold build_pack, build_push_source, build_wait.
  rewrite !commands_app, C1, H2, H3, H4, H5, H. cbn [print emit events commands app].
  unfold build_commands. rewrite !map_app. reflexivity.
Qed.
End BuildSuccess.

(** * The failures of the build pipeline *)

Section BuildFailure.
Context {R : Type} (shell : Shell R).
Variables sys_executable elbe_exe : string.
Variable tmp_fname : string -> string.

Lemma run_of_result {A} (r : run R A) res :
  result r = res -> r = Run res (after r) (events r).
Proof. intros <-. apply run_eta. Qed.

Lemma succeeded_until_failure done1 cmd1 more1 done2 cmd2 more2 :
  map succeeded done1 ++ (cmd1, false) :: more1
  = map succeeded done2 ++ (cmd2, false) :: more2 ->
  done1 = done2 /\ cmd1 = cmd2 /\ more1 = more2.
Proof.
  revert done2. induction done1 as [|c done1 IH]; intros [|c2 done2] E; cbn in E.
  - injection E as -> ->. auto.
  - discriminate E.
  - discriminate E.
  - injection E as -> E. destruct (IH _ E) as (-> & -> & ->). auto.
Qed.

Lemma succeeded_no_failure cmds done cmd more :
  map succeeded cmds <> map succeeded done ++ (cmd, false) :: more.
Proof.
  intros E.
  assert (H : In (cmd, false) (map succeeded cmds)).
  { rewrite E. apply in_or_app. right. now left. }
  apply in_map_iff in H as (c & Hc & _). discriminate Hc.
Qed.

(** A command that is announced by three lines and whose failure prints
    two lines and exits. *)
Lemma announced_run l1 l2 l3 cmd line1 line2 code (w : world R) :
  exists w',
    (print l1 >> print l2 >> print l3 >>
     try_except (system shell cmd)
       (except_CalledProcessError
          (print_stderr line1 >> print_stderr line2 >> sys_exit code))) w
    = Run (Ret tt) w' [Ev_stdout l1; Ev_stdout l2; Ev_stdout l3; Ev_system cmd true]
    \/ (print l1 >> print l2 >> print l3 >>
        try_except (system shell cmd)
          (except_CalledProcessError
             (print_stderr line1 >> print_stderr line2 >> sys_exit code))) w
       = Run (Raise (SystemExit code)) w'
           [Ev_stdout l1; Ev_stdout l2; Ev_stdout l3;
            Ev_system cmd false; Ev_stderr line1; Ev_stderr line2].
Proof.
  destruct (guarded_run shell cmd line1 line2 code w) as (w' & [E|E]); exists w'; [left|right];
    do 3 (eapply bind_run; [reflexivity | | reflexivity]); exact E.
Qed.

(** How the first step of a build ends, with its commands. *)
Lemma build_project_steps opt (w : world R) :
  let r := build_project shell sys_executable elbe_exe opt w in
  exists prjdir,
    (given (xmlfile opt) = false -> prjdir = text (project opt))
    /\ ((result r = Ret prjdir
         /\ commands (events r) =
              map succeeded (project_commands sys_executable elbe_exe opt prjdir))
        \/ stops_within 160 163 (project_commands sys_executable elbe_exe opt prjdir) r).
Proof.
  cbv zeta. unfold stops_within, build_project, project_commands.
  destruct (given (xmlfile opt)) eqn:Hx.
  - destruct (command_out_stderr_run shell
                (elbe_control sys_executable elbe_exe
                   ("create_project --retries 60 " +:+ quoted (text (xmlfile opt)))) w)
      as (code & out & err & w1 & E1).
    exists (strip out). split; [discriminate|].
    destruct (status_check_run code "elbe control create_project failed." err 160 w1)
      as [[Hc Es]|[Hc Es]].
    + destruct (guarded_run shell
                  (elbe_control sys_executable elbe_exe ("build_pbuilder " +:+ quoted (strip out)))
                  "elbe control build_pbuilder Failed" "Giving up" 161 w1) as (w2 & [E2|E2]).
      * destruct (guarded_run shell
                    (elbe_control sys_executable elbe_exe ("wait_busy " +:+ quoted (strip out)))
                    "elbe control wait_busy Failed" "Giving up" 162 w2) as (w3 & [E3|E3]).
        -- left.
           erewrite bind_run; [| exact E1 | | reflexivity].
           2:{ cbv beta iota.
               eapply bind_run; [exact Es | | reflexivity].
               eapply bind_run; [exact E2 | | reflexivity].
               eapply bind_run; [exact E3 | reflexivity | reflexivity]. }
           split; reflexivity.
        -- right.
           erewrite bind_run; [| exact E1 | | reflexivity].
           2:{ cbv beta iota.
               eapply bind_run; [exact Es | | reflexivity].
               eapply bind_run; [exact E2 | | reflexivity].
               apply (bind_raise _ _ _ _ _ _ E3). }
           cbn [result events app commands]. split.
           ++ right. exists 162. split; [lia | reflexivity].
           ++ right.
              exists [elbe_control sys_executable elbe_exe
                        ("build_pbuilder " +:+ quoted (strip out))],
                     (wait_busy_command sys_executable elbe_exe (strip out)), [].
              split; reflexivity.
      * right.
        erewrite bind_run; [| exact E1 | | reflexivity].
        2:{ cbv beta iota.
            eapply bind_run; [exact Es | | reflexivity].
            apply (bind_raise _ _ _ _ _ _ E2). }
        cbn [result events app commands]. split.
        -- right. exists 161. split; [lia | reflexivity].
        -- right.
           exists [], (elbe_control sys_executable elbe_exe
                         ("build_pbuilder " +:+ quoted (strip out))),
                  [wait_busy_command sys_executable elbe_exe (strip out)].
           split; reflexivity.
    + right.
      erewrite bind_run; [| exact E1 | | reflexivity].
      2:{ cbv beta iota. apply (bind_raise _ _ _ _ _ _ Es). }
      cbn [result events app commands]. split.
      * right. exists 160. split; [lia | reflexivity].
      * left. reflexivity.
  - exists (text (project opt)). split; [reflexivity|].
    destruct (given (project opt)) eqn:Hp.
    + destruct (system_run shell (rm_log_command sys_executable elbe_exe (text (project opt))) w)
        as ([|] & w1 & E); unfold rm_log_command in E.
      * left. rewrite (bind_Ret_eta _ _ _ _ _ _ E). split; reflexivity.
      * right. rewrite (bind_raise _ _ _ _ _ _ E). cbn [result events commands]. split.
        -- left. reflexivity.
        -- right. exists [], (rm_log_command sys_executable elbe_exe (text (project opt))), [].
           split; reflexivity.
    + right. cbn. split.
      * right. exists 163. split; [lia | reflexivity].
      * left. reflexivity.
Qed.

(** How the retrieval ends, with its commands. *)
Lemma build_fetch_steps opt prjdir (w : world R) :
  let r := build_fetch shell sys_executable elbe_exe opt prjdir w in
  let fetch := fetch_command sys_executable elbe_exe opt prjdir in
  (result r = Ret tt /\ commands (events r) = [succeeded fetch])
  \/ (exists dumped,
         result r = Raise (SystemExit (if skip_download opt then 168 else 169))
         /\ commands (events r) =
              [(fetch, false); (dump_file_command sys_executable elbe_exe prjdir, dumped)]
         /\ ends_with (get_files_failed sys_executable elbe_exe fetch prjdir dumped)
              (events r)).
Proof.
  cbv zeta. unfold build_fetch, fetch_command.
  destruct (skip_download opt) eqn:Eskip.
  - destruct (retrieval_run shell sys_executable elbe_exe
                (list_files_command sys_executable elbe_exe prjdir) prjdir 168 w)
      as (w' & [E | [dumped E]]).
    + left.
      erewrite bind_run; [| reflexivity | | reflexivity].
      2:{ do 2 (eapply bind_run; [reflexivity | | reflexivity]).
          eapply bind_run; [exact E | | reflexivity].
          eapply bind_run; [reflexivity | reflexivity | reflexivity]. }
      split; reflexivity.
    + right.
      erewrite bind_run; [| reflexivity | | reflexivity].
      2:{ do 2 (eapply bind_run; [reflexivity | | reflexivity]).
          apply (bind_raise _ _ _ _ _ _ E). }
      cbn [result events]. exists dumped.
      split; [reflexivity|]. split.
      * rewrite !commands_app. destruct dumped; reflexivity.
      * do 3 apply ends_with_app. apply ends_with_refl.
  - set (opt' := match outdir opt with None => set_outdir opt ".." | Some _ => opt end).
    destruct (retrieval_run shell sys_executable elbe_exe
                (get_files_command sys_executable elbe_exe opt' prjdir) prjdir 169 w)
      as (w' & [E | [dumped E]]).
    + left.
      erewrite bind_run; [| reflexivity | | reflexivity].
      2:{ do 2 (eapply bind_run; [reflexivity | | reflexivity]).
          eapply bind_run; [unfold ensure_outdir; eapply bind_run; reflexivity | | reflexivity].
          exact E. }
      split; reflexivity.
    + right.
      erewrite bind_run; [| reflexivity | | reflexivity].
      2:{ do 2 (eapply bind_run; [reflexivity | | reflexivity]).
          eapply bind_run; [unfold ensure_outdir; eapply bind_run; reflexivity | | reflexivity].
          exact E. }
      cbn [result events]. exists dumped.
      split; [reflexivity|]. split.
      * rewrite !commands_app. destruct dumped; reflexivity.
      * do 4 apply ends_with_app. apply ends_with_refl.
Qed.
Ltac flatten_commands :=
  repeat (progress cbn [app map commands] || rewrite map_app || rewrite <- app_assoc).

(** Every run of the build handler has one of four shapes. *)
Lemma BuildAction_execute_shapes opt (w : world R) :
  let r := BuildAction_execute shell sys_executable elbe_exe tmp_fname opt w in
  exists prjdir,
    let pushed := push_commands sys_executable elbe_exe tmp_fname opt prjdir in
    (given (xmlfile opt) = false -> prjdir = text (project opt))
    /\ (stops_within 160 166 pushed r
        \/ wait_fails_after sys_executable elbe_exe prjdir pushed r
        \/ retrieval_fails_after sys_executable elbe_exe opt prjdir pushed r
        \/ retrieved_after sys_executable elbe_exe opt prjdir pushed r).
Proof.
  cbv zeta. unfold BuildAction_execute.
  unfold stops_within, wait_fails_after, retrieval_fails_after, retrieved_after.
  destruct (build_project_steps opt w) as (prjdir & Hp & [[Hr Hc] | [Hr Hc]]);
    exists prjdir; (split; [exact Hp|]).
  2:{ (* the first step stops *)
      left.
      assert (Hk : exists e, result (build_project shell sys_executable elbe_exe opt w) = Raise e).
      { destruct Hr as [Hr|(c & _ & Hr)]; eauto. }
      destruct Hk as [e He].
      rewrite (bind_raise _ _ _ _ _ _ (run_of_result _ _ He)).
      cbn [result events]. rewrite He in Hr. split.
      - destruct Hr as [Hr|(c & Hlo & Hr)]; injection Hr as ->; [now left | right].
        exists c. split; [lia | reflexivity].
      - destruct Hc as [Hc|(done & cmd & rest & Hd & Hc)]; [now left | right].
        exists done, cmd,
          (rest ++ [tar_command tmp_fname]
             ++ map (set_orig_command sys_executable elbe_exe prjdir) (origfile opt)
             ++ [set_pdebuild_command sys_executable elbe_exe tmp_fname opt prjdir]).
        split; [|exact Hc].
        unfold push_commands. rewrite Hd, <- app_assoc. reflexivity. }
  (* the project is known *)
  rewrite (bind_Ret_eta _ _ _ _ _ _ (run_of_result _ _ Hr)). cbn [result events].
  set (evs0 := events (build_project shell sys_executable elbe_exe opt w)) in *.
  set (w0 := after (build_project shell sys_executable elbe_exe opt w)). clearbody evs0 w0.
  set (P := project_commands sys_executable elbe_exe opt prjdir) in *.
  set (tar := tar_command tmp_fname).
  set (orig := set_orig_command sys_executable elbe_exe prjdir).
  set (pdebuild := set_pdebuild_command sys_executable elbe_exe tmp_fname opt prjdir).
  assert (Hpushed : push_commands sys_executable elbe_exe tmp_fname opt prjdir
                    = P ++ [tar] ++ map orig (origfile opt) ++ [pdebuild]) by reflexivity.
  rewrite Hpushed. clear Hpushed.
  (* the archive *)
  destruct (announced_run "" "Packing Source into tmp archive" "" tar
              "tar Failed" "Giving up" 164 w0) as (w1 & [E1|E1]);
    pose proof (E1 : build_pack shell tmp_fname w0 = _) as E1'; clear E1.
  2:{ left. rewrite (bind_raise _ _ _ _ _ _ E1'). cbn [result events]. split.
      - right. exists 164. split; [lia | reflexivity].
      - right. exists P, tar, (map orig (origfile opt) ++ [pdebuild]).
        split; [reflexivity|]. rewrite commands_app, Hc. reflexivity. }
  rewrite (bind_Ret_eta _ _ _ _ _ _ E1'). cbn [result events]. clear E1'.
  (* the orig files *)
  destruct (build_push_orig_cases shell sys_executable elbe_exe prjdir (origfile opt) w1)
    as [[Hr2 Hc2] | (sent & of_ & rest & Ho & Hr2 & Hc2)]; fold orig in Hc2.
  2:{ left. rewrite (bind_raise _ _ _ _ _ _ (run_of_result _ _ Hr2)). cbn [result events].
      split.
      - right. exists 165. split; [lia | reflexivity].
      - right. exists (P ++ [tar] ++ map orig sent), (orig of_), (map orig rest ++ [pdebuild]).
        split.
        + rewrite Ho, map_app. cbn [map]. rewrite <- !app_assoc. reflexivity.
        + rewrite !commands_app, Hc, Hc2. cbn [commands app].
          rewrite !map_app, <- !app_assoc. cbn [map app].
          rewrite (map_map orig succeeded). reflexivity. }
  rewrite (bind_Ret_eta _ _ _ _ _ _ (run_of_result _ _ Hr2)). cbn [result events].
  set (evs2 := events (build_push_orig shell sys_executable elbe_exe prjdir (origfile opt) w1))
    in *.
  set (w2 := after (build_push_orig shell sys_executable elbe_exe prjdir (origfile opt) w1)).
  clearbody evs2 w2.
  assert (Hc2' : commands evs2 = map succeeded (map orig (origfile opt))).
  { rewrite Hc2, map_map. reflexivity. }
  clear Hc2 Hr2.
  (* the source *)
  destruct (announced_run "" "Pushing source into pbuilder" "" pdebuild
              "elbe control set_pdebuild Failed" "Giving up" 166 w2) as (w3 & [E3|E3]);
    pose proof (E3 : build_push_source shell sys_executable elbe_exe tmp_fname opt
                       (if cross opt then "--cross" else "") prjdir w2 = _) as E3'; clear E3.
  2:{ left. rewrite (bind_raise _ _ _ _ _ _ E3'). cbn [result events]. split.
      - right. exists 166. split; [lia | reflexivity].
      - right. exists (P ++ [tar] ++ map orig (origfile opt)), pdebuild, [].
        split; [now rewrite <- !app_assoc|].
        rewrite !commands_app, Hc, Hc2'. cbn [commands app].
        rewrite !map_app, <- !app_assoc. reflexivity. }
  rewrite (bind_Ret_eta _ _ _ _ _ _ E3'). cbn [result events]. clear E3'.
  (* the wait *)
  destruct (guarded_run shell (wait_busy_command sys_executable elbe_exe prjdir)
              "elbe control wait_busy Failed" "Giving up" 167 w3) as (w4 & [E4|E4]);
    pose proof (E4 : build_wait shell sys_executable elbe_exe prjdir w3 = _) as E4'; clear E4.
  2:{ right. left. rewrite (bind_raise _ _ _ _ _ _ E4'). cbn [result events].
      split; [reflexivity|]. split.
      - rewrite !commands_app, Hc, Hc2'. flatten_commands. reflexivity.
      - do 4 apply ends_with_app. apply ends_with_refl. }
  rewrite (bind_Ret_eta _ _ _ _ _ _ E4'). cbn [result events]. clear E4'.
  (* the retrieval *)
  do 3 (erewrite bind_Ret_eta by reflexivity; cbn [result events]).
  destruct (build_fetch_steps opt prjdir w4) as [[Hr5 Hc5] | (dumped & Hr5 & Hc5 & He5)].
  - right. right. right. split; [exact Hr5|].
    rewrite !commands_app, Hc, Hc2', Hc5. flatten_commands. reflexivity.
  - right. right. left. exists dumped. split; [exact Hr5|]. split.
    + rewrite !commands_app, Hc, Hc2', Hc5. flatten_commands. reflexivity.
    + do 8 apply ends_with_app. exact He5.
Qed.
End BuildFailure.

(** C4, as the code has it: every run of the build pipeline stops
    before the wait, or fails in the wait, or fails in the retrieval, or
    goes through.  When the wait command fails, after the commands before
    it, the pipeline prints its two lines and exits with 167, and the wait
    is its last command: the log file is not asked for.  When the retrieval
    command fails, after the wait, the pipeline prints its lines, runs the
    command that dumps the remote log file, reports the failure of that
    command if it fails, and exits with the status of the retrieval (168
    when the files are only listed, 169 when they are fetched) whether the
    dump has succeeded or not. *)
Theorem build_dumps_log_on_retrieval_failure {R} (shell : Shell R)
    sys_executable elbe_exe tmp_fname opt (w : world R) :
  let r := BuildAction_execute shell sys_executable elbe_exe tmp_fname opt w in
  exists prjdir,
    let pushed := push_commands sys_executable elbe_exe tmp_fname opt prjdir in
    let wait := wait_busy_command sys_executable elbe_exe prjdir in
    let fetch := fetch_command sys_executable elbe_exe opt prjdir in
    (given (xmlfile opt) = false -> prjdir = text (project opt))
    /\ (stops_within 160 166 pushed r
        \/ wait_fails_after sys_executable elbe_exe prjdir pushed r
        \/ retrieval_fails_after sys_executable elbe_exe opt prjdir pushed r
        \/ retrieved_after sys_executable elbe_exe opt prjdir pushed r)
    /\ (forall more,
          commands (events r) = map succeeded pushed ++ (wait, false) :: more ->
          wait_fails_after sys_executable elbe_exe prjdir pushed r)
    /\ (forall more,
          commands (events r) = map succeeded (pushed ++ [wait]) ++ (fetch, false) :: more ->
          retrieval_fails_after sys_executable elbe_exe opt prjdir pushed r).
Proof.
  cbv zeta.
  destruct (BuildAction_execute_shapes shell sys_executable elbe_exe tmp_fname opt w)
    as (prjdir & Hp & Hshape).
  exists prjdir. split; [exact Hp|]. split; [exact Hshape|].
  set (r := BuildAction_execute shell sys_executable elbe_exe tmp_fname opt w) in *.
  set (pushed := push_commands sys_executable elbe_exe tmp_fname opt prjdir) in *.
  clearbody r pushed.
  assert (Hlen : forall (l more : list string) c, l <> l ++ c :: more).
  { intros l more c E. apply (f_equal (@List.length string)) in E.
    rewrite List.length_app in E. cbn in E. lia. }
  split; intros more E.
  - destruct Hshape as [[_ [Hc|(done & cmd & rest & Hd & Hc)]] | [H | [(dumped & _ & Hc & _) | [_ Hc]]]].
    + rewrite Hc in E. destruct (map succeeded pushed); discriminate E.
    + rewrite Hc in E. apply succeeded_until_failure in E as (-> & _ & _).
      destruct (Hlen _ _ _ Hd).
    + exact H.
    + rewrite Hc in E. apply succeeded_until_failure in E as (E & _ & _).
      symmetry in E. destruct (Hlen _ _ _ E).
    + rewrite Hc in E. destruct (succeeded_no_failure _ _ _ _ E).
  - destruct Hshape as [[_ [Hc|(done & cmd & rest & Hd & Hc)]] | [(_ & Hc & _) | [H | [_ Hc]]]].
    + rewrite Hc in E. destruct (map succeeded (pushed ++ _)); discriminate E.
    + rewrite Hc in E. apply succeeded_until_failure in E as (-> & _ & _).
      rewrite <- app_assoc in Hd. destruct (Hlen _ _ _ Hd).
    + rewrite Hc in E. apply succeeded_until_failure in E as (E & _ & _).
      destruct (Hlen _ _ _ E).
    + exact H.
    + rewrite Hc in E. destruct (succeeded_no_failure _ _ _ _ E).
Qed.

Lemma build_dumps_log_on_retrieval_failure_witness :
  retrieval_fails_after "python3" "elbe" (options_for_project project_dir0) project_dir0
    (push_commands "python3" "elbe" a_tmp_fname (options_for_project project_dir0)
       project_dir0)
    retrieval_fails_run.
Proof.
  pose proof (build_dumps_log_on_retrieval_failure scripted_shell "python3" "elbe"
                a_tmp_fname (options_for_project project_dir0) retrieval_fails) as H.
  cbv zeta in H. destruct H as (prjdir & Hp & _ & _ & H).
  pose proof (Hp eq_refl) as E. cbn in E. subst prjdir.
  apply (H [(dump_file_command "python3" "elbe" project_dir0, false)]).
  vm_compute. reflexivity.
Defined.


(** * More of the client *)

Section ConnectMore.
Context {R : Type} (service : Service R) (elbe_version : string).

Lemma connect_loop_gives_up fuel self current_retries e (w : world R) :
  connect_error e = true ->
  (forall rem, fst (rpc_Client service (_wsdl self) (_timeout self) rem) = Fault e) ->
  (Z.to_nat (_retries self - current_retries) <= fuel)%nat ->
  exists w',
    connect_loop service (S fuel) self current_retries w =
      Run (Raise e) w'
        (concat (replicate (Z.to_nat (_retries self - current_retries))
                   [failed_attempt self e; Ev_sleep 1000])
         ++ [failed_attempt self e]).
Proof.
  intros He Hall. revert current_retries w.
  induction fuel as [|fuel IH]; intros cr w Hfuel.
  - cbn [connect_loop].
    pose proof (Hall (remote w)) as Hf.
    destruct (rpc_Client service (_wsdl self) (_timeout self) (remote w)) as [rep rem'] eqn:E.
    cbn in Hf. subst rep.
    replace (Z.to_nat (_retries self - cr)) with 0%nat by lia. cbn [replicate concat app].
    assert (Hgt : (cr + 1 >? _retries self) = true) by (apply Z.gtb_lt; lia).
    eexists. apply bind_raise.
    eapply try_except_handled.
    + apply bind_raise. apply invoke_Fault. exact E.
    + rewrite He. reflexivity.
    + rewrite Hgt. reflexivity.
    + reflexivity.
  - cbn [connect_loop].
    pose proof (Hall (remote w)) as Hf.
    destruct (rpc_Client service (_wsdl self) (_timeout self) (remote w)) as [rep rem'] eqn:E.
    cbn in Hf. subst rep.
    destruct (cr + 1 >? _retries self) eqn:Hgt.
    + assert (Hlt : _retries self < cr + 1) by (apply Z.gtb_lt; exact Hgt).
      replace (Z.to_nat (_retries self - cr)) with 0%nat by lia.
      cbn [replicate concat app].
      eexists. apply bind_raise.
      eapply try_except_handled.
      * apply bind_raise. apply invoke_Fault. exact E.
      * rewrite He. reflexivity.
      * reflexivity.
      * reflexivity.
    + assert (Hle : cr + 1 <= _retries self).
      { destruct (Z.gtb_spec (cr + 1) (_retries self)); [discriminate | lia]. }
      destruct (IH (cr + 1)
                  (World rem' (files w) (open_files w))) as [w' E'].
      { lia. }
      exists w'.
      replace (Z.to_nat (_retries self - cr))
        with (S (Z.to_nat (_retries self - (cr + 1)))) by lia.
      cbn [replicate concat].
      eapply bind_run.
      * eapply try_except_handled.
        -- apply bind_raise. apply invoke_Fault. exact E.
        -- rewrite He. reflexivity.
        -- reflexivity.
        -- reflexivity.
      * cbv beta iota. exact E'.
      * reflexivity.
Qed.

(** X6: when every attempt to reach the server fails with an error
    of the connection class, [connect] makes the number of retries plus one
    attempts, sleeps one second after each but the last, and raises the error
    of the last one; with no retries it is one attempt and no sleep. *)
Theorem connect_gives_up fuel self e (w : world R) :
  connect_error e = true ->
  (forall rem, fst (rpc_Client service (_wsdl self) (_timeout self) rem) = Fault e) ->
  (Z.to_nat (_retries self) < fuel)%nat ->
  let r := connect service elbe_version fuel self w in
  result r = Raise e
  /\ events r =
       concat (replicate (Z.to_nat (_retries self)) [failed_attempt self e; Ev_sleep 1000])
       ++ [failed_attempt self e].
Proof.
  intros He Hall Hfuel r. subst r. unfold connect.
  destruct fuel as [|fuel]; [lia|].
  destruct (connect_loop_gives_up fuel self 0 e w He Hall) as [w' E].
  { rewrite Z.sub_0_r. lia. }
  rewrite Z.sub_0_r in E.
  rewrite (bind_raise _ _ _ _ _ _ E). split; reflexivity.
Qed.

(** X7: once the server has answered the version of the client,
    [connect] logs in with the user and the password of the client, as its
    last request, and ends as the login does. *)
Theorem connect_logs_in fuel self (w : world R) :
  let r := connect service elbe_version fuel self w in
  In (Ev_call Call_get_version (Ans (VStr elbe_version))) (events r) ->
  exists rep,
    last (events r) = Some (login_event self rep)
    /\ (result r = Ret tt <-> rep = Ans VNone)
    /\ (forall e, result r = Raise e <-> rep = Fault e).
Proof.
  intros r. assert (Hr : r = connect service elbe_version fuel self w) by reflexivity.
  clearbody r. unfold connect, bind in Hr.
  pose proof (connect_loop_events service fuel self 0 w) as Hloop.
  destruct (connect_loop service fuel self 0 w) as [res w1 evs] eqn:El. cbn in Hloop, Hr.
  assert (Hno : forall ev, In ev evs -> connect_event ev).
  { intros ev Hin. rewrite Forall_forall in Hloop. apply Hloop. apply list_elem_of_In, Hin. }
  destruct res as [[]|e|]; cbn in Hr.
  2,3: subst r; cbn; intros Hin; apply Hno in Hin; destruct Hin.
  unfold service_get_version, invoke in Hr.
  destruct (rpc_get_version service (remote w1)) as [[v|e] rem'] eqn:Ev; cbn in Hr.
  - unfold ElbeVersionMismatch_check in Hr.
    destruct (String.eqb elbe_version v) eqn:Eq; cbn in Hr.
    + unfold service_login, invoke in Hr; cbn in Hr.
      destruct (rpc_login service (_user self) (_passwd self) rem') as [[[]|e] rem''] eqn:Elog;
        cbn in Hr; subst r; cbn; intros _.
      * exists (Ans VNone). rewrite last_app; cbn [last].
        split; [reflexivity|]. split; [tauto|]. intros e; split; discriminate.
      * exists (Fault e). rewrite last_app; cbn [last].
        split; [reflexivity|]. split; [split; discriminate|].
        intros e'; split; intros [= ->]; reflexivity.
    + apply String.eqb_neq in Eq. subst r; cbn. intros Hin.
      rewrite in_app_iff in Hin. destruct Hin as [Hin|[Hin|[]]].
      * apply Hno in Hin; destruct Hin.
      * injection Hin as ->. contradiction.
  - subst r; cbn. intros Hin. rewrite in_app_iff in Hin. destruct Hin as [Hin|[Hin|[]]].
    + apply Hno in Hin; destruct Hin.
    + discriminate.
Qed.
End ConnectMore.

Section UploadTrace.
Context {R : Type}.
Variable size : Z.
Hypothesis size_pos : 0 < size.
Variable mk : string -> string -> call.
Variable rpc : string -> string -> R -> reply unit * R.

Local Abbreviation n := (Z.to_nat size).
Local Abbreviation append := (fun build_dir data => invoke (mk build_dir data) show_unit (rpc build_dir data)).

Lemma upload_loop_returns fuel builddir f (w : world R) :
  result (upload_loop fuel size append builddir f w) = Ret tt ->
  events (upload_loop fuel size append builddir f w) = append_events mk size builddir f.
Proof.
  unfold append_events.
  revert f w. induction fuel as [|fuel IH]; intros f w; [discriminate|].
  cbn [upload_loop]. rewrite b2a_base64_str_b64.
  destruct (rpc builddir (b64 (take n f)) (remote w)) as [[[]|e] rem'] eqn:E.
  - pose proof (invoke_Ans (mk builddir (b64 (take n f))) show_unit
                  (rpc builddir (b64 (take n f))) w tt rem' E) as E1.
    destruct (Z.of_nat (length (take n f)) =? size) eqn:Efull; cbn [negb].
    + apply Z.eqb_eq in Efull. apply full_block in Efull; [|exact size_pos].
      assert (Hev : map (fun i => Ev_call (mk builddir (b64 (block size f i))) (Ans VNone))
                        (seq 0 (length f / n + 1)) =
                    [Ev_call (mk builddir (b64 (take n f))) (Ans VNone)] ++
                    map (fun i => Ev_call (mk builddir (b64 (block size (drop n f) i)))
                                    (Ans VNone))
                        (seq 0 (length (drop n f) / n + 1))).
      { rewrite length_drop.
        rewrite (div_step size size_pos (length f)) by exact Efull.
        replace (S ((length f - n) / n) + 1)%nat with (S ((length f - n) / n + 1)) by lia.
        rewrite map_seq_S. cbn [app]. f_equal.
        apply map_ext. intros i. now rewrite block_S. }
      rewrite Hev.
      rewrite (bind_Ret_eta _ _ _ _ _ _ (eq_refl : ret (b64 (take n f)) w = Run (Ret _) w [])).
      cbn [result events app].
      rewrite (bind_Ret_eta _ _ _ _ _ _ E1). cbn [result events app show_unit].
      intros H. f_equal. apply IH, H.
    + apply Z.eqb_neq in Efull.
      assert (Hshort : (length f < n)%nat).
      { destruct (Nat.lt_ge_cases (length f) n) as [H|H]; [exact H|].
        apply full_block in H; [|exact size_pos]. contradiction. }
      rewrite (bind_Ret_eta _ _ _ _ _ _ (eq_refl : ret (b64 (take n f)) w = Run (Ret _) w [])).
      cbn [result events app].
      rewrite (bind_Ret_eta _ _ _ _ _ _ E1). cbn [result events app show_unit ret].
      intros _. rewrite Nat.div_small by exact Hshort. reflexivity.
  - pose proof (invoke_Fault (mk builddir (b64 (take n f))) show_unit
                  (rpc builddir (b64 (take n f))) w e rem' E) as E1.
    rewrite (bind_Ret_eta _ _ _ _ _ _ (eq_refl : ret (b64 (take n f)) w = Run (Ret _) w [])).
    cbn [result events app].
    rewrite (bind_raise _ _ _ _ _ _ E1). discriminate.
Qed.
End UploadTrace.

Section Setters.
Context {R : Type} (service : Service R).

Lemma MiB_positive : 0 < 1024 * 1024.
Proof. reflexivity. Qed.

Lemma open_rb_Some path content (w : world R) :
  files w !! path = Some content -> open_rb path w = Run (Ret content) w [].
Proof. intros H. unfold open_rb. now rewrite H. Qed.

Lemma open_rb_None path (w : world R) :
  files w !! path = None -> open_rb path w = Run (Raise (FileNotFoundError path)) w [].
Proof. intros H. unfold open_rb. now rewrite H. Qed.

Lemma _upload_file_returns fuel mk rpc builddir filename (w : world R) :
  result (_upload_file fuel
            (fun build_dir data => invoke (mk build_dir data) show_unit (rpc build_dir data))
            builddir filename w) = Ret tt ->
  exists data,
    files w !! filename = Some data
    /\ events (_upload_file fuel
                 (fun build_dir data =>
                    invoke (mk build_dir data) show_unit (rpc build_dir data))
                 builddir filename w) = append_events mk MiB builddir data.
Proof.
  unfold _upload_file. cbv zeta.
  destruct (files w !! filename) as [data|] eqn:Ef.
  - rewrite (bind_Ret_eta _ _ _ _ _ _ (open_rb_Some filename data w Ef)).
    cbn [result events app]. intros H. exists data. split; [reflexivity|].
    apply (upload_loop_returns (1024 * 1024) MiB_positive mk rpc fuel builddir data w H).
  - rewrite (bind_raise _ _ _ _ _ _ (open_rb_None filename w Ef)). discriminate.
Qed.

(** X8: a [set_pdebuild] that returns has sent the start call, the
    blocks of 1 MiB of the file in their order, a last shorter one included,
    and the finish call with the profile and the cross flag, all answered;
    whatever the service. *)
Theorem set_pdebuild_trace fuel builddir pdebuild_file profile cross (w : world R) :
  let r := set_pdebuild service fuel builddir pdebuild_file profile cross w in
  result r = Ret tt ->
  exists data,
    files w !! pdebuild_file = Some data
    /\ events r =
         Ev_call (Call_start_pdebuild builddir) (Ans VNone)
         :: append_events Call_append_pdebuild MiB builddir data
         ++ [Ev_call (Call_finish_pdebuild builddir profile cross) (Ans VNone)].
Proof.
  intros r H. subst r. unfold set_pdebuild in *.
  unfold service_start_pdebuild, service_finish_pdebuild, service_append_pdebuild in *.
  destruct (rpc_start_pdebuild service builddir (remote w)) as [[[]|e] rem1] eqn:E1.
  - pose proof (invoke_Ans (Call_start_pdebuild builddir) show_unit
                  (rpc_start_pdebuild service builddir) w tt rem1 E1) as R1.
    rewrite (bind_Ret_eta _ _ _ _ _ _ R1) in *. cbn [result events] in *.
    set (w1 := World rem1 (files w) (open_files w)) in *.
    match type of H with
    | result (bind ?m ?k w1) = _ =>
        destruct (result (m w1)) as [[]|e|] eqn:E2;
        [ pose proof (_upload_file_returns fuel Call_append_pdebuild
                        (rpc_append_pdebuild service) builddir pdebuild_file w1 E2)
            as (data & Hf & Hev)
        | unfold bind in H; rewrite E2 in H; discriminate H
        | unfold bind in H; rewrite E2 in H; discriminate H ]
    end.
    exists data. split; [exact Hf|].
    unfold bind in H |- *. rewrite E2 in H |- *. cbn [result after events] in *.
    rewrite Hev. cbn [show_unit]. f_equal. f_equal.
    unfold invoke in H |- *.
    destruct (rpc_finish_pdebuild service builddir profile cross _) as [[[]|e] rem3];
      [reflexivity | discriminate H].
  - pose proof (invoke_Fault (Call_start_pdebuild builddir) show_unit
                  (rpc_start_pdebuild service builddir) w e rem1 E1) as R1.
    rewrite (bind_raise _ _ _ _ _ _ R1) in H. discriminate H.
Qed.

(** X9: a [set_cdrom] that returns has sent the start call, the
    blocks of 1 MiB of the file in their order, a last shorter one included,
    and the finish call, all answered; whatever the service. *)
Theorem set_cdrom_trace fuel builddir cdrom_file (w : world R) :
  let r := set_cdrom service fuel builddir cdrom_file w in
  result r = Ret tt ->
  exists data,
    files w !! cdrom_file = Some data
    /\ events r =
         Ev_call (Call_start_cdrom builddir) (Ans VNone)
         :: append_events Call_append_cdrom MiB builddir data
         ++ [Ev_call (Call_finish_cdrom builddir) (Ans VNone)].
Proof.
  intros r H. subst r. unfold set_cdrom in *.
  unfold service_start_cdrom, service_finish_cdrom, service_append_cdrom in *.
  destruct (rpc_start_cdrom service builddir (remote w)) as [[[]|e] rem1] eqn:E1.
  - pose proof (invoke_Ans (Call_start_cdrom builddir) show_unit
                  (rpc_start_cdrom service builddir) w tt rem1 E1) as R1.
    rewrite (bind_Ret_eta _ _ _ _ _ _ R1) in *. cbn [result events] in *.
    set (w1 := World rem1 (files w) (open_files w)) in *.
    match type of H with
    | result (bind ?m ?k w1) = _ =>
        destruct (result (m w1)) as [[]|e|] eqn:E2;
        [ pose proof (_upload_file_returns fuel Call_append_cdrom
                        (rpc_append_cdrom service) builddir cdrom_file w1 E2)
            as (data & Hf & Hev)
        | unfold bind in H; rewrite E2 in H; discriminate H
        | unfold bind in H; rewrite E2 in H; discriminate H ]
    end.
    exists data. split; [exact Hf|].
    unfold bind in H |- *. rewrite E2 in H |- *. cbn [result after events] in *.
    rewrite Hev. cbn [show_unit]. f_equal. f_equal.
    unfold invoke in H |- *.
    destruct (rpc_finish_cdrom service builddir _) as [[[]|e] rem3];
      [reflexivity | discriminate H].
  - pose proof (invoke_Fault (Call_start_cdrom builddir) show_unit
                  (rpc_start_cdrom service builddir) w e rem1 E1) as R1.
    rewrite (bind_raise _ _ _ _ _ _ R1) in H. discriminate H.
Qed.

(** X10: [set_orig] of a file that does not exist has already sent
    the start call when it fails: the start call is its only event, and when
    it is answered the run raises [FileNotFoundError], with no append and no
    finish call, and no local file touched. *)
Theorem set_orig_missing_file fuel builddir orig_file (w : world R) :
  files w !! orig_file = None ->
  let r := set_orig service fuel builddir orig_file w in
  exists rep,
    events r = [Ev_call (Call_start_upload_orig builddir (basename orig_file)) rep]
    /\ files (after r) = files w
    /\ (rep = Ans VNone -> result r = Raise (FileNotFoundError orig_file))
    /\ (forall e, rep = Fault e -> result r = Raise e).
Proof.
  intros Hf r. subst r. unfold set_orig, service_start_upload_orig.
  destruct (rpc_start_upload_orig service builddir (basename orig_file) (remote w))
    as [[[]|e] rem1] eqn:E1.
  - pose proof (invoke_Ans (Call_start_upload_orig builddir (basename orig_file)) show_unit
                  (rpc_start_upload_orig service builddir (basename orig_file)) w tt rem1 E1)
      as R1.
    rewrite (bind_Ret_eta _ _ _ _ _ _ R1).
    assert (E2 : _upload_file fuel (service_append_upload_orig service) builddir orig_file
                   (World rem1 (files w) (open_files w))
                 = Run (Raise (FileNotFoundError orig_file))
                     (World rem1 (files w) (open_files w)) []).
    { unfold _upload_file. cbv zeta. apply bind_raise. apply open_rb_None. exact Hf. }
    rewrite (bind_raise _ _ _ _ _ _ E2). cbn.
    exists (Ans VNone). split; [reflexivity|]. split; [reflexivity|].
    split; [reflexivity | discriminate].
  - pose proof (invoke_Fault (Call_start_upload_orig builddir (basename orig_file)) show_unit
                  (rpc_start_upload_orig service builddir (basename orig_file)) w e rem1 E1)
      as R1.
    rewrite (bind_raise _ _ _ _ _ _ R1). cbn.
    exists (Fault e). split; [reflexivity|]. split; [reflexivity|].
    split; [discriminate | intros e' [= ->]; reflexivity].
Qed.
End Setters.

Section SetXmlBlocks.
Context {R : Type} (service : Service R).
Variable ElbeXML_has : list byte -> string -> bool.

Lemma set_xml_loop_blocks fuel size builddir fp part (w : world R) k d p rep :
  events (set_xml_loop service fuel size builddir fp part w) !! k
    = Some (upload_event builddir d p rep) ->
  d = b64 (block size fp k).
Proof.
  revert fp part w k. induction fuel as [|fuel IH]; intros fp part w k.
  - cbn. rewrite lookup_nil. discriminate.
  - cbn [set_xml_loop]. rewrite b2a_base64_str_b64.
    set (blk := take (Z.to_nat size) fp).
    unfold bind. cbn [ret result after events app].
    assert (Hcall :
      (if (String.length (b64 blk) =? 1)%nat
       then service_upload_file service builddir "source.xml" (b64 blk) (-1)
       else service_upload_file service builddir "source.xml" (b64 blk) part)
      = service_upload_file service builddir "source.xml" (b64 blk) (index_for blk part)).
    { rewrite <- (index_for_length blk part).
      destruct (String.length (b64 blk) =? 1)%nat; reflexivity. }
    rewrite Hcall. clear Hcall.
    unfold service_upload_file, invoke.
    destruct (rpc_upload_file service builddir "source.xml" (b64 blk)
                (index_for blk part) (remote w)) as [[next|e] rem'] eqn:E; cbn.
    + destruct (next =? -1) eqn:E1; cbn.
      { destruct k as [|[|k]]; cbn; [intros [= <- _ _]; reflexivity | discriminate..]. }
      destruct (next =? -2) eqn:E2; cbn.
      { destruct k as [|[|[|k]]]; cbn; [intros [= <- _ _]; reflexivity | discriminate..]. }
      destruct k as [|k]; cbn.
      * intros [= <- _ _]. reflexivity.
      * intros H. apply IH in H. rewrite H. now rewrite block_S.
    + destruct k as [|[|k]]; cbn; [intros [= <- _ _]; reflexivity | discriminate..].
Qed.

(** X11: the [k]-th request of [set_xml] carries the [k]-th block of
    1 MiB of the document, whatever the indices the server grants. *)
Theorem set_xml_sends_blocks fuel builddir filename doc (w : world R) k d p rep :
  files w !! filename = Some doc ->
  let r := set_xml service ElbeXML_has fuel builddir filename w in
  events r !! k = Some (upload_event builddir d p rep) ->
  d = b64 (block (1024 * 1024) doc k).
Proof.
  intros Hf r. subst r. unfold set_xml.
  rewrite (bind_Ret_eta _ _ _ _ _ _ (open_rb_Some filename doc w Hf)).
  destruct (ElbeXML_has doc "target"); cbn [negb].
  - cbv zeta. rewrite (bind_Ret_eta _ _ _ _ _ _ (open_rb_Some filename doc w Hf)).
    cbn [events app]. apply set_xml_loop_blocks.
  - cbn. rewrite lookup_nil. discriminate.
Qed.
End SetXmlBlocks.

Section DownloadClean.
Context {R : Type} (service : Service R).

Lemma a2b_base64_str_decodes data (w : world R) :
  (exists bin_data, decodes data bin_data /\ a2b_base64_str data w = Run (Ret bin_data) w [])
  \/ (exists e, a2b_base64_str data w = Run (Raise e) w []).
Proof.
  unfold a2b_base64_str, decodes.
  destruct (Binascii.encode_ascii data) as [a|]; [|right; eexists; reflexivity].
  destruct (Binascii.a2b_base64 a) as [b|] eqn:Eb; [left|right]; eauto.
Qed.

Lemma download_rest_clean fuel builddir filename dst_fname first retry data old (w : world R) :
  (forall first retry ret_ old w,
      files w !! dst_fname = Some old ->
      result (download_loop service fuel builddir filename dst_fname (Z.of_nat first)
                retry ret_ w) = Ret tt ->
      failures (events (download_loop service fuel builddir filename dst_fname
                          (Z.of_nat first) retry ret_ w)) = 0%nat ->
      fetched builddir filename dst_fname first old w
        (download_loop service fuel builddir filename dst_fname (Z.of_nat first)
           retry ret_ w)) ->
  files w !! dst_fname = Some old ->
  let r := download_rest service fuel builddir filename dst_fname (Z.of_nat first)
             (retry, Some data) w in
  result r = Ret tt ->
  failures (events r) = 0%nat ->
  exists chunks bins,
    get_event builddir filename first data :: events r
      = chunk_events builddir filename first chunks
    /\ Forall2 decodes chunks bins
    /\ files (after r) !! dst_fname = Some (old ++ concat bins)
    /\ open_files (after r) = open_files w ∖ {[dst_fname]}.
Proof.
  intros IH Hold r. subst r. unfold download_rest.
  destruct (String.eqb data "EndOfFile") eqn:Eend.
  - apply String.eqb_eq in Eend. subst data. intros _ _.
    exists [], []. cbn. unfold chunk_events. cbn.
    rewrite Nat.add_0_r, app_nil_r. auto.
  - destruct (a2b_base64_str_decodes data w) as [(bin_data & Hdec & Eb)|[e Eb]].
    + rewrite (bind_Ret_eta _ _ _ _ _ _ Eb). cbn [result events after app].
      set (w1 := World (remote w)
                   (<[dst_fname := default [] (files w !! dst_fname) ++ bin_data]> (files w))
                   (open_files w)).
      assert (Ew : fp_write dst_fname bin_data w = Run (Ret tt) w1 []) by reflexivity.
      rewrite (bind_Ret_eta _ _ _ _ _ _ Ew). cbn [result events after app].
      replace (Z.of_nat first + 1) with (Z.of_nat (S first)) by lia.
      intros Hres Hfail.
      assert (Hold1 : files w1 !! dst_fname = Some (old ++ bin_data)).
      { subst w1. cbn. rewrite lookup_insert_eq, Hold. reflexivity. }
      destruct (IH (S first) retry (Some data) (old ++ bin_data) w1 Hold1 Hres Hfail)
        as (chunks & bins & Hev & Hdecs & Hfile & Hopen).
      exists (data :: chunks), (bin_data :: bins).
      split; [|split; [|split]].
      * rewrite Hev. unfold chunk_events. cbn [imap length]. rewrite Nat.add_0_r.
        cbn [app]. f_equal. f_equal.
        -- apply imap_ext. intros i x _. cbn. f_equal. lia.
        -- f_equal. f_equal. lia.
      * constructor; assumption.
      * rewrite Hfile. cbn [concat]. now rewrite app_assoc.
      * exact Hopen.
    + rewrite (bind_raise _ _ _ _ _ _ Eb). discriminate.
Qed.

Lemma download_loop_clean fuel builddir filename dst_fname first retry ret_ old (w : world R) :
  files w !! dst_fname = Some old ->
  result (download_loop service fuel builddir filename dst_fname (Z.of_nat first)
            retry ret_ w) = Ret tt ->
  failures (events (download_loop service fuel builddir filename dst_fname
                      (Z.of_nat first) retry ret_ w)) = 0%nat ->
  fetched builddir filename dst_fname first old w
    (download_loop service fuel builddir filename dst_fname (Z.of_nat first) retry ret_ w).
Proof.
  revert first retry ret_ old w.
  induction fuel as [|fuel IH]; intros first retry ret_ old w Hold; [discriminate|].
  change (download_loop service (S fuel) builddir filename dst_fname (Z.of_nat first)
            retry ret_ w)
    with (bind
            (try_except
               (let* ret_ := service_get_file service builddir filename (Z.of_nat first) in
                ret (retry, Some ret_))
               (fun e =>
                  match e with
                  | BadStatusLine str_e repr_line =>
                      Some (
                        let retry := retry - 1 in
                        print_stderr ("get_file part " +:+ pretty (Z.of_nat first)
                                      +:+ " failed, retry "
                                      +:+ pretty retry +:+ " times") >>
                        print_stderr str_e >>
                        print_stderr repr_line >>
                        if retry =? 0 then
                          fp_close dst_fname >>
                          print_stderr "file transfer failed" >>
                          raise (SystemExit 170)
                        else ret (retry, ret_))
                  | _ => None
                  end))
            (download_rest service fuel builddir filename dst_fname (Z.of_nat first)) w).
  destruct (rpc_get_file service builddir filename (Z.of_nat first) (remote w))
    as [[data|e] rem'] eqn:E.
  - erewrite bind_Ret_eta;
      [| apply try_except_Ret; eapply bind_run;
         [apply invoke_Ans; exact E | reflexivity | reflexivity]].
    cbn [result events after app failures bad_status Nat.add].
    intros Hres Hfail.
    set (w1 := World rem' (files w) (open_files w)) in *.
    destruct (download_rest_clean fuel builddir filename dst_fname first retry data old w1
                IH Hold Hres Hfail) as (chunks & bins & Hev & Hdecs & Hfile & Hopen).
    exists chunks, bins. auto.
  - destruct e as [| |str_e repr_line| | | | | | | | | | | | |];
      try (erewrite bind_raise;
             [| apply try_except_pass;
                [eapply bind_raise; apply invoke_Fault; exact E | reflexivity]];
           discriminate).
    destruct (retry - 1 =? 0) eqn:Er.
    + erewrite bind_raise;
        [| eapply try_except_handled;
           [eapply bind_raise; apply invoke_Fault; exact E | reflexivity | | reflexivity]].
      2:{ cbv zeta. rewrite Er. cbn. reflexivity. }
      discriminate.
    + erewrite bind_Ret_eta;
        [| eapply try_except_handled;
           [eapply bind_raise; apply invoke_Fault; exact E | reflexivity | | reflexivity]].
      2:{ cbv zeta. rewrite Er. cbn. reflexivity. }
      cbn [result events after app failures bad_status Nat.add].
      intros _ Hfail. discriminate Hfail.
Qed.

(** X12: a download that returns, with no request failed, has asked
    for the chunks 0, 1, ... in order up to the one answered EndOfFile, and
    the destination, closed, holds the decoded chunks one after the other
    and nothing of what it held before. *)
Theorem download_file_writes_chunks fuel builddir filename dst_fname (w : world R) :
  let r := download_file service fuel builddir filename dst_fname w in
  result r = Ret tt ->
  failures (events r) = 0%nat ->
  exists chunks bins,
    events r = chunk_events builddir filename 0 chunks
    /\ Forall2 decodes chunks bins
    /\ files (after r) !! dst_fname = Some (concat bins)
    /\ (dst_fname ∉ open_files (after r)).
Proof.
  intros r. subst r. unfold download_file.
  set (w1 := World (remote w) (<[dst_fname := []]> (files w)) ({[dst_fname]} ∪ open_files w)).
  assert (Eo : open_wb dst_fname w = Run (Ret tt) w1 []) by reflexivity.
  rewrite (bind_Ret_eta _ _ _ _ _ _ Eo). cbn [result events after app].
  intros Hres Hfail.
  assert (Hold : files w1 !! dst_fname = Some []).
  { subst w1. cbn. apply lookup_insert_eq. }
  destruct (download_loop_clean fuel builddir filename dst_fname 0 5 None [] w1
              Hold Hres Hfail) as (chunks & bins & Hev & Hdecs & Hfile & Hopen).
  exists chunks, bins. split; [exact Hev|]. split; [exact Hdecs|]. split; [exact Hfile|].
  change (Z.of_nat 0) with 0 in Hopen. rewrite Hopen.
  intros Hin. apply elem_of_difference in Hin as [_ Hn].
  apply Hn, elem_of_singleton. reflexivity.
Qed.
End DownloadClean.

Lemma prefix_app s1 s2 s : String.prefix (s1 +:+ s2) s = true -> String.prefix s1 s = true.
Proof.
  revert s. induction s1 as [|a s1 IH]; intros s; [destruct s; reflexivity|].
  change (String a s1 +:+ s2) with (String a (s1 +:+ s2)).
  destruct s as [|b s]; cbn; [discriminate|].
  destruct (ascii_dec a b); [apply IH | discriminate].
Qed.

Section GetFilesProofs.
Context {R : Type} (service : Service R).
Variable service_get_files : string -> M R (list string).
Variable fnmatch : string -> string -> bool.
Variable abspath : string -> string.

Lemma grows_refl (w : world R) : grows w w.
Proof. intros p H. exact H. Qed.

Lemma grows_trans (w1 w2 w3 : world R) : grows w1 w2 -> grows w2 w3 -> grows w1 w3.
Proof. intros H1 H2 p H. apply H2, H1, H. Qed.

Lemma started_app evs1 evs2 : started (evs1 ++ evs2) = started evs1 ++ started evs2.
Proof.
  induction evs1 as [|ev evs1 IH]; [reflexivity|].
  destruct ev as [[] ?| | | | | | | |]; cbn; rewrite ?IH; try reflexivity.
  destruct (part =? 0); reflexivity.
Qed.

Lemma download_rest_started fuel builddir filename dst_fname part retry ret_ (w : world R) :
  (forall part retry ret_ w, 1 <= part ->
     started (events (download_loop service fuel builddir filename dst_fname part retry
                        ret_ w)) = []
     /\ grows w (after (download_loop service fuel builddir filename dst_fname part retry
                          ret_ w))) ->
  0 <= part ->
  started (events (download_rest service fuel builddir filename dst_fname part
                     (retry, ret_) w)) = []
  /\ grows w (after (download_rest service fuel builddir filename dst_fname part
                       (retry, ret_) w)).
Proof.
  intros IH Hpart. unfold download_rest.
  destruct ret_ as [data|]; [|split; [reflexivity | apply grows_refl]].
  destruct (String.eqb data "EndOfFile").
  { split; [reflexivity | intros p Hp; exact Hp]. }
  destruct (a2b_base64_str_cases data w) as [[bin_data Eb]|[e Eb]].
  - rewrite (bind_Ret_eta _ _ _ _ _ _ Eb). cbn [result events after app].
    set (w1 := World (remote w)
                 (<[dst_fname := default [] (files w !! dst_fname) ++ bin_data]> (files w))
                 (open_files w)).
    assert (Ew : fp_write dst_fname bin_data w = Run (Ret tt) w1 []) by reflexivity.
    rewrite (bind_Ret_eta _ _ _ _ _ _ Ew). cbn [result events after app].
    destruct (IH (part + 1) retry (Some data) w1) as [H1 H2]; [lia|].
    split; [exact H1|].
    eapply grows_trans; [|exact H2].
    intros p Hp. subst w1. cbn.
    destruct (decide (p = dst_fname)) as [->|N];
      [rewrite lookup_insert_eq; eauto | rewrite lookup_insert_ne by congruence; exact Hp].
  - rewrite (bind_raise _ _ _ _ _ _ Eb). split; [reflexivity | apply grows_refl].
Qed.

Lemma download_loop_started fuel builddir filename dst_fname part retry ret_ (w : world R) :
  0 <= part ->
  started (events (download_loop service fuel builddir filename dst_fname part retry ret_ w))
    = (if fuel is O then [] else if part =? 0 then [filename] else [])
  /\ grows w (after (download_loop service fuel builddir filename dst_fname part retry
                       ret_ w)).
Proof.
  revert part retry ret_ w.
  induction fuel as [|fuel IH]; intros part retry ret_ w Hpart.
  - split; [reflexivity | apply grows_refl].
  - assert (IH1 : forall part retry ret_ w, 1 <= part ->
               started (events (download_loop service fuel builddir filename dst_fname part
                                  retry ret_ w)) = []
               /\ grows w (after (download_loop service fuel builddir filename dst_fname
                                    part retry ret_ w))).
    { intros p r x w0 Hp. destruct (IH p r x w0) as [H1 H2]; [lia|].
      split; [|exact H2]. rewrite H1.
      destruct fuel; [reflexivity|].
      destruct (p =? 0) eqn:E; [apply Z.eqb_eq in E; lia | reflexivity]. }
    change (download_loop service (S fuel) builddir filename dst_fname part retry ret_ w)
      with (bind
              (try_except
                 (let* ret_ := service_get_file service builddir filename part in
                  ret (retry, Some ret_))
                 (fun e =>
                    match e with
                    | BadStatusLine str_e repr_line =>
                        Some (
                          let retry := retry - 1 in
                          print_stderr ("get_file part " +:+ pretty part
                                        +:+ " failed, retry "
                                        +:+ pretty retry +:+ " times") >>
                          print_stderr str_e >>
                          print_stderr repr_line >>
                          if retry =? 0 then
                            fp_close dst_fname >>
                            print_stderr "file transfer failed" >>
                            raise (SystemExit 170)
                          else ret (retry, ret_))
                    | _ => None
                    end))
              (download_rest service fuel builddir filename dst_fname part) w).
    destruct (rpc_get_file service builddir filename part (remote w)) as [[data|e] rem'] eqn:E.
    + erewrite bind_Ret_eta;
        [| apply try_except_Ret; eapply bind_run;
           [apply invoke_Ans; exact E | reflexivity | reflexivity]].
      set (w1 := World rem' (files w) (open_files w)).
      destruct (download_rest_started fuel builddir filename dst_fname part retry (Some data)
                  w1 IH1 Hpart) as [H1 H2].
      cbn [result events after app]. split.
      * cbn [started]. rewrite H1. destruct (part =? 0); reflexivity.
      * exact H2.
    + destruct e as [| |str_e repr_line| | | | | | | | | | | | |];
        try (erewrite bind_raise;
               [| apply try_except_pass;
                  [eapply bind_raise; apply invoke_Fault; exact E | reflexivity]];
             cbn [result events after started];
             split; [destruct (part =? 0); reflexivity | intros p Hp; exact Hp]).
      destruct (retry - 1 =? 0) eqn:Er.
      * erewrite bind_raise;
          [| eapply try_except_handled;
             [eapply bind_raise; apply invoke_Fault; exact E | reflexivity | | reflexivity]].
        2:{ cbv zeta. rewrite Er. cbn. reflexivity. }
        cbn [result events after started app].
        split; [destruct (part =? 0); reflexivity | intros p Hp; exact Hp].
      * erewrite bind_Ret_eta;
          [| eapply try_except_handled;
             [eapply bind_raise; apply invoke_Fault; exact E | reflexivity | | reflexivity]].
        2:{ cbv zeta. rewrite Er. cbn. reflexivity. }
        set (w1 := World rem' (files w) (open_files w)).
        destruct (download_rest_started fuel builddir filename dst_fname part (retry - 1)
                    ret_ w1 IH1 Hpart) as [H1 H2].
        cbn [result events after app]. split.
        -- cbn [started]. rewrite H1. destruct (part =? 0); reflexivity.
        -- exact H2.
Qed.

Lemma download_file_started fuel builddir filename dst_fname (w : world R) :
  result (download_file service fuel builddir filename dst_fname w) = Ret tt ->
  started (events (download_file service fuel builddir filename dst_fname w)) = [filename]
  /\ is_Some (files (after (download_file service fuel builddir filename dst_fname w))
                !! dst_fname)
  /\ grows w (after (download_file service fuel builddir filename dst_fname w)).
Proof.
  unfold download_file.
  set (w1 := World (remote w) (<[dst_fname := []]> (files w)) ({[dst_fname]} ∪ open_files w)).
  assert (Eo : open_wb dst_fname w = Run (Ret tt) w1 []) by reflexivity.
  rewrite (bind_Ret_eta _ _ _ _ _ _ Eo). cbn [result events after app].
  destruct (download_loop_started fuel builddir filename dst_fname 0 5 None w1) as [H1 H2];
    [lia|].
  intros Hres. destruct fuel as [|fuel]; [discriminate Hres|].
  split; [exact H1|].
  assert (Hg : grows w w1).
  { intros p Hp. subst w1. cbn.
    destruct (decide (p = dst_fname)) as [->|N];
      [rewrite lookup_insert_eq; eauto | rewrite lookup_insert_ne by congruence; exact Hp]. }
  split.
  - apply H2. subst w1. cbn. rewrite lookup_insert_eq. eauto.
  - eapply grows_trans; [exact Hg | exact H2].
Qed.

Lemma kept_spec pbuilder_only wildcard name :
  kept fnmatch pbuilder_only wildcard name =
    negb (pbuilder_only && negb (String.prefix "pbuilder_cross" name)
          && negb (String.prefix "pbuilder" name))
    && negb (given wildcard && negb (fnmatch name (text wildcard))).
Proof.
  unfold kept.
  assert (HC : String.prefix "pbuilder_cross" name = true ->
               String.prefix "pbuilder" name = true)
    by apply (prefix_app "pbuilder" "_cross").
  destruct pbuilder_only, (given wildcard), (fnmatch name (text wildcard)),
    (String.prefix "pbuilder" name), (String.prefix "pbuilder_cross" name);
    cbn; try reflexivity; specialize (HC eq_refl); discriminate.
Qed.

Lemma get_files_loop_returns fuel builddir outdir pbuilder_only wildcard names acc
    (w : world R) result_ :
  let r := get_files_loop service fnmatch abspath fuel builddir outdir pbuilder_only
             wildcard names acc w in
  result r = Ret result_ ->
  result_ = acc ++ List.filter (kept fnmatch pbuilder_only wildcard) names
  /\ started (events r) =
       (if given outdir then List.filter (kept fnmatch pbuilder_only wildcard) names else [])
  /\ grows w (after r)
  /\ (given outdir = true ->
      forall name, In name (List.filter (kept fnmatch pbuilder_only wildcard) names) ->
        is_Some (files (after r) !! destination abspath (text outdir) name))
  /\ (given outdir = false -> after r = w /\ events r = []).
Proof.
  cbv zeta. revert acc w.
  induction names as [|name names IH]; intros acc w; cbn [get_files_loop List.filter].
  - intros [= <-]. rewrite app_nil_r.
    split; [reflexivity|]. split; [destruct (given outdir); reflexivity|].
    split; [apply grows_refl|]. split; [intros _ n []|]. auto.
  - rewrite (kept_spec pbuilder_only wildcard name).
    destruct (pbuilder_only && negb (String.prefix "pbuilder_cross" name)
              && negb (String.prefix "pbuilder" name)); cbn [negb andb].
    { apply IH. }
    destruct (given wildcard && negb (fnmatch name (text wildcard))); cbn [negb].
    { apply IH. }
    cbv zeta.
    destruct (given outdir) eqn:Eo.
    + destruct (result (download_file service fuel builddir name
                          (path_join (abspath (text outdir)) (basename name)) w))
        as [[]|e|] eqn:Ed.
      * destruct (download_file_started fuel builddir name
                    (path_join (abspath (text outdir)) (basename name)) w Ed)
          as (S1 & S2 & S3).
        unfold bind at 1 2 3 4 5. rewrite Ed. cbn [result events after].
        intros Hres.
        destruct (IH (acc ++ [name]) _ Hres) as (A1 & A2 & A3 & A4 & _).
        split; [rewrite A1, <- app_assoc; reflexivity|].
        split; [rewrite started_app, S1, A2; reflexivity|].
        split; [eapply grows_trans; [exact S3 | exact A3]|].
        split; [|discriminate].
        intros _ n [<-|Hin].
        -- apply A3. exact S2.
        -- apply A4; [reflexivity | exact Hin].
      * unfold bind. rewrite Ed. discriminate.
      * unfold bind. rewrite Ed. discriminate.
    + rewrite (bind_Ret_eta _ _ _ _ _ _ (eq_refl : ret tt w = Run (Ret tt) w [])).
      cbn [result events after app].
      intros Hres.
      destruct (IH (acc ++ [name]) w Hres) as (A1 & A2 & A3 & _ & A5).
      split; [rewrite A1, <- app_assoc; reflexivity|].
      split; [exact A2|]. split; [exact A3|]. split; [discriminate|].
      intros _. destruct A5 as [B1 B2]; [reflexivity|].
      split; [exact B1 | exact B2].
Qed.

(** X13: [get_files] returns the listed files it keeps, in the order
    of the listing.  Without an output directory it does nothing after the
    listing; with one it downloads exactly the files it returns, in their
    order, and each of them is then at its destination in that directory. *)
Theorem get_files_returns fuel builddir outdir pbuilder_only wildcard (w : world R)
    names w1 evs1 result_ :
  service_get_files builddir w = Run (Ret names) w1 evs1 ->
  let r := get_files service service_get_files fnmatch abspath fuel builddir outdir
             pbuilder_only wildcard w in
  result r = Ret result_ ->
  result_ = List.filter (kept fnmatch pbuilder_only wildcard) names
  /\ (exists evs, events r = evs1 ++ evs
        /\ started evs = (if given outdir then result_ else []))
  /\ (given outdir = true ->
      forall name, In name result_ ->
        is_Some (files (after r) !! destination abspath (text outdir) name))
  /\ (given outdir = false -> after r = w1 /\ events r = evs1).
Proof.
  intros El r. subst r. unfold get_files.
  rewrite (bind_Ret_eta _ _ _ _ _ _ El). cbn [result events after].
  intros Hres.
  destruct (get_files_loop_returns fuel builddir outdir pbuilder_only wildcard names [] w1
              result_ Hres) as (A1 & A2 & A3 & A4 & A5).
  cbn [app] in A1. subst result_.
  split; [reflexivity|]. split; [eexists; split; [reflexivity | exact A2]|].
  split; [exact A4|].
  intros Ho. destruct (A5 Ho) as [B1 B2]. rewrite B1, B2, app_nil_r. auto.
Qed.

(** X14: with [pbuilder_only], every file that [get_files] returns
    has a name that starts with pbuilder. *)
Theorem get_files_pbuilder_only fuel builddir outdir wildcard (w : world R) result_ :
  let r := get_files service service_get_files fnmatch abspath fuel builddir outdir
             true wildcard w in
  result r = Ret result_ ->
  Forall (fun name => String.prefix "pbuilder" name = true) result_.
Proof.
  intros r. subst r. unfold get_files.
  destruct (service_get_files builddir w) as [res w1 evs1] eqn:El.
  destruct res as [names|e|];
    [| rewrite (bind_raise _ _ _ _ _ _ El); discriminate
     | rewrite (bind_out_of_fuel _ _ _ _ _ El); discriminate].
  rewrite (bind_Ret_eta _ _ _ _ _ _ El). cbn [result].
  intros Hres.
  destruct (get_files_loop_returns fuel builddir outdir true wildcard names [] w1
              result_ Hres) as (A1 & _).
  cbn [app] in A1. subst result_.
  apply Forall_forall. intros name Hin.
  apply list_elem_of_In, filter_In in Hin as [_ Hk].
  unfold kept in Hk. cbn [negb orb] in Hk. apply andb_true_iff in Hk as [Hk _]. exact Hk.
Qed.
End GetFilesProofs.

(** * Facts: the checks of a configuration document *)

Module ValidateFacts.
Import Validate.

Lemma https_url_exists urls :
  https_url urls = true <->
  exists url, In url urls
    /\ (String.prefix "https" (findtext ["binary"] "" url) = true
        \/ String.prefix "https" (findtext ["source"] "" url) = true).
Proof.
  induction urls as [|url urls IH]; cbn [https_url].
  - split; [discriminate | intros (url & [] & _)].
  - destruct (String.prefix "https" (findtext ["binary"] "" url)
              || String.prefix "https" (findtext ["source"] "" url)) eqn:E.
    + split; [|reflexivity]. intros _. exists url. split; [now left|].
      apply orb_true_iff in E. exact E.
    + rewrite IH. apply orb_false_iff in E as [E1 E2]. split.
      * intros (u & Hin & H). exists u. split; [now right | exact H].
      * intros (u & [->|Hin] & H).
        -- rewrite E1, E2 in H. destruct H; discriminate.
        -- exists u. auto.
Qed.

Lemma errors_differ : custom_key_error <> https_mirror_error.
Proof. intros H. apply String.eqb_eq in H. vm_compute in H. discriminate H. Qed.

(** X15: the content check reports at most its two errors, each at
    most once and the custom key one first, however many mirrors the
    document has. *)
Theorem validate_xml_content_errors xml errors :
  validate_xml_content xml = Errors errors ->
  errors = []
  \/ errors = [custom_key_error]
  \/ errors = [https_mirror_error]
  \/ errors = [custom_key_error; https_mirror_error].
Proof.
  unfold validate_xml_content.
  destruct (find ["target"; "debootstrapvariant"] xml) as [d|].
  - destruct (text d) as [t|]; [|discriminate].
    destruct (_ && _ && _);
      destruct (negb _ && _); try destruct (https_url _); intros [= <-]; cbn; auto.
  - destruct (negb _ && true); try destruct (https_url _); intros [= <-]; cbn; auto.
Qed.

(** X16: the content check reports the HTTPS mirror error exactly
    when the primary protocol is not https in any letter case, the
    debootstrap variant, if there is one, does not include
    apt-transport-https, and some mirror url has a binary or a source line
    that starts with https. *)
Theorem https_mirror_error_iff xml errors :
  validate_xml_content xml = Errors errors ->
  (In https_mirror_error errors <->
   lower (findtext ["project"; "mirror"; "primary_proto"] "" xml) <> "https"
   /\ (forall d, find ["target"; "debootstrapvariant"] xml = Some d ->
         contains "apt-transport-https" (get "includepkgs" "" (attrib d)) = false)
   /\ exists url,
        In url (findall ["project"; "mirror"; "url-list"; "url"] xml)
        /\ (String.prefix "https" (findtext ["binary"] "" url) = true
            \/ String.prefix "https" (findtext ["source"] "" url) = true)).
Proof.
  unfold validate_xml_content.
  rewrite <- https_url_exists.
  assert (Hin : forall l : list string,
             (forall x, In x l -> x = custom_key_error) ->
             In https_mirror_error (l ++ [https_mirror_error])
             /\ ~ In https_mirror_error l).
  { intros l Hl. split; [apply in_or_app; right; now left|].
    intros H. apply Hl in H. symmetry in H. exact (errors_differ H). }
  destruct (find ["target"; "debootstrapvariant"] xml) as [d|].
  - destruct (text d) as [t|]; [|discriminate].
    set (base := if _ && _ && _ then [custom_key_error] else []).
    assert (Hbase : forall x, In x base -> x = custom_key_error).
    { subst base. destruct (_ && _ && _); intros x H;
        [destruct H as [<-|[]]; reflexivity | destruct H]. }
    destruct (Hin base Hbase) as [Hyes Hno]. clearbody base.
    destruct (String.eqb (lower _) "https") eqn:Ep; cbn [negb andb].
    + apply String.eqb_eq in Ep. intros [= <-]. split; [contradiction|].
      intros (N & _). contradiction.
    + apply String.eqb_neq in Ep.
      destruct (contains "apt-transport-https" _) eqn:Ea; cbn [negb].
      * intros [= <-]. split; [contradiction|].
        intros (_ & H & _). specialize (H d eq_refl). congruence.
      * destruct (https_url _) eqn:Eu; intros [= <-].
        -- split; [|intros _; exact Hyes]. intros _.
           split; [exact Ep|]. split; [|reflexivity].
           intros d' [= <-]. exact Ea.
        -- split; [contradiction|]. intros (_ & _ & H). discriminate H.
  - set (base := @nil string).
    destruct (String.eqb (lower _) "https") eqn:Ep; cbn [negb andb].
    + apply String.eqb_eq in Ep. intros [= <-]. split; [intros []|].
      intros (N & _). contradiction.
    + apply String.eqb_neq in Ep.
      destruct (https_url _) eqn:Eu; intros [= <-].
      * split; [|intros _; now left]. intros _.
        split; [exact Ep|]. split; [discriminate | reflexivity].
      * split; [intros []|]. intros (_ & _ & H). discriminate H.
Qed.

(** X17: the content check raises [TypeError] exactly when the
    document has a debootstrap variant element without text. *)
Theorem validate_xml_content_TypeError xml :
  validate_xml_content xml = TypeError <->
  exists d, find ["target"; "debootstrapvariant"] xml = Some d /\ text d = None.
Proof.
  unfold validate_xml_content.
  destruct (find ["target"; "debootstrapvariant"] xml) as [d|].
  - destruct (text d) as [t|] eqn:Et.
    + split; [discriminate|]. intros (d' & [= <-] & H). congruence.
    + split; [|reflexivity]. intros _. exists d. auto.
  - split; [discriminate|]. intros (d & H & _). discriminate H.
Qed.

(** X18: a debootstrap variant that includes gnupg and
    apt-transport-https silences both errors of the content check. *)
Theorem includepkgs_silence_the_errors xml d t :
  find ["target"; "debootstrapvariant"] xml = Some d ->
  text d = Some t ->
  contains "gnupg" (get "includepkgs" "" (attrib d)) = true ->
  contains "apt-transport-https" (get "includepkgs" "" (attrib d)) = true ->
  validate_xml_content xml = Errors [].
Proof.
  intros Hd Ht Hg Ha. unfold validate_xml_content.
  rewrite Hd, Ht, Hg, Ha. cbn [negb andb].
  rewrite andb_false_r, andb_false_r. reflexivity.
Qed.

End ValidateFacts.

(** * Facts: running commands *)

Module ShellhelperFacts.
Import Shellhelper.

Lemma update_lookup env new k :
  update env new !! k = match new !! k with Some v => Some v | None => env !! k end.
Proof.
  unfold update. destruct (new !! k) as [v|] eqn:E.
  - apply lookup_union_Some_l. exact E.
  - apply lookup_union_r. exact E.
Qed.

(** X19: [chroot] never goes through a shell of the host: it runs
    [/usr/sbin/chroot] on the directory, with [/bin/sh -c] for a command
    text and the arguments as they are otherwise, and passes [check] on.  In
    the environment an entry of [env_add] wins over the C locale of the
    three locale variables, which wins over the environment of the
    process. *)
Theorem chroot_invocation environ directory cmd check env_add :
  let i := chroot environ directory cmd check env_add in
  run_shell i = false
  /\ run_check i = check
  /\ run_cmd i =
       Args (["/usr/sbin/chroot"; directory]
             ++ match cmd with
                | Text cmd => ["/bin/sh"; "-c"; cmd]
                | Args cmd => cmd
                end)
  /\ (forall k,
        run_env i !! k =
          match some_entries env_add !! k with
          | Some v => Some v
          | None => if bool_decide (k ∈ locale_keys) then Some "C" else environ !! k
          end).
Proof.
  intros i. subst i.
  assert (Henv : forall k,
             update environ
               (update (<["LANG" := "C"]> (<["LANGUAGE" := "C"]> (<["LC_ALL" := "C"]> ∅)))
                  (some_entries env_add)) !! k =
             match some_entries env_add !! k with
             | Some v => Some v
             | None => if bool_decide (k ∈ locale_keys) then Some "C" else environ !! k
             end).
  { intros k. rewrite !update_lookup.
    destruct (some_entries env_add !! k) as [v|]; [reflexivity|].
    unfold locale_keys.
    destruct (decide (k = "LANG")) as [->|N1].
    { rewrite lookup_insert_eq, bool_decide_eq_true_2; [reflexivity|]. set_solver. }
    rewrite lookup_insert_ne by congruence.
    destruct (decide (k = "LANGUAGE")) as [->|N2].
    { rewrite lookup_insert_eq, bool_decide_eq_true_2; [reflexivity|]. set_solver. }
    rewrite lookup_insert_ne by congruence.
    destruct (decide (k = "LC_ALL")) as [->|N3].
    { rewrite lookup_insert_eq, bool_decide_eq_true_2; [reflexivity|]. set_solver. }
    rewrite lookup_insert_ne by congruence. rewrite lookup_empty.
    rewrite bool_decide_eq_false_2; [reflexivity|].
    rewrite !elem_of_cons, elem_of_nil. intuition congruence. }
  unfold chroot. destruct cmd as [cmd|cmd];
    (split; [reflexivity|]; split; [reflexivity|]; split; [reflexivity|]); exact Henv.
Qed.

End ShellhelperFacts.

(** * More properties at concrete runs *)

Lemma BuildAction_execute_success_witness :
  result build_run = Ret tt
  /\ commands (events build_run) =
       map succeeded
         (build_commands "python3" "elbe" a_tmp_fname options_with_orig project_dir0).
Proof.
  assert (E : result build_run = Ret tt) by (vm_compute; reflexivity).
  split; [exact E|].
  destruct (BuildAction_execute_success scripted_shell "python3" "elbe" a_tmp_fname
              options_with_orig (World [] ∅ ∅) E) as (prjdir & Hp & Hc).
  rewrite (Hp eq_refl) in Hc. exact Hc.
Defined.

Lemma connect_gives_up_witness :
  connect_error URLError = true
  /\ (Z.to_nat (_retries impatient_client) < 3)%nat
  /\ result unreachable_run = Raise URLError
  /\ events unreachable_run =
       concat (replicate 2 [failed_attempt impatient_client URLError; Ev_sleep 1000])
       ++ [failed_attempt impatient_client URLError].
Proof.
  assert (H1 : connect_error URLError = true) by reflexivity.
  assert (H2 : (Z.to_nat (_retries impatient_client) < 3)%nat) by (vm_compute; lia).
  split; [exact H1|]. split; [exact H2|].
  apply (connect_gives_up unreachable "14.9" 3 impatient_client URLError (world0 tt []) H1);
    [intros rem; reflexivity | exact H2].
Defined.

Lemma connect_logs_in_witness :
  In (Ev_call Call_get_version (Ans (VStr "14.9"))) (events login_run)
  /\ last (events login_run) = Some (login_event a_client (Ans VNone))
  /\ result login_run = Ret tt.
Proof.
  assert (E : In (Ev_call Call_get_version (Ans (VStr "14.9"))) (events login_run))
    by (vm_compute; right; left; reflexivity).
  assert (L : last (events login_run) = Some (login_event a_client (Ans VNone)))
    by (vm_compute; reflexivity).
  split; [exact E|]. split; [exact L|].
  destruct (connect_logs_in scripted "14.9" 3 a_client
              (world0 [Ans VNone; Ans (VStr "14.9"); Ans VNone] []) E) as (rep & Hl & Hr & _).
  apply Hr. unfold login_run in L. rewrite L in Hl. injection Hl as Hl. symmetry. exact Hl.
Defined.

Lemma set_pdebuild_trace_witness :
  result pdebuild_run = Ret tt
  /\ events pdebuild_run =
       Ev_call (Call_start_pdebuild project_dir0) (Ans VNone)
       :: append_events Call_append_pdebuild MiB project_dir0 hello
       ++ [Ev_call (Call_finish_pdebuild project_dir0 "" false) (Ans VNone)].
Proof.
  assert (E : result pdebuild_run = Ret tt) by (vm_compute; reflexivity).
  split; [exact E|].
  destruct (set_pdebuild_trace scripted 1 project_dir0 archive_name "" false archive_world E)
    as (data & Hf & Hev).
  assert (F : files archive_world !! archive_name = Some hello) by (vm_compute; reflexivity).
  rewrite F in Hf. injection Hf as <-. exact Hev.
Defined.

Lemma set_cdrom_trace_witness :
  result cdrom_run = Ret tt
  /\ events cdrom_run =
       Ev_call (Call_start_cdrom project_dir0) (Ans VNone)
       :: append_events Call_append_cdrom MiB project_dir0 hello
       ++ [Ev_call (Call_finish_cdrom project_dir0) (Ans VNone)].
Proof.
  assert (E : result cdrom_run = Ret tt) by (vm_compute; reflexivity).
  split; [exact E|].
  destruct (set_cdrom_trace scripted 1 project_dir0 archive_name archive_world E)
    as (data & Hf & Hev).
  assert (F : files archive_world !! archive_name = Some hello) by (vm_compute; reflexivity).
  rewrite F in Hf. injection Hf as <-. exact Hev.
Defined.

Lemma set_orig_missing_file_witness :
  files no_file !! "src/hello_1.0.orig.tar.gz" = None
  /\ events missing_run =
       [Ev_call (Call_start_upload_orig project_dir0 "hello_1.0.orig.tar.gz") (Ans VNone)]
  /\ result missing_run = Raise (FileNotFoundError "src/hello_1.0.orig.tar.gz").
Proof.
  assert (F : files no_file !! "src/hello_1.0.orig.tar.gz" = None)
    by (vm_compute; reflexivity).
  assert (E : events missing_run =
              [Ev_call (Call_start_upload_orig project_dir0 "hello_1.0.orig.tar.gz")
                 (Ans VNone)]) by (vm_compute; reflexivity).
  split; [exact F|]. split; [exact E|].
  destruct (set_orig_missing_file scripted 1 project_dir0 "src/hello_1.0.orig.tar.gz"
              no_file F) as (rep & Hev & _ & Hr & _).
  apply Hr. unfold missing_run in E. rewrite E in Hev. injection Hev as Hev.
  symmetry. exact Hev.
Defined.

Lemma set_xml_sends_blocks_witness :
  files one_block_upload !! "source.xml" = Some (bytes_of "<ns0:RootFileSystem/>")
  /\ events one_block_run !! 1%nat =
       Some (upload_event project_dir0 (b64 []) (-1) (Ans (VInt (-2))))
  /\ b64 [] = b64 (block (1024 * 1024) (bytes_of "<ns0:RootFileSystem/>") 1).
Proof.
  assert (F : files one_block_upload !! "source.xml"
              = Some (bytes_of "<ns0:RootFileSystem/>")) by (vm_compute; reflexivity).
  assert (E : events one_block_run !! 1%nat =
              Some (upload_event project_dir0 (b64 []) (-1) (Ans (VInt (-2)))))
    by (vm_compute; reflexivity).
  split; [exact F|]. split; [exact E|].
  exact (set_xml_sends_blocks scripted (fun _ _ => true) 3 project_dir0 "source.xml"
           (bytes_of "<ns0:RootFileSystem/>") one_block_upload 1 (b64 []) (-1)
           (Ans (VInt (-2))) F E).
Defined.

Lemma download_file_writes_chunks_witness :
  result clean_run = Ret tt
  /\ failures (events clean_run) = 0%nat
  /\ exists chunks bins,
       events clean_run = chunk_events project_dir0 "pbuilder/result.deb" 0 chunks
       /\ Forall2 decodes chunks bins
       /\ files (after clean_run) !! "out/result.deb" = Some (concat bins)
       /\ ("out/result.deb" ∉ open_files (after clean_run)).
Proof.
  assert (E : result clean_run = Ret tt) by (vm_compute; reflexivity).
  assert (N : failures (events clean_run) = 0%nat) by (vm_compute; reflexivity).
  split; [exact E|]. split; [exact N|].
  exact (download_file_writes_chunks scripted 5 project_dir0 "pbuilder/result.deb"
           "out/result.deb" (world0 [chunk_ABC; chunk_ABC; end_of_file] []) E N).
Defined.

Lemma get_files_returns_witness :
  listing project_dir0 two_downloads
    = Run (Ret ["pbuilder/hello_1.0_amd64.deb"; "log.txt";
                "pbuilder_cross/hello_1.0_armhf.deb"]) two_downloads []
  /\ result get_files_run =
       Ret ["pbuilder/hello_1.0_amd64.deb"; "pbuilder_cross/hello_1.0_armhf.deb"]
  /\ is_Some (files (after get_files_run) !! "/work/out/hello_1.0_armhf.deb").
Proof.
  assert (L : listing project_dir0 two_downloads
              = Run (Ret ["pbuilder/hello_1.0_amd64.deb"; "log.txt";
                          "pbuilder_cross/hello_1.0_armhf.deb"]) two_downloads [])
    by reflexivity.
  assert (E : result get_files_run =
              Ret ["pbuilder/hello_1.0_amd64.deb"; "pbuilder_cross/hello_1.0_armhf.deb"])
    by (vm_compute; reflexivity).
  split; [exact L|]. split; [exact E|].
  destruct (get_files_returns scripted listing any_name in_work 3 project_dir0 (Some "out")
              true None two_downloads _ _ _ _ L E) as (_ & _ & H & _).
  apply (H eq_refl "pbuilder_cross/hello_1.0_armhf.deb"). right. left. reflexivity.
Defined.

Lemma get_files_pbuilder_only_witness :
  result get_files_run =
    Ret ["pbuilder/hello_1.0_amd64.deb"; "pbuilder_cross/hello_1.0_armhf.deb"]
  /\ Forall (fun name => String.prefix "pbuilder" name = true)
       ["pbuilder/hello_1.0_amd64.deb"; "pbuilder_cross/hello_1.0_armhf.deb"].
Proof.
  assert (E : result get_files_run =
              Ret ["pbuilder/hello_1.0_amd64.deb"; "pbuilder_cross/hello_1.0_armhf.deb"])
    by (vm_compute; reflexivity).
  split; [exact E|].
  exact (get_files_pbuilder_only scripted listing any_name in_work 3 project_dir0
           (Some "out") None two_downloads _ E).
Defined.

Lemma validate_xml_content_errors_witness :
  Validate.validate_xml_content (mirror_doc [])
    = Validate.Errors [Validate.custom_key_error; Validate.https_mirror_error]
  /\ ([Validate.custom_key_error; Validate.https_mirror_error] = []
      \/ [Validate.custom_key_error; Validate.https_mirror_error]
         = [Validate.custom_key_error]
      \/ [Validate.custom_key_error; Validate.https_mirror_error]
         = [Validate.https_mirror_error]
      \/ [Validate.custom_key_error; Validate.https_mirror_error]
         = [Validate.custom_key_error; Validate.https_mirror_error]).
Proof.
  assert (E : Validate.validate_xml_content (mirror_doc [])
              = Validate.Errors [Validate.custom_key_error; Validate.https_mirror_error])
    by (vm_compute; reflexivity).
  split; [exact E|].
  exact (ValidateFacts.validate_xml_content_errors (mirror_doc []) _ E).
Defined.

Lemma https_mirror_error_iff_witness :
  Validate.validate_xml_content (mirror_doc [("includepkgs", "gnupg")])
    = Validate.Errors [Validate.https_mirror_error]
  /\ exists url,
       In url (Validate.findall ["project"; "mirror"; "url-list"; "url"]
                 (mirror_doc [("includepkgs", "gnupg")]))
       /\ (String.prefix "https" (Validate.findtext ["binary"] "" url) = true
           \/ String.prefix "https" (Validate.findtext ["source"] "" url) = true).
Proof.
  assert (E : Validate.validate_xml_content (mirror_doc [("includepkgs", "gnupg")])
              = Validate.Errors [Validate.https_mirror_error])
    by (vm_compute; reflexivity).
  split; [exact E|].
  apply (ValidateFacts.https_mirror_error_iff (mirror_doc [("includepkgs", "gnupg")]) _ E).
  left. reflexivity.
Defined.

Lemma includepkgs_silence_the_errors_witness :
  Validate.find ["target"; "debootstrapvariant"]
    (mirror_doc [("includepkgs", "gnupg,apt-transport-https")])
    = Some (minbase_variant [("includepkgs", "gnupg,apt-transport-https")])
  /\ Validate.validate_xml_content
       (mirror_doc [("includepkgs", "gnupg,apt-transport-https")]) = Validate.Errors [].
Proof.
  assert (F : Validate.find ["target"; "debootstrapvariant"]
                (mirror_doc [("includepkgs", "gnupg,apt-transport-https")])
              = Some (minbase_variant [("includepkgs", "gnupg,apt-transport-https")]))
    by reflexivity.
  split; [exact F|].
  apply (ValidateFacts.includepkgs_silence_the_errors _ _ "minbase" F);
    [reflexivity | vm_compute; reflexivity | vm_compute; reflexivity].
Defined.
